(** * Verification of the disclosure extraction engine ([extractor.py])

    A shallow embedding of [extractor.py]: the normalizers, the table
    extractors, the two per-variant report parsers and the batch loop of
    [main], followed by the properties proved about them.

    Conventions of the embedding.
    - A Python [str] is a [string]; every character stands for the code
      point of the same number (0..255).
    - A Python function that may raise returns a [result]; [try]/[except]
      is [try_except].  A list that [main] mutates in place is a field of
      the explicit [batch] state.
    - A [dict] with a fixed key set is a record.
    - The parsed markup tree ([BeautifulSoup]) is the inductive type [node];
      an element of a document is addressed by its place in the reading
      order of the document, the pre-order listing [document_order].
    - The free-form date reader [pd.to_datetime(s, errors='coerce')] is a
      parameter of the development; the other library calls are modelled
      by definitions. *)

From Stdlib Require Import String Ascii List Bool Arith NArith ZArith QArith Lia.
From Stdlib Require Import DecimalString.
Import ListNotations.

Local Open Scope string_scope.
Local Open Scope list_scope.

Set Implicit Arguments.

(* ===================================================================== *)
(** * Part I: definitions *)
(* ===================================================================== *)

(* --------------------------------------------------------------------- *)
(** ** Exceptions *)
(* --------------------------------------------------------------------- *)

(** The exception classes that occur in the embedded code.  All of them
    derive from [Exception]. *)
Inductive exc_class : Type :=
| ValueError
| IndexError
| AttributeError
| RecursionError
| NotImplementedError.

Definition exc_class_eqb (a b : exc_class) : bool :=
  match a, b with
  | ValueError, ValueError
  | IndexError, IndexError
  | AttributeError, AttributeError
  | RecursionError, RecursionError
  | NotImplementedError, NotImplementedError => true
  | _, _ => false
  end.

(** An exception value: its class and the text that [str(e)] gives. *)
Record exc : Type := Exc { exc_cls : exc_class; exc_msg : string }.

Inductive result (A : Type) : Type :=
| Return (a : A)
| Raise (e : exc).

Arguments Return {A} a.
Arguments Raise {A} e.

Definition bind {A B : Type} (m : result A) (k : A -> result B) : result B :=
  match m with
  | Return a => k a
  | Raise e => Raise e
  end.

Declare Scope py_scope.
Delimit Scope py_scope with py.
Notation "x <- m ;; k" := (bind m (fun x => k))
  (at level 61, m at next level, right associativity) : py_scope.
Local Open Scope py_scope.

(** [try: body  except (c1, ..., cn): handler]. *)
Definition try_except {A : Type} (body : result A) (classes : list exc_class)
    (handler : result A) : result A :=
  match body with
  | Return a => Return a
  | Raise e =>
      if existsb (exc_class_eqb (exc_cls e)) classes then handler else Raise e
  end.

(** [for x in xs: out.extend(body(x))], where [body] may raise. *)
Fixpoint for_extend {A B : Type} (body : A -> result (list B)) (xs : list A)
    : result (list B) :=
  match xs with
  | [] => Return []
  | x :: xs' =>
      ys <- body x ;;
      zs <- for_extend body xs' ;;
      Return (ys ++ zs)
  end.

(* --------------------------------------------------------------------- *)
(** ** Python strings *)
(* --------------------------------------------------------------------- *)

(** [str.isspace] on one character: the white space of code points below
    256 (TAB..CR, FS..US, SPACE, NEL, NBSP).  The regular-expression class
    [\s] is the same set. *)
Definition isspace (c : ascii) : bool :=
  let n := N_of_ascii c in
  ((9 <=? n) && (n <=? 13) || (28 <=? n) && (n <=? 32)
   || (n =? 133) || (n =? 160))%N.

Fixpoint lstrip_by (sp : ascii -> bool) (s : string) : string :=
  match s with
  | EmptyString => EmptyString
  | String c s' => if sp c then lstrip_by sp s' else s
  end.

Fixpoint rstrip_by (sp : ascii -> bool) (s : string) : string :=
  match s with
  | EmptyString => EmptyString
  | String c s' =>
      match rstrip_by sp s' with
      | EmptyString => if sp c then EmptyString else String c EmptyString
      | r => String c r
      end
  end.

Definition lstrip : string -> string := lstrip_by isspace.
Definition rstrip : string -> string := rstrip_by isspace.

(** [s.strip()]. *)
Definition strip (s : string) : string := rstrip (lstrip s).

(** Python truthiness of a string. *)
Definition truthy (s : string) : bool :=
  match s with EmptyString => false | _ => true end.

(** [a or b] on strings. *)
Definition str_or (a b : string) : string := if truthy a then a else b.

(** [s.startswith(p)]. *)
Fixpoint startswith (p s : string) : bool :=
  match p, s with
  | EmptyString, _ => true
  | String a p', String b s' => Ascii.eqb a b && startswith p' s'
  | String _ _, EmptyString => false
  end.

(** [sub in s]. *)
Fixpoint contains (sub s : string) : bool :=
  startswith sub s ||
  match s with
  | EmptyString => false
  | String _ s' => contains sub s'
  end.

(** [s.endswith(p)]. *)
Definition endswith (p s : string) : bool :=
  (String.length p <=? String.length s)%nat
  && String.eqb (substring (String.length s - String.length p) (String.length p) s) p.

(** The scan of [s.replace(old, new)] for a non-empty [old]: [skip] counts
    the characters of a match that was just replaced and are still to be
    dropped. *)
Fixpoint replace_scan (old new : string) (skip : nat) (s : string) : string :=
  match s with
  | EmptyString => EmptyString
  | String c s' =>
      match skip with
      | S k => replace_scan old new k s'
      | O =>
          if startswith old s
          then new ++ replace_scan old new (String.length old - 1) s'
          else String c (replace_scan old new 0 s')
      end
  end.

(** [s.replace(old, new)], all non-overlapping occurrences from the left
    ([old] is never empty in the embedded code). *)
Definition replace (old new s : string) : string := replace_scan old new 0 s.

(** The text without every occurrence of one character. *)
Fixpoint without (c : ascii) (s : string) : string :=
  match s with
  | EmptyString => EmptyString
  | String a s' => if Ascii.eqb c a then without c s' else String a (without c s')
  end.

(** [s.split(sep)] for a one-character separator. *)
Fixpoint split (sep : ascii) (s : string) : list string :=
  match s with
  | EmptyString => [EmptyString]
  | String c s' =>
      if Ascii.eqb c sep then EmptyString :: split sep s'
      else match split sep s' with
           | [] => [String c EmptyString]
           | p :: ps => String c p :: ps
           end
  end.

(** [''.join(parts)]. *)
Definition join (parts : list string) : string :=
  fold_right String.append EmptyString parts.

(* --------------------------------------------------------------------- *)
(** ** Floats and [float(str)] *)
(* --------------------------------------------------------------------- *)

(** A Python float is represented by the exact value of the text it was
    read from: [FFinite q] stands for the double that rounding [q] gives
    (an infinity when [q] is out of range); [q] is kept in lowest terms, so
    that two texts of the same value give equal floats.  No arithmetic on
    floats occurs in the embedded code. *)
Inductive float : Type :=
| FFinite (q : Q)
| FInf (negative : bool)
| FNaN.

Definition float_zero : float := FFinite 0.

Definition digit_value (c : ascii) : option N :=
  let n := N_of_ascii c in
  if ((48 <=? n) && (n <=? 57))%N then Some (n - 48)%N else None.

Definition is_digit (c : ascii) : bool :=
  match digit_value c with Some _ => true | None => false end.

(** ASCII lower case, for the case-insensitive words [inf] and [nan]. *)
Definition lower (c : ascii) : ascii :=
  let n := N_of_ascii c in
  if ((65 <=? n) && (n <=? 90))%N then ascii_of_N (n + 32) else c.

Fixpoint lower_str (s : string) : string :=
  match s with
  | EmptyString => EmptyString
  | String c s' => String (lower c) (lower_str s')
  end.

(** Reads a maximal run of digits: the number read so far, how many digits
    were read, and the rest. *)
Fixpoint read_digits (acc : N) (cnt : nat) (s : string) : N * nat * string :=
  match s with
  | String c s' =>
      match digit_value c with
      | Some d => read_digits (10 * acc + d)%N (S cnt) s'
      | None => (acc, cnt, s)
      end
  | EmptyString => (acc, cnt, s)
  end.

(** [m * 10^e] as a fraction in lowest terms. *)
Definition scale10 (m : Z) (e : Z) : Q :=
  Qred (if (0 <=? e)%Z then Qmake (m * 10 ^ e) 1
        else Qmake m (Z.to_pos (10 ^ (- e)))).

(** The optional exponent part: [e], an optional sign and at least one
    digit.  Without a digit the [e] is not part of the number, and the
    caller finds unread input. *)
Definition read_exponent (s : string) : Z * string :=
  match s with
  | String c s' =>
      if Ascii.eqb (lower c) "e"%char then
        let '(neg, s'') :=
          match s' with
          | String "-"%char t => (true, t)
          | String "+"%char t => (false, t)
          | _ => (false, s')
          end in
        let '(e, n, rest) := read_digits 0 0 s'' in
        match n with
        | O => (0%Z, s)
        | S _ => ((if neg then - Z.of_N e else Z.of_N e)%Z, rest)
        end
      else (0%Z, s)
  | EmptyString => (0%Z, s)
  end.

(** An unsigned decimal number, read to the end of the string. *)
Definition read_decimal (s : string) : option Q :=
  let '(ip, ni, s1) := read_digits 0 0 s in
  let '(m, nf, s2) :=
    match s1 with
    | String "."%char t => let '(m, nf, r) := read_digits ip 0 t in (m, nf, r)
    | _ => (ip, O, s1)
    end in
  match (ni + nf)%nat with
  | O => None
  | S _ =>
      let '(e, s3) := read_exponent s2 in
      match s3 with
      | EmptyString => Some (scale10 (Z.of_N m) (e - Z.of_nat nf))
      | _ => None
      end
  end.

(** An unsigned body: a decimal number, or one of the words [inf],
    [infinity], [nan] in any letter case. *)
Definition read_unsigned (neg : bool) (s : string) : option float :=
  let w := lower_str s in
  if String.eqb w "inf" || String.eqb w "infinity" then Some (FInf neg)
  else if String.eqb w "nan" then Some FNaN
  else match read_decimal s with
       | Some q => Some (FFinite (if neg then Qred (- q) else q))
       | None => None
       end.

(** The digit-grouping rule of numeric literals: an underscore may stand
    only between two digits.  Returns the text without underscores. *)
Fixpoint drop_underscores (prev : ascii) (s : string) : option string :=
  match s with
  | EmptyString => if Ascii.eqb prev "_"%char then None else Some EmptyString
  | String c s' =>
      if Ascii.eqb c "_"%char then
        if is_digit prev then drop_underscores c s' else None
      else if Ascii.eqb prev "_"%char && negb (is_digit c) then None
      else match drop_underscores c s' with
           | Some r => Some (String c r)
           | None => None
           end
  end.

(** The text as [float] sees it: characters below 127 are kept; above,
    white space becomes a blank and anything else a character that no
    number contains. *)
Fixpoint to_ascii_text (s : string) : string :=
  match s with
  | EmptyString => EmptyString
  | String c s' =>
      String (if (N_of_ascii c <? 127)%N then c
              else if isspace c then " "%char else "?"%char)
             (to_ascii_text s')
  end.

(** The white space that the number reader itself skips at both ends
    (blank, TAB..CR). *)
Definition c_isspace (c : ascii) : bool :=
  let n := N_of_ascii c in
  ((9 <=? n) && (n <=? 13) || (n =? 32))%N.

(** The number denoted by a text, if any. *)
Definition parse_float (s : string) : option float :=
  match drop_underscores "000"%char (to_ascii_text s) with
  | None => None
  | Some t =>
      match rstrip_by c_isspace (lstrip_by c_isspace t) with
      | EmptyString => None
      | String "-"%char u => read_unsigned true u
      | String "+"%char u => read_unsigned false u
      | u => read_unsigned false u
      end
  end.

(** [float(s)] for a string [s]: raises [ValueError] when [s] denotes no
    number. *)
Definition float_of_str (s : string) : result float :=
  match parse_float s with
  | Some f => Return f
  | None => Raise (Exc ValueError ("could not convert string to float: " ++ s)%string)
  end.

(* --------------------------------------------------------------------- *)
(** ** Normalizers *)
(* --------------------------------------------------------------------- *)

(** [clean_currency(text)], for [text] a string or [None].
<<
    if text is None or text.strip() == '':
        return 0.0
    try:
        return float(text.replace('$', '').replace(',', '').strip())
    except (ValueError, AttributeError):
        return 0.0
>> *)
Definition clean_currency (text : option string) : result float :=
  match text with
  | None => Return float_zero
  | Some t =>
      if String.eqb (strip t) EmptyString then Return float_zero
      else
        try_except
          (float_of_str (strip (replace "," EmptyString (replace "$" EmptyString t))))
          [ValueError; AttributeError]
          (Return float_zero)
  end.

(* --------------------------------------------------------------------- *)
(** ** Dates ([pandas.to_datetime], [strftime]) *)
(* --------------------------------------------------------------------- *)

(** A day of the proleptic calendar; the year 0 stands for every year
    before the year 1. *)
Record date : Type := Date { year : N; month : N; day : N }.

(** The value of [pd.to_datetime] on one string: a timestamp or [NaT]. *)
Inductive datetime : Type :=
| NaT
| Timestamp (d : date).

Definition is_leap (y : N) : bool :=
  ((y mod 4 =? 0) && negb (y mod 100 =? 0) || (y mod 400 =? 0))%N.

Definition days_in_month (y m : N) : N :=
  match m with
  | 2%N => if is_leap y then 29%N else 28%N
  | 4%N | 6%N | 9%N | 11%N => 30%N
  | _ => 31%N
  end.

(** The dates a nanosecond timestamp can hold at midnight:
    1677-09-22 to 2262-04-11. *)
Definition in_bounds (d : date) : bool :=
  let code := (year d * 10000 + month d * 100 + day d)%N in
  ((16770922 <=? code) && (code <=? 22620411))%N.

(** The decimal numeral of a number, as [%d] writes it. *)
Definition decimal (n : N) : string := NilZero.string_of_uint (N.to_uint n).

(** A number as [%02d] writes it: a zero before a single digit, nothing
    cut from a longer numeral. *)
Definition two_places (n : N) : string :=
  if (n <? 10)%N then String "0" (decimal n) else decimal n.

(** The text of a date under ['%Y-%m-%d']: the year as it is, without
    padding, the month and the day on two places. *)
Definition format_ymd (d : date) : string :=
  (decimal (year d) ++ "-" ++ two_places (month d) ++ "-" ++ two_places (day d))%string.

(** The years that [datetime.datetime] holds, [MINYEAR] to [MAXYEAR]. *)
Definition in_datetime_range (d : date) : bool :=
  ((1 <=? year d) && (year d <=? 9999))%N.

(** What [Timestamp.strftime] raises for a timestamp that
    [datetime.datetime] cannot hold. *)
Definition strftime_error : exc :=
  Exc NotImplementedError
    "strftime not yet supported on Timestamps which are outside the range of Python's standard library. For now, please call the components you need (such as `.year` and `.month`) and construct your string from there.".

(** [v.strftime('%Y-%m-%d')]: [NaT] has no [strftime]; a timestamp is
    first turned into a [datetime.datetime], which fails outside its range
    of years, and then written. *)
Definition strftime_ymd (v : datetime) : result string :=
  match v with
  | NaT => Raise (Exc ValueError "NaTType does not support strftime")
  | Timestamp d =>
      if in_datetime_range d then Return (format_ymd d) else Raise strftime_error
  end.

(** The first alternative that lets the rest of the pattern match. *)
Fixpoint first_some {A B : Type} (k : A -> option B) (alts : list A) : option B :=
  match alts with
  | [] => None
  | a :: alts' => match k a with Some b => Some b | None => first_some k alts' end
  end.

Definition two_digits (s : string) : option (N * N * string) :=
  match s with
  | String a (String b r) =>
      match digit_value a, digit_value b with
      | Some x, Some y => Some (x, y, r)
      | _, _ => None
      end
  | _ => None
  end.

Definition one_digit (s : string) : option (N * string) :=
  match s with
  | String a r => match digit_value a with Some x => Some (x, r) | None => None end
  | _ => None
  end.

(** The directive [%m]: [1[0-2]|0[1-9]|[1-9]], in this order. *)
Definition month_alternatives (s : string) : list (N * string) :=
  (match two_digits s with
   | Some (x, y, r) =>
       (if ((x =? 1) && (y <=? 2))%N then [((10 + y)%N, r)] else []) ++
       (if ((x =? 0) && (1 <=? y))%N then [(y, r)] else [])
   | None => []
   end) ++
  (match one_digit s with
   | Some (x, r) => if (1 <=? x)%N then [(x, r)] else []
   | None => []
   end).

(** The directive [%d]: [3[0-1]|[1-2]\d|0[1-9]|[1-9]| [1-9]], in this
    order. *)
Definition day_alternatives (s : string) : list (N * string) :=
  (match two_digits s with
   | Some (x, y, r) =>
       (if ((x =? 3) && (y <=? 1))%N then [((30 + y)%N, r)] else []) ++
       (if ((1 <=? x) && (x <=? 2))%N then [((10 * x + y)%N, r)] else []) ++
       (if ((x =? 0) && (1 <=? y))%N then [(y, r)] else [])
   | None => []
   end) ++
  (match one_digit s with
   | Some (x, r) => if (1 <=? x)%N then [(x, r)] else []
   | None => []
   end) ++
  (match s with
   | String " "%char t =>
       match one_digit t with
       | Some (x, r) => if (1 <=? x)%N then [(x, r)] else []
       | None => []
       end
   | _ => []
   end).

(** The directive [%Y]: four digits. *)
Definition year_digits (s : string) : option (N * string) :=
  match two_digits s with
  | Some (a, b, r) =>
      match two_digits r with
      | Some (c, d, r') => Some ((1000 * a + 100 * b + 10 * c + d)%N, r')
      | None => None
      end
  | None => None
  end.

Definition after_slash {B : Type} (s : string) (k : string -> option B) : option B :=
  match s with
  | String "/"%char r => k r
  | _ => None
  end.

(** The match of the pattern of ['%m/%d/%Y'] at the start of [s]: the
    fields and the unread rest. *)
Definition match_mdY (s : string) : option (date * string) :=
  first_some (fun '(m, r1) =>
    after_slash r1 (fun r2 =>
      first_some (fun '(d, r3) =>
        after_slash r3 (fun r4 =>
          match year_digits r4 with
          | Some (y, r5) => Some (Date y m d, r5)
          | None => None
          end))
        (day_alternatives r2)))
    (month_alternatives s).

Definition nat_strings : list string := ["NaT"; "nat"; "NAT"; "nan"; "NaN"; "NAN"].

(** [pd.to_datetime(s, format='%m/%d/%Y')] on one string: the empty
    string and the spellings of [nat_strings] give [NaT]; a string that
    does not match the format to its end, a day that the month does not
    have and a date out of bounds raise [ValueError] (or a subclass of
    it). *)
Definition to_datetime_mdY (s : string) : result datetime :=
  if String.eqb s EmptyString || existsb (String.eqb s) nat_strings then Return NaT
  else
    match match_mdY s with
    | None => Raise (Exc ValueError "time data doesn't match format")
    | Some (d, String _ _) => Raise (Exc ValueError "unconverted data remains")
    | Some (d, EmptyString) =>
        if negb ((1 <=? day d) && (day d <=? days_in_month (year d) (month d)))%N
        then Raise (Exc ValueError "day is out of range for month")
        else if negb (in_bounds d)
        then Raise (Exc ValueError "Out of bounds nanosecond timestamp")
        else Return (Timestamp d)
    end.

(** The two dates of a range text: the text splits at the dash into
    exactly two parts and both parts, stripped, read as dates. *)
Definition two_dates (s : string) : option (date * date) :=
  match split "-" s with
  | [a; b] =>
      match to_datetime_mdY (strip a), to_datetime_mdY (strip b) with
      | Return (Timestamp d1), Return (Timestamp d2) => Some (d1, d2)
      | _, _ => None
      end
  | _ => None
  end.

(** [a, b = xs]. *)
Definition unpack2 {A : Type} (xs : list A) : result (A * A) :=
  match xs with
  | [a; b] => Return (a, b)
  | [] | [_] => Raise (Exc ValueError "not enough values to unpack")
  | _ => Raise (Exc ValueError "too many values to unpack")
  end.

(** [parse_date_range(date_string)], for a string.
<<
    try:
        start_str, end_str = [d.strip() for d in date_string.split('-')]
        start_date = pd.to_datetime(start_str, format='%m/%d/%Y').strftime('%Y-%m-%d')
        end_date = pd.to_datetime(end_str, format='%m/%d/%Y').strftime('%Y-%m-%d')
        return start_date, end_date
    except (ValueError, IndexError):
        return None, None
>> *)
Definition parse_date_range (date_string : string)
    : result (option string * option string) :=
  try_except
    (parts <- unpack2 (map strip (split "-" date_string)) ;;
     let '(start_str, end_str) := parts in
     start_ts <- to_datetime_mdY start_str ;;
     start_date <- strftime_ymd start_ts ;;
     end_ts <- to_datetime_mdY end_str ;;
     end_date <- strftime_ymd end_ts ;;
     Return (Some start_date, Some end_date))
    [ValueError; IndexError]
    (Return (None, None)).

(* --------------------------------------------------------------------- *)
(** ** The markup tree *)
(* --------------------------------------------------------------------- *)

(** The classes of text nodes: [PlainText] is what [get_text] collects;
    [Comment] stands for the text of comments, scripts, style sheets and
    declarations, which [get_text] leaves out. *)
Inductive string_kind : Type := PlainText | Comment.

(** A parsed document.  Of the attributes of a tag only [id] is read. *)
#[warnings="-register-all"]
Inductive node : Type :=
| NavigableString (kind : string_kind) (text : string)
| Tag (name : string) (id : option string) (contents : list node).

(** [tag.descendants]: everything below a node, in reading order. *)
Fixpoint descendants (n : node) : list node :=
  match n with
  | NavigableString _ _ => []
  | Tag _ _ cs => flat_map (fun c => c :: descendants c) cs
  end.

(** The strings that [get_text] joins; with [strip=True] every string is
    stripped and the empty ones are dropped. *)
Definition all_strings (strip_each : bool) (n : node) : list string :=
  flat_map (fun d =>
    match d with
    | NavigableString PlainText s =>
        if strip_each
        then (if truthy (strip s) then [strip s] else [])
        else [s]
    | _ => []
    end) (descendants n).

(** [tag.get_text()]. *)
Definition get_text (n : node) : string := join (all_strings false n).

(** [tag.get_text(strip=True)]. *)
Definition get_text_strip (n : node) : string := join (all_strings true n).

(** Whether a node is a tag of the given name whose [id] attribute is
    present and accepted by [id_ok] (no filter on [id] when [id_ok] is
    [None]). *)
Definition tag_matches (nm : string) (id_ok : option (string -> bool)) (n : node) : bool :=
  match n with
  | NavigableString _ _ => false
  | Tag nm' i _ =>
      String.eqb nm' nm &&
      match id_ok, i with
      | None, _ => true
      | Some ok, Some v => ok v
      | Some _, None => false
      end
  end.

(** [tag.find_all(name, id=...)]. *)
Definition find_all (n : node) (nm : string) (id_ok : option (string -> bool)) : list node :=
  filter (tag_matches nm id_ok) (descendants n).

(** [tag.find(name, id=...)]. *)
Definition find (n : node) (nm : string) (id_ok : option (string -> bool)) : option node :=
  List.find (tag_matches nm id_ok) (descendants n).

(** An element of a document seen from the document: its place in the
    reading order, the node, and the siblings that follow it. *)
Record element : Type :=
  Element { el_pos : nat; el_node : node; el_next_siblings : list node }.

(** A node and everything below it in reading order, each with its
    following siblings. *)
Fixpoint elements_of (n : node) (sibs : list node) : list (node * list node) :=
  (n, sibs) ::
  match n with
  | NavigableString _ _ => []
  | Tag _ _ cs =>
      (fix children (cs : list node) : list (node * list node) :=
         match cs with
         | [] => []
         | c :: cs' => elements_of c cs' ++ children cs'
         end) cs
  end.

Fixpoint number_from (i : nat) (l : list (node * list node)) : list element :=
  match l with
  | [] => []
  | (n, sibs) :: l' => Element i n sibs :: number_from (S i) l'
  end.

(** The reading order of a document: the document object itself at place
    0, then its descendants. *)
Definition document_order (soup : node) : list element :=
  number_from 0 (elements_of soup []).

(** [soup.find_all(name, id=...)], keeping the place of each hit. *)
Definition soup_find_all (soup : node) (nm : string) (id_ok : option (string -> bool))
    : list element :=
  filter (fun e => tag_matches nm id_ok (el_node e)) (tl (document_order soup)).

(** [el.previous_elements]: what was read before [el], nearest first. *)
Definition previous_elements (soup : node) (el : element) : list element :=
  rev (firstn (el_pos el) (document_order soup)).

(** [el.find_previous(name, id=...)]. *)
Definition find_previous (soup : node) (el : element) (nm : string)
    (id_ok : option (string -> bool)) : option element :=
  List.find (fun e => tag_matches nm id_ok (el_node e)) (previous_elements soup el).

(** [el.find_next_sibling(name)]. *)
Definition find_next_sibling (el : element) (nm : string) : option node :=
  List.find (tag_matches nm None) (el_next_siblings el).

(** The interpreter's bound on nested calls ([sys.getrecursionlimit()],
    1000 unless changed). *)
Definition recursion_limit : nat := 1000.

(** [tag.string]: the one string of a tag that has a single child, looked
    for through single children; the property calls itself on the child,
    so every level is one nested call, and [depth] is the number of calls
    still allowed.  The calls already open around it are not counted: a
    search that raises here raises in the interpreter as well. *)
Fixpoint tag_string (depth : nat) (n : node) : result (option string) :=
  match depth with
  | O => Raise (Exc RecursionError "maximum recursion depth exceeded")
  | S depth' =>
      match n with
      | NavigableString _ s => Return (Some s)
      | Tag _ _ [NavigableString _ s] => Return (Some s)
      | Tag _ _ [c] => tag_string depth' c
      | Tag _ _ _ => Return None
      end
  end.

(** A pattern [^\s*label] searched in a string. *)
Definition re_label (label : string) (s : string) : bool :=
  startswith label (lstrip s).

(** The candidates of [find_previous(name, text=pattern)] are tried
    nearest first; for each tag of the right name its [string] is taken
    and searched. *)
Fixpoint first_with_text (nm : string) (pattern : string -> bool)
    (cands : list element) : result (option element) :=
  match cands with
  | [] => Return None
  | e :: cands' =>
      if tag_matches nm None (el_node e) then
        s <- tag_string recursion_limit (el_node e) ;;
        match s with
        | Some t => if pattern t then Return (Some e)
                    else first_with_text nm pattern cands'
        | None => first_with_text nm pattern cands'
        end
      else first_with_text nm pattern cands'
  end.

(** [el.find_previous(name, text=pattern)]. *)
Definition find_previous_text (soup : node) (el : element) (nm : string)
    (pattern : string -> bool) : result (option element) :=
  first_with_text nm pattern (previous_elements soup el).

(** [xs[i]]. *)
Definition getitem {A : Type} (xs : list A) (i : nat) : result A :=
  match nth_error xs i with
  | Some x => Return x
  | None => Raise (Exc IndexError "list index out of range")
  end.

(** [safe_get_text(soup_obj, tag, element_id)]. *)
Definition safe_get_text (soup_obj : node) (tag element_id : string) : string :=
  match find soup_obj tag (Some (String.eqb element_id)) with
  | Some element => get_text_strip element
  | None => EmptyString
  end.

(* --------------------------------------------------------------------- *)
(** ** Output records *)
(* --------------------------------------------------------------------- *)

Record report : Type := Report {
  rep_disclosure_id : string;
  rep_report_type : string;
  rep_period_start_date : option string;
  rep_period_end_date : option string }.

Record lobbyist : Type := Lobbyist {
  lob_disclosure_id : string;
  lob_first_name : string;
  lob_last_name : string;
  lob_employer_name : string;
  lob_is_incidental : bool }.

Record client : Type := Client {
  cli_disclosure_id : string;
  cli_client_name : string;
  cli_auth_officer_name : string;
  cli_business_interest : string }.

Record compensation : Type := Compensation {
  comp_disclosure_id : string;
  comp_payee_name : string;
  comp_amount : float }.

Record activity : Type := Activity {
  act_disclosure_id : string;
  act_individual_lobbyist_name : string;
  act_client_name : string;
  act_house_senate : string;
  act_bill_or_agency : string;
  act_bill_title : string;
  act_agent_position : string;
  act_amount : float;
  act_business_association : string }.

Record met_expense : Type := MetExpense {
  met_disclosure_id : string;
  met_lobbyist_name : string;
  met_date : option string;
  met_event_type : string;
  met_payee_vendor : string;
  met_attendees : string;
  met_amount : float }.

Record operating_expense : Type := OperatingExpense {
  op_disclosure_id : string;
  op_date : option string;
  op_recipient : string;
  op_type_of_expense : string;
  op_amount : float }.

Record additional_expense : Type := AdditionalExpense {
  add_disclosure_id : string;
  add_date : option string;
  add_lobbyist_name : string;
  add_recipient_name : string;
  add_type_of_expense : string;
  add_description : string;
  add_amount : float }.

Record contribution : Type := Contribution {
  con_disclosure_id : string;
  con_date : option string;
  con_recipient_name : string;
  con_office_sought : string;
  con_amount : float }.

(** Every record has the key ['disclosure_id']. *)
Class Keyed (A : Type) : Type := disclosure_id : A -> string.

#[export] Instance report_keyed : Keyed report := rep_disclosure_id.
#[export] Instance lobbyist_keyed : Keyed lobbyist := lob_disclosure_id.
#[export] Instance client_keyed : Keyed client := cli_disclosure_id.
#[export] Instance compensation_keyed : Keyed compensation := comp_disclosure_id.
#[export] Instance activity_keyed : Keyed activity := act_disclosure_id.
#[export] Instance met_expense_keyed : Keyed met_expense := met_disclosure_id.
#[export] Instance operating_expense_keyed : Keyed operating_expense := op_disclosure_id.
#[export] Instance additional_expense_keyed : Keyed additional_expense := add_disclosure_id.
#[export] Instance contribution_keyed : Keyed contribution := con_disclosure_id.

(* --------------------------------------------------------------------- *)
(** ** Table extractors and report parsers *)
(* --------------------------------------------------------------------- *)

Section Extractor.

(** [pd.to_datetime(s, errors='coerce')] on one non-blank string: the
    free-form date reader of the library, [NaT] for what it cannot read. *)
Variable to_datetime_coerce : string -> datetime.

(** [format_date(date_string)].  The call of [strftime] is not guarded:
    what it raises leaves the function.
<<
    if date_string is None or not date_string.strip():
        return None
    date_val = pd.to_datetime(date_string, errors='coerce')
    return None if pd.isna(date_val) else date_val.strftime('%Y-%m-%d')
>> *)
Definition format_date (date_string : option string) : result (option string) :=
  match date_string with
  | None => Return None
  | Some s =>
      if negb (truthy (strip s)) then Return None
      else
        let date_val := to_datetime_coerce s in
        match date_val with
        | NaT => Return None
        | Timestamp _ => t <- strftime_ymd date_val ;; Return (Some t)
        end
  end.

(** [cols[i].get_text(strip=True)]. *)
Definition col_text (cols : list node) (i : nat) : result string :=
  c <- getitem cols i ;; Return (get_text_strip c).

(** [lobbyist_name or "N/A"]. *)
Definition name_or_na (lobbyist_name : option string) : string :=
  match lobbyist_name with
  | Some n => str_or n "N/A"
  | None => "N/A"
  end.

(** The body of the row loop of [parse_met_expenses]. *)
Definition met_row (disclosure_id : string) (lobbyist_name : option string)
    (row : node) : result (list met_expense) :=
  let cols := find_all row "td" None in
  if contains "Total amount" (get_text row) || (length cols <? 5)%nat then Return []
  else
    let has_lobbyist_col := (length cols =? 6)%nat in
    name <- (if has_lobbyist_col then col_text cols 1
             else Return (name_or_na lobbyist_name)) ;;
    d0 <- col_text cols 0 ;;
    dt <- format_date (Some d0) ;;
    event_type <- (if has_lobbyist_col then col_text cols 2 else col_text cols 1) ;;
    payee_vendor <- (if has_lobbyist_col then col_text cols 3 else col_text cols 2) ;;
    attendees <- (if has_lobbyist_col then col_text cols 4 else col_text cols 3) ;;
    amount_text <- (if has_lobbyist_col then col_text cols 5 else col_text cols 4) ;;
    amount <- clean_currency (Some amount_text) ;;
    Return [MetExpense disclosure_id name dt event_type payee_vendor attendees amount].

(** [parse_met_expenses(table, disclosure_id, lobbyist_name=None)]. *)
Definition parse_met_expenses (table : option node) (disclosure_id : string)
    (lobbyist_name : option string) : result (list met_expense) :=
  match table with
  | None => Return []
  | Some t =>
      if negb (contains "No meals, travel, or entertainment expenses" (get_text t)) then
        let rows := find_all t "tr" None in
        if (1 <? length rows)%nat
        then for_extend (met_row disclosure_id lobbyist_name) (tl rows)
        else Return []
      else Return []
  end.

(** The body of the row loop of [parse_operating_expenses]. *)
Definition operating_row (disclosure_id : string) (row : node)
    : result (list operating_expense) :=
  let cols := find_all row "td" None in
  if contains "Total operating expenses" (get_text row) || (length cols <? 4)%nat
  then Return []
  else
    d0 <- col_text cols 0 ;;
    dt <- format_date (Some d0) ;;
    recipient <- col_text cols 1 ;;
    type_of_expense <- col_text cols 2 ;;
    amount_text <- col_text cols 3 ;;
    amount <- clean_currency (Some amount_text) ;;
    Return [OperatingExpense disclosure_id dt recipient type_of_expense amount].

(** What [parse_operating_expenses] reads from the one table it looks at. *)
Definition operating_table (disclosure_id : string) (table : option node)
    : result (list operating_expense) :=
  match table with
  | None => Return []
  | Some t =>
      if negb (contains "No operating expenses were filed" (get_text t))
      then for_extend (operating_row disclosure_id) (tl (find_all t "tr" None))
      else Return []
  end.

(** [parse_operating_expenses(soup, disclosure_id)]. *)
Definition parse_operating_expenses (soup : node) (disclosure_id : string)
    : result (list operating_expense) :=
  operating_table disclosure_id
    (find soup "table" (Some (contains "grdvOperatingExpenses"))).

(** The body of the row loop of [parse_additional_expenses]. *)
Definition additional_row (disclosure_id : string) (row : node)
    : result (list additional_expense) :=
  let cols := find_all row "td" None in
  if contains "Total additional expenses" (get_text row) || (length cols <? 6)%nat
  then Return []
  else
    d0 <- col_text cols 0 ;;
    dt <- format_date (Some d0) ;;
    lobbyist_name <- col_text cols 1 ;;
    recipient_name <- col_text cols 2 ;;
    type_of_expense <- col_text cols 3 ;;
    description <- col_text cols 4 ;;
    amount_text <- col_text cols 5 ;;
    amount <- clean_currency (Some amount_text) ;;
    Return [AdditionalExpense disclosure_id dt lobbyist_name recipient_name
              type_of_expense description amount].

(** The body of the table loop of [parse_additional_expenses]. *)
Definition additional_table (disclosure_id : string) (table : node)
    : result (list additional_expense) :=
  if contains "No additional expenses were filed" (get_text table) then Return []
  else for_extend (additional_row disclosure_id) (tl (find_all table "tr" None)).

(** [parse_additional_expenses(soup, disclosure_id)]. *)
Definition parse_additional_expenses (soup : node) (disclosure_id : string)
    : result (list additional_expense) :=
  for_extend (additional_table disclosure_id)
    (find_all soup "table" (Some (contains "grdvAdditionalExpenses"))).

(** The body of the row loop over a contributions table. *)
Definition contribution_row (disclosure_id : string) (row : node)
    : result (list contribution) :=
  let cols := find_all row "td" None in
  if contains "Total contributions" (get_text row) || (length cols <? 4)%nat
  then Return []
  else
    d0 <- col_text cols 0 ;;
    dt <- format_date (Some d0) ;;
    recipient_name <- col_text cols 1 ;;
    office_sought <- col_text cols 2 ;;
    amount_text <- col_text cols 3 ;;
    amount <- clean_currency (Some amount_text) ;;
    Return [Contribution disclosure_id dt recipient_name office_sought amount].

(** The contributions block of [parse_lobbyist_report], from the table
    that [soup.find] gave. *)
Definition contributions_table (disclosure_id : string) (table : option node)
    : result (list contribution) :=
  match table with
  | None => Return []
  | Some t =>
      if negb (contains "No campaign contributions were filed" (get_text t)) then
        let rows := find_all t "tr" None in
        if (1 <? length rows)%nat
        then for_extend (contribution_row disclosure_id) (tl rows)
        else Return []
      else Return []
  end.

(** [bool(first_name and last_name)]. *)
Definition filer_is_individual (first_name last_name : string) : bool :=
  truthy first_name && truthy last_name.

(** The value [current_lobbyist] starts from for every activity table. *)
Definition default_lobbyist (first_name last_name employer_name : string) : string :=
  if filer_is_individual first_name last_name
  then strip (first_name ++ " " ++ last_name)%string
  else employer_name.

(** The lobbyist in force for an activity table: the cell after the
    nearest [Lobbyist:] cell read before the table. *)
Definition resolve_lobbyist (soup : node) (table : element) (default : string)
    : result string :=
  lobbyist_header_td <- find_previous_text soup table "td" (re_label "Lobbyist:") ;;
  Return
    match lobbyist_header_td with
    | Some header =>
        match find_next_sibling header "td" with
        | Some lobbyist_name_td => get_text_strip lobbyist_name_td
        | None => default
        end
    | None => default
    end.

(** The client in force for an activity table. *)
Definition resolve_client (soup : node) (table : element) (employer_name : string)
    : result string :=
  client_header_td <- find_previous_text soup table "td" (re_label "Client:") ;;
  client_header_strong <- find_previous_text soup table "strong" (re_label "Client:") ;;
  Return
    match client_header_td with
    | Some header =>
        match find_next_sibling header "td" with
        | Some client_name_td => get_text_strip client_name_td
        | None => employer_name
        end
    | None =>
        match client_header_strong with
        | Some header =>
            match find_next_sibling header "span" with
            | Some client_name_span => get_text_strip client_name_span
            | None => employer_name
            end
        | None => employer_name
        end
    end.

(** The body of the row loop over an activity table. *)
Definition activity_row (disclosure_id current_lobbyist current_client : string)
    (row : node) : result (list activity) :=
  let cols := find_all row "td" None in
  if contains "Total amount" (get_text row) || (length cols <? 6)%nat then Return []
  else
    house_senate <- col_text cols 0 ;;
    bill_or_agency <- col_text cols 1 ;;
    bill_title <- col_text cols 2 ;;
    agent_position <- col_text cols 3 ;;
    amount_text <- col_text cols 4 ;;
    amount <- clean_currency (Some amount_text) ;;
    business_association <- col_text cols 5 ;;
    Return [Activity disclosure_id current_lobbyist current_client house_senate
              bill_or_agency bill_title agent_position amount business_association].

(** The body of the loop over the activity tables. *)
Definition activity_table (soup : node) (disclosure_id first_name last_name
    employer_name : string) (table : element) : result (list activity) :=
  current_lobbyist <- resolve_lobbyist soup table
                        (default_lobbyist first_name last_name employer_name) ;;
  current_client <- resolve_client soup table employer_name ;;
  let rows := find_all (el_node table) "tr" None in
  if (1 <? length rows)%nat
  then for_extend (activity_row disclosure_id current_lobbyist current_client) (tl rows)
  else Return [].

(** The lobbyist name handed to [parse_met_expenses] for one table of a
    lobbyist report. *)
Definition met_table_lobbyist (soup : node) (first_name last_name : string)
    (table : element) : string :=
  match find_previous soup table "span" (Some (contains "lblLobbyistName")) with
  | Some lobbyist_name_element =>
      replace "Lobbyist: " EmptyString (get_text_strip (el_node lobbyist_name_element))
  | None => strip (first_name ++ " " ++ last_name)%string
  end.

(** What [parse_lobbyist_report] returns. *)
Definition lobbyist_bundle : Type :=
  lobbyist * list activity * list met_expense * list operating_expense
  * list additional_expense * list contribution.

(** [parse_lobbyist_report(soup, disclosure_id)]. *)
Definition parse_lobbyist_report (soup : node) (disclosure_id : string)
    : result lobbyist_bundle :=
  let employer_name := safe_get_text soup "span"
        "ContentPlaceHolder1_LRegistrationInfoReview1_lblLobbyistCompany" in
  let first_name := safe_get_text soup "span"
        "ContentPlaceHolder1_LRegistrationInfoReview1_lblLobbyistFirstName" in
  let last_name := safe_get_text soup "span"
        "ContentPlaceHolder1_LRegistrationInfoReview1_lblLobbyistLastName" in
  let lobbyist_info :=
    Lobbyist disclosure_id (str_or first_name employer_name) last_name employer_name
      match find soup "span"
              (Some (String.eqb "ContentPlaceHolder1_LRegistrationInfoReview1_lblIncidental")) with
      | Some _ => true
      | None => false
      end in
  let activity_tables :=
    soup_find_all soup "table"
      (Some (fun x => truthy x && contains "grdvActivitiesNew" x)) in
  activities <- for_extend
                  (activity_table soup disclosure_id first_name last_name employer_name)
                  activity_tables ;;
  let expense_tables := soup_find_all soup "table" (Some (contains "grdvMETExpenses")) in
  met_expenses <- for_extend
                    (fun table =>
                       parse_met_expenses (Some (el_node table)) disclosure_id
                         (Some (met_table_lobbyist soup first_name last_name table)))
                    expense_tables ;;
  operating_expenses <- parse_operating_expenses soup disclosure_id ;;
  additional_expenses <- parse_additional_expenses soup disclosure_id ;;
  contributions <- contributions_table disclosure_id
                     (find soup "table" (Some (contains "grdvCampaignContribution"))) ;;
  Return (lobbyist_info, activities, met_expenses, operating_expenses,
          additional_expenses, contributions).

(** The body of the row loop over the compensation table. *)
Definition compensation_row (disclosure_id : string) (row : node)
    : result (list compensation) :=
  let cols := find_all row "td" None in
  if contains "Total" (get_text row) || (length cols <? 2)%nat then Return []
  else
    payee_name <- col_text cols 0 ;;
    amount_text <- col_text cols 1 ;;
    amount <- clean_currency (Some amount_text) ;;
    Return [Compensation disclosure_id payee_name amount].

(** What [parse_client_report] returns. *)
Definition client_bundle : Type :=
  client * list compensation * list met_expense * list operating_expense
  * list additional_expense.

(** [parse_client_report(soup, disclosure_id)]. *)
Definition parse_client_report (soup : node) (disclosure_id : string)
    : result client_bundle :=
  let client_name := safe_get_text soup "span"
        "ContentPlaceHolder1_CRegistrationInfoReview1_lblClientCompany" in
  let officer_first := safe_get_text soup "span"
        "ContentPlaceHolder1_CRegistrationInfoReview1_lblClientAuthorizingOfficerFirstName" in
  let officer_last := safe_get_text soup "span"
        "ContentPlaceHolder1_CRegistrationInfoReview1_lblClientAuthorizingOfficerLastName" in
  let client_info :=
    Client disclosure_id client_name
      (strip (officer_first ++ " " ++ officer_last)%string)
      (safe_get_text soup "span"
         "ContentPlaceHolder1_CRegistrationInfoReview1_lblBusinessInterest") in
  compensations <-
    match find soup "table"
            (Some (String.eqb "ContentPlaceHolder1_DisclosureReviewDetail1_grdvSalaryPaid")) with
    | Some comp_table =>
        for_extend (compensation_row disclosure_id) (tl (find_all comp_table "tr" None))
    | None => Return []
    end ;;
  let expenses_table := find soup "table" (Some (contains "grdvMETExpenses")) in
  met_expenses <- parse_met_expenses expenses_table disclosure_id None ;;
  operating_expenses <- parse_operating_expenses soup disclosure_id ;;
  additional_expenses <- parse_additional_expenses soup disclosure_id ;;
  Return (client_info, compensations, met_expenses, operating_expenses,
          additional_expenses).

End Extractor.

(* --------------------------------------------------------------------- *)
(** ** The batch loop of [main] *)
(* --------------------------------------------------------------------- *)

(** The lists and counters that [main] fills while it walks the files. *)
Record batch : Type := Batch {
  skipped_files_log : list string;
  disclosure_reports_list : list report;
  lobbyists_list : list lobbyist;
  clients_list : list client;
  compensations_list : list compensation;
  lobbying_activities_list : list activity;
  met_expenses_list : list met_expense;
  operating_expenses_list : list operating_expense;
  additional_expenses_list : list additional_expense;
  contributions_list : list contribution;
  processed_count : nat;
  skipped_bad_filename : nat;
  skipped_no_header : nat;
  skipped_other_error : nat }.

Definition empty_batch : batch := Batch [] [] [] [] [] [] [] [] [] [] 0 0 0 0.

(** [skipped_files_log.extend(xs)] (and [append] for a single record). *)
Definition extend_skipped_files_log (xs : list string) (st : batch) : batch :=
  Batch (skipped_files_log st ++ xs) (disclosure_reports_list st) (lobbyists_list st)
    (clients_list st) (compensations_list st) (lobbying_activities_list st)
    (met_expenses_list st) (operating_expenses_list st) (additional_expenses_list st)
    (contributions_list st) (processed_count st) (skipped_bad_filename st)
    (skipped_no_header st) (skipped_other_error st).

(** [disclosure_reports_list.extend(xs)] (and [append] for a single record). *)
Definition extend_disclosure_reports_list (xs : list report) (st : batch) : batch :=
  Batch (skipped_files_log st) (disclosure_reports_list st ++ xs) (lobbyists_list st)
    (clients_list st) (compensations_list st) (lobbying_activities_list st)
    (met_expenses_list st) (operating_expenses_list st) (additional_expenses_list st)
    (contributions_list st) (processed_count st) (skipped_bad_filename st)
    (skipped_no_header st) (skipped_other_error st).

(** [lobbyists_list.extend(xs)] (and [append] for a single record). *)
Definition extend_lobbyists_list (xs : list lobbyist) (st : batch) : batch :=
  Batch (skipped_files_log st) (disclosure_reports_list st) (lobbyists_list st ++ xs)
    (clients_list st) (compensations_list st) (lobbying_activities_list st)
    (met_expenses_list st) (operating_expenses_list st) (additional_expenses_list st)
    (contributions_list st) (processed_count st) (skipped_bad_filename st)
    (skipped_no_header st) (skipped_other_error st).

(** [clients_list.extend(xs)] (and [append] for a single record). *)
Definition extend_clients_list (xs : list client) (st : batch) : batch :=
  Batch (skipped_files_log st) (disclosure_reports_list st) (lobbyists_list st)
    (clients_list st ++ xs) (compensations_list st) (lobbying_activities_list st)
    (met_expenses_list st) (operating_expenses_list st) (additional_expenses_list st)
    (contributions_list st) (processed_count st) (skipped_bad_filename st)
    (skipped_no_header st) (skipped_other_error st).

(** [compensations_list.extend(xs)] (and [append] for a single record). *)
Definition extend_compensations_list (xs : list compensation) (st : batch) : batch :=
  Batch (skipped_files_log st) (disclosure_reports_list st) (lobbyists_list st)
    (clients_list st) (compensations_list st ++ xs) (lobbying_activities_list st)
    (met_expenses_list st) (operating_expenses_list st) (additional_expenses_list st)
    (contributions_list st) (processed_count st) (skipped_bad_filename st)
    (skipped_no_header st) (skipped_other_error st).

(** [lobbying_activities_list.extend(xs)] (and [append] for a single record). *)
Definition extend_lobbying_activities_list (xs : list activity) (st : batch) : batch :=
  Batch (skipped_files_log st) (disclosure_reports_list st) (lobbyists_list st)
    (clients_list st) (compensations_list st) (lobbying_activities_list st ++ xs)
    (met_expenses_list st) (operating_expenses_list st) (additional_expenses_list st)
    (contributions_list st) (processed_count st) (skipped_bad_filename st)
    (skipped_no_header st) (skipped_other_error st).

(** [met_expenses_list.extend(xs)] (and [append] for a single record). *)
Definition extend_met_expenses_list (xs : list met_expense) (st : batch) : batch :=
  Batch (skipped_files_log st) (disclosure_reports_list st) (lobbyists_list st)
    (clients_list st) (compensations_list st) (lobbying_activities_list st)
    (met_expenses_list st ++ xs) (operating_expenses_list st)
    (additional_expenses_list st) (contributions_list st) (processed_count st)
    (skipped_bad_filename st) (skipped_no_header st) (skipped_other_error st).

(** [operating_expenses_list.extend(xs)] (and [append] for a single record). *)
Definition extend_operating_expenses_list (xs : list operating_expense) (st : batch) : batch :=
  Batch (skipped_files_log st) (disclosure_reports_list st) (lobbyists_list st)
    (clients_list st) (compensations_list st) (lobbying_activities_list st)
    (met_expenses_list st) (operating_expenses_list st ++ xs)
    (additional_expenses_list st) (contributions_list st) (processed_count st)
    (skipped_bad_filename st) (skipped_no_header st) (skipped_other_error st).

(** [additional_expenses_list.extend(xs)] (and [append] for a single record). *)
Definition extend_additional_expenses_list (xs : list additional_expense) (st : batch) : batch :=
  Batch (skipped_files_log st) (disclosure_reports_list st) (lobbyists_list st)
    (clients_list st) (compensations_list st) (lobbying_activities_list st)
    (met_expenses_list st) (operating_expenses_list st)
    (additional_expenses_list st ++ xs) (contributions_list st) (processed_count st)
    (skipped_bad_filename st) (skipped_no_header st) (skipped_other_error st).

(** [contributions_list.extend(xs)] (and [append] for a single record). *)
Definition extend_contributions_list (xs : list contribution) (st : batch) : batch :=
  Batch (skipped_files_log st) (disclosure_reports_list st) (lobbyists_list st)
    (clients_list st) (compensations_list st) (lobbying_activities_list st)
    (met_expenses_list st) (operating_expenses_list st) (additional_expenses_list st)
    (contributions_list st ++ xs) (processed_count st) (skipped_bad_filename st)
    (skipped_no_header st) (skipped_other_error st).

(** [processed_count += 1]. *)
Definition incr_processed_count (st : batch) : batch :=
  Batch (skipped_files_log st) (disclosure_reports_list st) (lobbyists_list st)
    (clients_list st) (compensations_list st) (lobbying_activities_list st)
    (met_expenses_list st) (operating_expenses_list st) (additional_expenses_list st)
    (contributions_list st) (S (processed_count st)) (skipped_bad_filename st)
    (skipped_no_header st) (skipped_other_error st).

(** [skipped_no_header += 1]. *)
Definition incr_skipped_no_header (st : batch) : batch :=
  Batch (skipped_files_log st) (disclosure_reports_list st) (lobbyists_list st)
    (clients_list st) (compensations_list st) (lobbying_activities_list st)
    (met_expenses_list st) (operating_expenses_list st) (additional_expenses_list st)
    (contributions_list st) (processed_count st) (skipped_bad_filename st) (S
    (skipped_no_header st)) (skipped_other_error st).

(** [skipped_other_error += 1]. *)
Definition incr_skipped_other_error (st : batch) : batch :=
  Batch (skipped_files_log st) (disclosure_reports_list st) (lobbyists_list st)
    (clients_list st) (compensations_list st) (lobbying_activities_list st)
    (met_expenses_list st) (operating_expenses_list st) (additional_expenses_list st)
    (contributions_list st) (processed_count st) (skipped_bad_filename st)
    (skipped_no_header st) (S (skipped_other_error st)).

(** A statement of the loop body: it reads and changes the batch, and
    returns or raises.  What it had changed when it raises stays changed. *)
Definition stmt (A : Type) : Type := batch -> result A * batch.

Definition sbind {A B : Type} (m : stmt A) (k : A -> stmt B) : stmt B :=
  fun st =>
    match m st with
    | (Return a, st') => k a st'
    | (Raise e, st') => (Raise e, st')
    end.

(** A call of a function that does not touch the batch. *)
Definition call {A : Type} (r : result A) : stmt A := fun st => (r, st).

(** An update of the batch. *)
Definition update (f : batch -> batch) : stmt unit := fun st => (Return tt, f st).

Notation "x <~ m ;; k" := (sbind m (fun x => k))
  (at level 61, m at next level, right associativity) : py_scope.
Notation "m ;;; k" := (sbind m (fun _ => k))
  (at level 61, right associativity) : py_scope.

(** [try: body  except Exception as e: handler(e)]; the state after it. *)
Definition try_except_exception (body : stmt unit) (handler : exc -> batch -> batch)
    (st : batch) : batch :=
  match body st with
  | (Return _, st') => st'
  | (Raise e, st') => handler e st'
  end.

(** The text matched by [.+] in [(.+)\.html] at the start of [s]: the
    longest non-empty run without a line feed that [.html] follows. *)
Fixpoint group_before_html (s : string) : option string :=
  match s with
  | EmptyString => None
  | String c s' =>
      if Ascii.eqb c "010"%char then None
      else match group_before_html s' with
           | Some g => Some (String c g)
           | None => if startswith ".html" s' then Some (String c EmptyString) else None
           end
  end.

(** [s] without the prefix [p], when it has it. *)
Fixpoint after_prefix (p s : string) : option string :=
  match p, s with
  | EmptyString, _ => Some s
  | String a p', String b s' => if Ascii.eqb a b then after_prefix p' s' else None
  | String _ _, EmptyString => None
  end.

(** [re.search(r'sysvalue=(.+)\.html', s)]: group 1 of the leftmost
    match. *)
Fixpoint search_sysvalue (s : string) : option string :=
  match (match after_prefix "sysvalue=" s with
         | Some r => group_before_html r
         | None => None
         end) with
  | Some g => Some g
  | None =>
      match s with
      | EmptyString => None
      | String _ s' => search_sysvalue s'
      end
  end.

(** [s.rfind(c)] for one character, counting from [i]; [last] is the
    answer so far ([-1] for none). *)
Fixpoint rfind_from (c : ascii) (i : Z) (last : Z) (s : string) : Z :=
  match s with
  | EmptyString => last
  | String a s' => rfind_from c (i + 1) (if Ascii.eqb a c then i else last) s'
  end.

Definition rfind (c : ascii) (s : string) : Z := rfind_from c 0 (-1) s.

(** [p[i:j]]. *)
Definition slice (p : string) (i j : Z) : string :=
  substring (Z.to_nat i) (Z.to_nat (j - i)) p.

Fixpoint all_dots (s : string) : bool :=
  match s with
  | EmptyString => true
  | String c s' => Ascii.eqb c "."%char && all_dots s'
  end.

(** [os.path.splitext(p)[0]]: the extension starts at the last dot of the
    last path component, unless only dots come before it. *)
Definition splitext_root (p : string) : string :=
  let sepIndex := rfind "/"%char p in
  let dotIndex := rfind "."%char p in
  if (sepIndex <? dotIndex)%Z then
    if all_dots (slice p (sepIndex + 1) dotIndex) then p
    else slice p 0 dotIndex
  else p.

(** The identifier [main] derives from a file name. *)
Definition derive_disclosure_id (filename : string) : string :=
  match search_sysvalue filename with
  | Some group1 => replace "%2f" "/" group1
  | None => splitext_root filename
  end.

Definition header_id : string := "ContentPlaceHolder1_lblDisclosureHeader".

Section Main.

Variable to_datetime_coerce : string -> datetime.

(** The [try] block of the loop body. *)
Definition try_block (soup : node) (disclosure_id : string) (header_element : node)
    : stmt unit :=
  let header_text := get_text_strip header_element in
  let report_type := if contains "Lobbyist" header_text then "Lobbyist" else "Client" in
  let period_str := safe_get_text soup "span" "ContentPlaceHolder1_lblYear" in
  period <~ call (parse_date_range period_str) ;;
  let '(start_date, end_date) := period in
  update (extend_disclosure_reports_list
            [Report disclosure_id report_type start_date end_date]) ;;;
  if contains "Lobbyist" report_type then
    bundle <~ call (parse_lobbyist_report to_datetime_coerce soup disclosure_id) ;;
    let '(lobbyist_info, activities, met_expenses, operating_expenses,
          additional_expenses, contributions) := bundle in
    update (extend_lobbyists_list [lobbyist_info]) ;;;
    update (extend_lobbying_activities_list activities) ;;;
    update (extend_met_expenses_list met_expenses) ;;;
    update (extend_operating_expenses_list operating_expenses) ;;;
    update (extend_additional_expenses_list additional_expenses) ;;;
    update (extend_contributions_list contributions) ;;;
    update incr_processed_count
  else
    bundle <~ call (parse_client_report to_datetime_coerce soup disclosure_id) ;;
    let '(client_info, compensations, met_expenses, operating_expenses,
          additional_expenses) := bundle in
    update (extend_clients_list [client_info]) ;;;
    update (extend_compensations_list compensations) ;;;
    update (extend_met_expenses_list met_expenses) ;;;
    update (extend_operating_expenses_list operating_expenses) ;;;
    update (extend_additional_expenses_list additional_expenses) ;;;
    update incr_processed_count.

(** The [except Exception as e] block of the loop body. *)
Definition except_block (filename : string) (e : exc) (st : batch) : batch :=
  extend_skipped_files_log
    [(filename ++ " (Reason: Parsing Error - " ++ exc_msg e ++ ")")%string]
    (incr_skipped_other_error st).

(** One turn of the loop of [main] over a file name and the tree parsed
    from the file. *)
Definition process_file (st : batch) (file : string * node) : batch :=
  let '(filename, soup) := file in
  let disclosure_id := derive_disclosure_id filename in
  match find soup "span" (Some (String.eqb header_id)) with
  | None =>
      extend_skipped_files_log
        [(filename ++ " (Reason: Invalid Content / No Header)")%string]
        (incr_skipped_no_header st)
  | Some header_element =>
      try_except_exception (try_block soup disclosure_id header_element)
        (except_block filename) st
  end.

(** [pd.DataFrame(rows).drop_duplicates(subset=['disclosure_id'])]: of the
    rows of one key only the first stays; [seen] holds the keys met. *)
Fixpoint drop_duplicates_from {A : Type} `{Keyed A} (seen : list string) (rows : list A)
    : list A :=
  match rows with
  | [] => []
  | r :: rows' =>
      if existsb (String.eqb (disclosure_id r)) seen
      then drop_duplicates_from seen rows'
      else r :: drop_duplicates_from (disclosure_id r :: seen) rows'
  end.

Definition drop_duplicates {A : Type} `{Keyed A} (rows : list A) : list A :=
  drop_duplicates_from [] rows.

(** What [main] leaves behind: the nine tables, the skip log and the
    counters of the summary. *)
Record output : Type := Output {
  df_reports : list report;
  df_lobbyists : list lobbyist;
  df_clients : list client;
  df_compensations : list compensation;
  df_activities : list activity;
  df_met_expenses : list met_expense;
  df_operating_expenses : list operating_expense;
  df_additional_expenses : list additional_expense;
  df_contributions : list contribution;
  skipped_files_txt : list string;
  summary : batch }.

(** [main()], from the listing of [html_files]: every entry with the tree
    parsed from its content. *)
Definition main (listing : list (string * node)) : output :=
  let all_files := filter (fun f => endswith ".html" (fst f)) listing in
  let st := fold_left process_file all_files empty_batch in
  Output (disclosure_reports_list st)
         (drop_duplicates (lobbyists_list st))
         (drop_duplicates (clients_list st))
         (compensations_list st)
         (lobbying_activities_list st)
         (met_expenses_list st)
         (operating_expenses_list st)
         (additional_expenses_list st)
         (contributions_list st)
         (skipped_files_log st)
         st.

End Main.

(** The batch [a] followed by what [b] holds. *)
Definition merge (a b : batch) : batch :=
  Batch (skipped_files_log a ++ skipped_files_log b)
    (disclosure_reports_list a ++ disclosure_reports_list b)
    (lobbyists_list a ++ lobbyists_list b)
    (clients_list a ++ clients_list b)
    (compensations_list a ++ compensations_list b)
    (lobbying_activities_list a ++ lobbying_activities_list b)
    (met_expenses_list a ++ met_expenses_list b)
    (operating_expenses_list a ++ operating_expenses_list b)
    (additional_expenses_list a ++ additional_expenses_list b)
    (contributions_list a ++ contributions_list b)
    (processed_count a + processed_count b)
    (skipped_bad_filename a + skipped_bad_filename b)
    (skipped_no_header a + skipped_no_header b)
    (skipped_other_error a + skipped_other_error b).

(** Every record of each kind in a list has the key [k]. *)
Definition keyed_by {A : Type} `{Keyed A} (k : string) (rows : list A) : Prop :=
  Forall (fun r => disclosure_id r = k) rows.

(** A call returns, and every record it gives has the key [k]. *)
Definition row_ok {B : Type} `{Keyed B} (k : string) (r : result (list B)) : Prop :=
  exists rows, r = Return rows /\ keyed_by k rows.

(** A call returns records that all have the key [k], or it raises what
    [strftime] raises. *)
Definition row_fine {B : Type} `{Keyed B} (k : string) (r : result (list B)) : Prop :=
  match r with
  | Return rows => keyed_by k rows
  | Raise e => e = strftime_error
  end.

(** The node that stands for a missing cell. *)
Definition no_node : node := NavigableString PlainText EmptyString.

(** Every record that a batch holds has the key [k]. *)
Definition all_keyed (k : string) (b : batch) : Prop :=
  keyed_by k (disclosure_reports_list b) /\
  keyed_by k (lobbyists_list b) /\
  keyed_by k (clients_list b) /\
  keyed_by k (compensations_list b) /\
  keyed_by k (lobbying_activities_list b) /\
  keyed_by k (met_expenses_list b) /\
  keyed_by k (operating_expenses_list b) /\
  keyed_by k (additional_expenses_list b) /\
  keyed_by k (contributions_list b).

(** An element that [find_previous(name, text=pattern)] accepts: a tag of
    that name whose [string] the pattern matches. *)
Definition is_label (nm : string) (pattern : string -> bool) (e : element) : Prop :=
  tag_matches nm None (el_node e) = true /\
  exists t, tag_string recursion_limit (el_node e) = Return (Some t) /\ pattern t = true.

(** An element that the search passes over. *)
Definition passed_over (nm : string) (pattern : string -> bool) (e : element) : Prop :=
  tag_matches nm None (el_node e) = false \/
  tag_string recursion_limit (el_node e) = Return None \/
  exists t, tag_string recursion_limit (el_node e) = Return (Some t) /\ pattern t = false.

(** A text with no white space at its start. *)
Definition no_lead (s : string) : Prop :=
  match s with
  | EmptyString => True
  | String c _ => isspace c = false
  end.

(** A text with no white space at either end. *)
Definition trimmed (s : string) : Prop := no_lead s /\ rstrip s = s.

(** The class of the exception a call raised, if it raised. *)
Definition exc_cls_of {A : Type} (r : result A) : option exc_class :=
  match r with
  | Return _ => None
  | Raise e => Some (exc_cls e)
  end.

(** The float that [clean_currency] returns for a text. *)
Definition amount_of (t : string) : float :=
  match clean_currency (Some t) with
  | Return f => f
  | Raise _ => float_zero
  end.

(** The rows a call has produced; nothing when it raised. *)
Definition records_of {A : Type} (r : result (list A)) : list A :=
  match r with
  | Return rows => rows
  | Raise _ => []
  end.

(** The first row of a list that has the key [k]. *)
Definition first_with_key {A : Type} `{Keyed A} (k : string) (rows : list A) : option A :=
  List.find (fun r => String.eqb (disclosure_id r) k) rows.

(* --------------------------------------------------------------------- *)
(** ** Sample documents *)
(* --------------------------------------------------------------------- *)

Definition txt (s : string) : node := NavigableString PlainText s.
Definition td (s : string) : node := Tag "td" None [txt s].
Definition th (s : string) : node := Tag "th" None [txt s].
Definition tr (cells : list node) : node := Tag "tr" None cells.
Definition span (i s : string) : node := Tag "span" (Some i) [txt s].
Definition table (i : string) (rows : list node) : node := Tag "table" (Some i) rows.
Definition document (contents : list node) : node := Tag "[document]" None contents.

(** [k] tags nested in each other around one node. *)
Fixpoint nest (k : nat) (inner : node) : node :=
  match k with
  | O => inner
  | S k' => Tag "b" None [nest k' inner]
  end.

(** A date reader for the sample runs: it reads nothing. *)
Definition no_dates (s : string) : datetime := NaT.

Definition activity_header_row : node :=
  tr [th "House/Senate"; th "Bill"; th "Title"; th "Position"; th "Amount"; th "Association"].

Definition activity_data_row : node :=
  tr [td "House"; td "H.100"; td "An Act"; td "Support"; td "$1,000.00"; td "None"].

(** A lobbyist filing whose activity table follows a cell that holds one
    text under [recursion_limit] nested tags. *)
Definition deep_document : node :=
  document
    [ span header_id "Lobbyist Disclosure Report";
      span "ContentPlaceHolder1_lblYear" "01/01/2024 - 06/30/2024";
      Tag "table" None [tr [Tag "td" None [nest recursion_limit (txt "note")]]];
      table "ContentPlaceHolder1_grdvActivitiesNew"
        [activity_header_row; activity_data_row] ].

(** A lobbyist filing of an individual with an employer; no label comes
    before its activity table. *)
Definition individual_document : node :=
  document
    [ span header_id "Lobbyist Disclosure Report";
      span "ContentPlaceHolder1_LRegistrationInfoReview1_lblLobbyistCompany" "Acme Corp";
      span "ContentPlaceHolder1_LRegistrationInfoReview1_lblLobbyistFirstName" "Jane";
      span "ContentPlaceHolder1_LRegistrationInfoReview1_lblLobbyistLastName" "Doe";
      table "ContentPlaceHolder1_grdvActivitiesNew"
        [activity_header_row; activity_data_row] ].

Definition met_header_row : node :=
  tr [th "Date"; th "Event"; th "Payee"; th "Attendees"; th "Amount"].

Definition met_row5 : node :=
  tr [td EmptyString; td "Dinner"; td "Grill 23"; td "Rep. Smith"; td "$85.00"].

Definition met_row6 : node :=
  tr [td EmptyString; td "John Roe"; td "Lunch"; td "Cafe"; td "Sen. Jones"; td "$40.00"].

(** A lobbyist filing of an organization (no first and last name) with a
    MET table in the five-column layout and no lobbyist label before it. *)
Definition organization_document : node :=
  document
    [ span header_id "Lobbyist Disclosure Report";
      span "ContentPlaceHolder1_LRegistrationInfoReview1_lblLobbyistCompany" "Acme Corp";
      table "ContentPlaceHolder1_grdvMETExpenses" [met_header_row; met_row5] ].

Definition operating_data_row : node :=
  tr [td EmptyString; td "Office Depot"; td "Supplies"; td "$12.50"].

Definition placeholder_table : node :=
  table "ContentPlaceHolder1_grdvOperatingExpenses"
    [tr [td "No operating expenses were filed for this period."]].

(** A filing with two operating-expense tables: the first holds the
    placeholder, the second a data row. *)
Definition two_operating_tables : node :=
  document
    [ span header_id "Client Disclosure Report";
      placeholder_table;
      table "ContentPlaceHolder2_grdvOperatingExpenses"
        [tr [th "Date"; th "Recipient"; th "Type"; th "Amount"]; operating_data_row] ].

Definition client_met_table : node :=
  table "ContentPlaceHolder1_grdvMETExpenses" [met_header_row; met_row5; met_row6].

(** A client filing with a MET table that has a row of each layout. *)
Definition client_document : node :=
  document
    [ span header_id "Client Disclosure Report";
      span "ContentPlaceHolder1_CRegistrationInfoReview1_lblClientCompany" "Acme Corp";
      client_met_table ].

(** A lobbyist filing with a [Client:] label cell before its activity
    table. *)
Definition labelled_document : node :=
  document
    [ span header_id "Lobbyist Disclosure Report";
      span "ContentPlaceHolder1_LRegistrationInfoReview1_lblLobbyistCompany" "Firm LLP";
      span "ContentPlaceHolder1_LRegistrationInfoReview1_lblLobbyistFirstName" "Jane";
      span "ContentPlaceHolder1_LRegistrationInfoReview1_lblLobbyistLastName" "Doe";
      Tag "table" None [tr [td "Client: "; td "Other Inc"]; tr [td " Client:"; td "Acme Corp"]];
      table "ContentPlaceHolder1_grdvActivitiesNew"
        [activity_header_row; activity_data_row] ].


(* --------------------------------------------------------------------- *)
(** ** Notions used by the further properties *)
(* --------------------------------------------------------------------- *)

(** [s.count(c)] for one character. *)
Fixpoint count_char (c : ascii) (s : string) : nat :=
  match s with
  | EmptyString => O
  | String a s' => (if Ascii.eqb a c then 1 else 0) + count_char c s'
  end.

(** Whether every character of a text passes a test. *)
Fixpoint string_forall (ok : ascii -> bool) (s : string) : bool :=
  match s with
  | EmptyString => true
  | String a s' => ok a && string_forall ok s'
  end.

(** A text of white space only. *)
Definition blank (s : string) : Prop := lstrip s = EmptyString.

(** [row.find_all('td')]. *)
Definition cells (row : node) : list node := find_all row "td" None.

(** The stripped text of cell [i] of a row that has such a cell. *)
Definition cell (row : node) (i : nat) : string :=
  get_text_strip (nth i (cells row) no_node).

(** A row that a table loop turns into a record: its text does not hold
    the total marker of the table kind and it has at least [width] cells. *)
Definition data_row (marker : string) (width : nat) (row : node) : bool :=
  negb (contains marker (get_text row)) && (width <=? length (cells row))%nat.

(** The rows of a table after the first. *)
Definition body_rows (t : node) : list node := tl (find_all t "tr" None).

(** The date that [format_date] returns for a text; none when it
    raises. *)
Definition date_of (to_datetime_coerce : string -> datetime) (t : string)
    : option string :=
  match format_date to_datetime_coerce (Some t) with
  | Return date_val => date_val
  | Raise _ => None
  end.

(** The records that the table loops build from a data row whose date
    cell [format_date] reads. *)
Definition operating_record (to_datetime_coerce : string -> datetime)
    (disclosure_id : string) (row : node) : operating_expense :=
  OperatingExpense disclosure_id (date_of to_datetime_coerce (cell row 0))
    (cell row 1) (cell row 2) (amount_of (cell row 3)).

Definition additional_record (to_datetime_coerce : string -> datetime)
    (disclosure_id : string) (row : node) : additional_expense :=
  AdditionalExpense disclosure_id (date_of to_datetime_coerce (cell row 0))
    (cell row 1) (cell row 2) (cell row 3) (cell row 4) (amount_of (cell row 5)).

Definition contribution_record (to_datetime_coerce : string -> datetime)
    (disclosure_id : string) (row : node) : contribution :=
  Contribution disclosure_id (date_of to_datetime_coerce (cell row 0))
    (cell row 1) (cell row 2) (amount_of (cell row 3)).

Definition compensation_record (disclosure_id : string) (row : node) : compensation :=
  Compensation disclosure_id (cell row 0) (amount_of (cell row 1)).

Definition activity_record (disclosure_id current_lobbyist current_client : string)
    (row : node) : activity :=
  Activity disclosure_id current_lobbyist current_client (cell row 0) (cell row 1)
    (cell row 2) (cell row 3) (amount_of (cell row 4)) (cell row 5).

(** The entries of a listing that [main] works on. *)
Definition html_files (listing : list (string * node)) : list (string * node) :=
  filter (fun f => endswith ".html" (fst f)) listing.

(** What one file adds to an empty batch. *)
Definition file_delta (to_datetime_coerce : string -> datetime) (file : string * node)
    : batch :=
  process_file to_datetime_coerce empty_batch file.

(** [f"{first} {last}".strip()] for two stripped fields, case by case. *)
Definition full_name (first_name last_name : string) : string :=
  match first_name, last_name with
  | EmptyString, _ => last_name
  | _, EmptyString => first_name
  | _, _ => (first_name ++ " " ++ last_name)%string
  end.

(* --------------------------------------------------------------------- *)
(** ** The file name of a saved page ([urlsscrape.py], [scrape_url]) *)
(* --------------------------------------------------------------------- *)

(** [re.sub(r'^https?:\/\/', '', url)]: the scheme at the start of the
    text, if there is one, is dropped. *)
Definition strip_scheme (url : string) : string :=
  match after_prefix "http" url with
  | Some r =>
      match after_prefix "s://" r with
      | Some r' => r'
      | None =>
          match after_prefix "://" r with
          | Some r' => r'
          | None => url
          end
      end
  | None => url
  end.

(** The characters of the class that the second substitution replaces:
    slash, colon, star, question mark, double quote (code 34), the two
    angle brackets and bar.  The backslash in the pattern only escapes the
    slash. *)
Definition forbidden (c : ascii) : bool :=
  existsb (Ascii.eqb c)
    ["/"%char; ":"%char; "*"%char; "?"%char; "034"%char; "<"%char; ">"%char; "|"%char].

(** [re.sub(CLASS, '_', s)] for that class. *)
Fixpoint sanitize (s : string) : string :=
  match s with
  | EmptyString => EmptyString
  | String c s' => String (if forbidden c then "_"%char else c) (sanitize s')
  end.

(** The name under which [scrape_url] saves the page of a URL: the URL
    without its scheme, with every character of the class replaced by an
    underscore, followed by [.html]. *)
Definition scrape_filename (url : string) : string :=
  (sanitize (strip_scheme url) ++ ".html")%string.

(* --------------------------------------------------------------------- *)
(** ** Dates as texts *)
(* --------------------------------------------------------------------- *)

Definition digit_char (n : N) : ascii := ascii_of_N (48 + n mod 10).

(** The last two digits and the last four digits of a number. *)
Definition pad2 (n : N) : string :=
  String (digit_char (n / 10)) (String (digit_char n) EmptyString).

Definition pad4 (n : N) : string := pad2 (n / 100) ++ pad2 (n mod 100).

(** The text of a date as the pages write it, [MM/DD/YYYY]. *)
Definition format_mdY (d : date) : string :=
  (pad2 (month d) ++ "/" ++ pad2 (day d) ++ "/" ++ pad4 (year d))%string.

(** A day of the calendar that a timestamp can hold. *)
Definition valid_date (d : date) : bool :=
  ((1 <=? month d) && (month d <=? 12) && (1 <=? day d)
   && (day d <=? days_in_month (year d) (month d)))%N
  && in_bounds d.

(** A date reader that knows one text. *)
Definition reads_only (text : string) (d : date) (s : string) : datetime :=
  if String.eqb s text then Timestamp d else NaT.

(* --------------------------------------------------------------------- *)
(** ** The books of a batch *)
(* --------------------------------------------------------------------- *)

(** The balance between the counters and the lists of a batch that has
    seen [files] files. *)
Definition accounts_for (b : batch) (files : nat) : Prop :=
  (processed_count b + skipped_no_header b + skipped_other_error b = files)%nat /\
  skipped_bad_filename b = 0%nat /\
  length (skipped_files_log b) = (skipped_no_header b + skipped_other_error b)%nat /\
  (length (lobbyists_list b) + length (clients_list b) = processed_count b)%nat /\
  length (disclosure_reports_list b) = (processed_count b + skipped_other_error b)%nat.

(** Whether the page of a file has the header element. *)
Definition has_header (file : string * node) : bool :=
  match find (snd file) "span" (Some (String.eqb header_id)) with
  | Some _ => true
  | None => false
  end.

(** The identifiers derived from the file names of a listing. *)
Definition derived_ids (files : list (string * node)) : list string :=
  map (fun f => derive_disclosure_id (fst f)) files.

(* --------------------------------------------------------------------- *)
(** ** Further sample documents *)
(* --------------------------------------------------------------------- *)

Definition contributions_sample_table : node :=
  table "ContentPlaceHolder1_grdvCampaignContribution"
    [ tr [th "Date"; th "Recipient"; th "Office"; th "Amount"];
      tr [td EmptyString; td "Ann Poe"; td "State Senate"; td "$200.00"];
      tr [td "Total contributions"; td EmptyString; td EmptyString; td "$450.00"];
      tr [td EmptyString; td "Bob Roe"];
      tr [td EmptyString; td "Cy Doe"; td "Governor"; td "$250.00"] ].

(** A lobbyist filing with a contributions table that has a total row in
    the middle and a row that is too short. *)
Definition contributions_document : node :=
  document
    [ span header_id "Lobbyist Disclosure Report";
      span "ContentPlaceHolder1_LRegistrationInfoReview1_lblLobbyistCompany" "Acme Corp";
      contributions_sample_table ].

(** A client filing with an authorizing officer. *)
Definition officer_document : node :=
  document
    [ span header_id "Client Disclosure Report";
      span "ContentPlaceHolder1_CRegistrationInfoReview1_lblClientCompany" "Acme Corp";
      span "ContentPlaceHolder1_CRegistrationInfoReview1_lblClientAuthorizingOfficerFirstName"
        " Ann ";
      span "ContentPlaceHolder1_CRegistrationInfoReview1_lblClientAuthorizingOfficerLastName"
        EmptyString ].

(** A listing of a lobbyist filing, a file that is no page and a client
    filing. *)
Definition mixed_listing : list (string * node) :=
  [ ("a_sysvalue=L7.html", individual_document);
    ("notes.txt", client_document);
    ("c_sysvalue=C3.html", client_document) ].

(** An operating-expense table whose text holds the placeholder and that
    has two data rows after its first row all the same. *)
Definition stray_rows_table : node :=
  table "ContentPlaceHolder1_grdvOperatingExpenses"
    [ tr [td "No operating expenses were filed for this period."];
      operating_data_row; operating_data_row ].

Definition first_met_table : node :=
  table "ContentPlaceHolder1_grdvMETExpenses" [met_header_row; met_row6].

Definition second_met_table : node :=
  table "ContentPlaceHolder2_grdvMETExpenses" [met_header_row; met_row5].

(** A client filing with two MET tables; the five-cell row stands in the
    second. *)
Definition two_met_tables_client : node :=
  document
    [ span header_id "Client Disclosure Report";
      first_met_table; second_met_table ].

(** A client filing with an operating expense dated in the year 0. *)
Definition year_zero_document : node :=
  document
    [ span header_id "Client Disclosure Report";
      table "ContentPlaceHolder1_grdvOperatingExpenses"
        [ tr [th "Date"; th "Recipient"; th "Type"; th "Amount"];
          tr [td "0000-01-01"; td "Office Depot"; td "Supplies"; td "$12.50"] ] ].

Definition salary_rows : list node :=
  [ tr [th "Payee"; th "Amount"];
    tr [td "Ann Poe"; td "$1,000.00"];
    tr [td "Total Wine Inc"; td "$500.00"];
    tr [td "Total salaries paid"; td "$1,500.00"] ].

(** A client filing with a compensation table; one payee has the word
    [Total] in its name. *)
Definition salary_document : node :=
  document
    [ span header_id "Client Disclosure Report";
      table "ContentPlaceHolder1_DisclosureReviewDetail1_grdvSalaryPaid" salary_rows ].

(** A lobbyist filing with a lobbyist label before its MET table. *)
Definition met_label_document : node :=
  document
    [ span header_id "Lobbyist Disclosure Report";
      span "ContentPlaceHolder1_LRegistrationInfoReview1_lblLobbyistCompany" "Firm LLP";
      span "ContentPlaceHolder1_rptLobbyists_lblLobbyistName_0" "Lobbyist: John Roe";
      table "ContentPlaceHolder1_grdvMETExpenses" [met_header_row; met_row5] ].

(** The address of a filing page. *)
Definition sample_page : string :=
  "www.sec.state.ma.us/lobbyistpublicsearch/CompleteDisclosure.aspx?".

(* ===================================================================== *)
(** * Part II: properties *)
(* ===================================================================== *)

(* --------------------------------------------------------------------- *)
(** ** Sample runs of the string and date layer *)
(* --------------------------------------------------------------------- *)

Example strip_run : strip "  a b  " = "a b".
Proof. reflexivity. Qed.

Example split_run :
  split "-" "01/02/2024 - 03/04/2024" = ["01/02/2024 "; " 03/04/2024"] /\
  split "-" EmptyString = [EmptyString] /\
  split "-" "2024-01-02" = ["2024"; "01"; "02"].
Proof. repeat split. Qed.

Example replace_run :
  replace "%2f" "/" "a%2fb%2f%2" = "a/b/%2" /\
  replace "Lobbyist: " EmptyString "Lobbyist: Ann Poe" = "Ann Poe".
Proof. repeat split. Qed.

Example parse_float_run :
  map parse_float ["1000"; "1_000.5"; "1e3"; ".5"; " -2 "; "-inf"; "1e"; "1,5"; "abc"]
  = [Some (FFinite 1000); Some (FFinite (2001 # 2)); Some (FFinite 1000);
     Some (FFinite (1 # 2)); Some (FFinite (-2)); Some (FInf true); None; None; None].
Proof. reflexivity. Qed.

Example to_datetime_mdY_run :
  to_datetime_mdY "12/31/2024" = Return (Timestamp (Date 2024 12 31)) /\
  to_datetime_mdY "2/29/2024" = Return (Timestamp (Date 2024 2 29)) /\
  to_datetime_mdY EmptyString = Return NaT /\
  exc_cls_of (to_datetime_mdY "02/30/2024") = Some ValueError /\
  exc_cls_of (to_datetime_mdY "2024-01-02") = Some ValueError /\
  exc_cls_of (to_datetime_mdY "01/02/2024x") = Some ValueError.
Proof. repeat split. Qed.

Example derive_disclosure_id_run :
  map derive_disclosure_id
    ["www.example.org_Summary.aspx_sysvalue=ab%2fcd=.html"; "report.html"; "a.b.html";
     "sysvalue=.html"; ".html"]
  = ["ab/cd="; "report"; "a.b"; "sysvalue="; ".html"].
Proof. reflexivity. Qed.

(* --------------------------------------------------------------------- *)
(** ** Normalizers *)
(* --------------------------------------------------------------------- *)

Lemma replace_char_without (c : ascii) (s : string) :
  replace (String c EmptyString) EmptyString s = without c s.
Proof.
  unfold replace. induction s as [|a s IH]; simpl; [reflexivity|].
  rewrite IH. destruct (Ascii.eqb c a); reflexivity.
Qed.

Lemma float_of_str_raises_value_error (s : string) (e : exc) :
  float_of_str s = Raise e -> exc_cls e = ValueError.
Proof.
  unfold float_of_str. destruct (parse_float s); intros H; inversion H. reflexivity.
Qed.

(** The value [clean_currency] settles on, without the detour through an
    exception. *)
Lemma clean_currency_value (text : option string) :
  clean_currency text =
  Return match text with
         | None => float_zero
         | Some t =>
             if String.eqb (strip t) EmptyString then float_zero
             else match parse_float (strip (without "," (without "$" t))) with
                  | Some f => f
                  | None => float_zero
                  end
         end.
Proof.
  destruct text as [t|]; simpl; [|reflexivity].
  destruct (String.eqb (strip t) EmptyString); [reflexivity|].
  rewrite !replace_char_without. unfold float_of_str.
  destruct (parse_float _); reflexivity.
Qed.

Lemma clean_currency_returns (text : option string) :
  exists amount, clean_currency text = Return amount.
Proof. rewrite clean_currency_value. eexists; reflexivity. Qed.

(** C8. [clean_currency] never raises.  For every input (a string or
    [None]) it returns a float: zero for [None], for a blank string and for
    a text that is no number once the currency sign and the commas are
    taken out, and the number that this text denotes otherwise.  In
    particular [clean_currency("$1,234.50") == 1234.50]. *)
Theorem clean_currency_never_raises :
  (forall text : option string,
     exists amount : float,
       clean_currency text = Return amount /\
       match text with
       | None => amount = float_zero
       | Some t =>
           if String.eqb (strip t) EmptyString then amount = float_zero
           else match parse_float (strip (without "," (without "$" t))) with
                | Some f => amount = f
                | None => amount = float_zero
                end
       end) /\
  clean_currency (Some "$1,234.50") = float_of_str "1234.50" /\
  clean_currency (Some "$1,234.50") = Return (FFinite (2469 # 2)) /\
  clean_currency (Some EmptyString) = Return float_zero /\
  clean_currency None = Return float_zero.
Proof.
  split; [|repeat split; reflexivity].
  intros text. rewrite clean_currency_value. eexists. split; [reflexivity|].
  destruct text as [t|]; [|reflexivity].
  destruct (String.eqb (strip t) EmptyString); [reflexivity|].
  destruct (parse_float _); reflexivity.
Qed.

Lemma unpack2_raises_value_error {A : Type} (xs : list A) (e : exc) :
  unpack2 xs = Raise e -> exc_cls e = ValueError.
Proof.
  destruct xs as [|a [|b [|c xs]]]; simpl; intros H; inversion H; reflexivity.
Qed.

Lemma to_datetime_mdY_raises_value_error (s : string) (e : exc) :
  to_datetime_mdY s = Raise e -> exc_cls e = ValueError.
Proof.
  unfold to_datetime_mdY.
  destruct (_ || _); [discriminate|].
  destruct (match_mdY s) as [[d [|c r]]|].
  - destruct (negb _); [intros H; inversion H; reflexivity|].
    destruct (negb _); [intros H; inversion H; reflexivity|discriminate].
  - intros H; inversion H; reflexivity.
  - intros H; inversion H; reflexivity.
Qed.

Lemma digit_value_upper (c : ascii) (v : N) : digit_value c = Some v -> (v <= 9)%N.
Proof.
  unfold digit_value.
  destruct ((48 <=? N_of_ascii c) && (N_of_ascii c <=? 57))%N eqn:Hc; [|discriminate].
  intros Hv. inversion Hv; subst. apply andb_true_iff in Hc. destruct Hc as [H1 H2].
  apply N.leb_le in H1, H2. lia.
Qed.

Lemma two_digits_upper (s : string) (x y : N) (r : string) :
  two_digits s = Some (x, y, r) -> (x <= 9)%N /\ (y <= 9)%N.
Proof.
  unfold two_digits. destruct s as [|a [|b r0]]; try discriminate.
  destruct (digit_value a) as [x'|] eqn:Ha; [|discriminate].
  destruct (digit_value b) as [y'|] eqn:Hb; [|discriminate].
  intros Hs. inversion Hs; subst.
  split; eapply digit_value_upper; eassumption.
Qed.

Lemma one_digit_upper (s : string) (x : N) (r : string) :
  one_digit s = Some (x, r) -> (x <= 9)%N.
Proof.
  unfold one_digit. destruct s as [|a r0]; [discriminate|].
  destruct (digit_value a) as [x'|] eqn:Ha; [|discriminate].
  intros Hs. inversion Hs; subst. eapply digit_value_upper; eassumption.
Qed.

Lemma month_alternatives_upper (s : string) (m : N) (r : string) :
  In (m, r) (month_alternatives s) -> (m <= 12)%N.
Proof.
  unfold month_alternatives. intros Hin. apply in_app_or in Hin.
  destruct Hin as [Hin | Hin].
  - destruct (two_digits s) as [[[x y] r']|] eqn:Ht; [|destruct Hin].
    destruct (two_digits_upper _ Ht) as [_ Hy].
    apply in_app_or in Hin. destruct Hin as [Hin | Hin].
    + destruct ((x =? 1) && (y <=? 2))%N eqn:Hc; [|destruct Hin].
      apply andb_true_iff in Hc. destruct Hc as [_ Hc]. apply N.leb_le in Hc.
      destruct Hin as [Heq | []]. apply (f_equal fst) in Heq. cbn [fst] in Heq.
      rewrite <- Heq. lia.
    + destruct ((x =? 0) && (1 <=? y))%N; [|destruct Hin].
      destruct Hin as [Heq | []]. apply (f_equal fst) in Heq. cbn [fst] in Heq.
      rewrite <- Heq. lia.
  - destruct (one_digit s) as [[x r']|] eqn:Ho; [|destruct Hin].
    pose proof (one_digit_upper _ Ho) as Hx.
    destruct (1 <=? x)%N; [|destruct Hin].
    destruct Hin as [Heq | []]. apply (f_equal fst) in Heq. cbn [fst] in Heq.
      rewrite <- Heq. lia.
Qed.

Lemma first_some_found {A B : Type} (k : A -> option B) (alts : list A) (b : B) :
  first_some k alts = Some b -> exists a, In a alts /\ k a = Some b.
Proof.
  induction alts as [|a alts IH]; cbn [first_some]; [discriminate|].
  destruct (k a) as [b'|] eqn:Hk.
  - intros Hb. inversion Hb; subst. exists a. split; [left; reflexivity | exact Hk].
  - intros Hb. destruct (IH Hb) as [a' [Hin Ha']]. exists a'. split; [right|]; assumption.
Qed.

Lemma after_slash_some {B : Type} (s : string) (k : string -> option B) (b : B) :
  after_slash s k = Some b -> exists r, k r = Some b.
Proof.
  unfold after_slash. destruct s as [|c r]; [discriminate|].
  destruct c as [[] [] [] [] [] [] [] []]; try discriminate. intros Hk. exists r. exact Hk.
Qed.

Lemma match_mdY_month (s : string) (d : date) (r : string) :
  match_mdY s = Some (d, r) -> (month d <= 12)%N.
Proof.
  unfold match_mdY. intros Hs. apply first_some_found in Hs.
  destruct Hs as [[m r1] [Hin Hk]]. apply after_slash_some in Hk.
  destruct Hk as [r2 Hk]. apply first_some_found in Hk.
  destruct Hk as [[dd r3] [_ Hk]]. apply after_slash_some in Hk.
  destruct Hk as [r4 Hk]. destruct (year_digits r4) as [[y r5]|]; [|discriminate].
  inversion Hk; subst. cbn [month]. eapply month_alternatives_upper. exact Hin.
Qed.

Lemma days_in_month_upper (y m : N) : (days_in_month y m <= 31)%N.
Proof.
  unfold days_in_month.
  destruct m as [|[[[[]|[]|]|[[]|[]|]|]|[[[]|[]|]|[[]|[]|]|]|]]; try lia;
    destruct (is_leap y); lia.
Qed.

Lemma to_datetime_mdY_range (s : string) (d : date) :
  to_datetime_mdY s = Return (Timestamp d) -> in_datetime_range d = true.
Proof.
  unfold to_datetime_mdY. destruct (_ || _); [discriminate|].
  destruct (match_mdY s) as [[d' [|c r]]|] eqn:Hm; try discriminate.
  destruct (negb ((1 <=? day d') && (day d' <=? days_in_month (year d') (month d')))%N)
    eqn:Hday; [discriminate|].
  destruct (negb (in_bounds d')) eqn:Hb; [discriminate|].
  intros Hd. inversion Hd; subst d'.
  apply negb_false_iff, andb_true_iff in Hday. destruct Hday as [_ Hday].
  apply N.leb_le in Hday. pose proof (days_in_month_upper (year d) (month d)) as Hup.
  pose proof (match_mdY_month _ Hm) as Hmonth.
  apply negb_false_iff in Hb. unfold in_bounds in Hb. apply andb_true_iff in Hb.
  destruct Hb as [Hlo Hhi]. apply N.leb_le in Hlo, Hhi.
  unfold in_datetime_range. apply andb_true_iff. split; apply N.leb_le; lia.
Qed.

Lemma parse_date_range_value (s : string) :
  parse_date_range s =
  Return match two_dates s with
         | Some (d1, d2) => (Some (format_ymd d1), Some (format_ymd d2))
         | None => (None, None)
         end.
Proof.
  unfold parse_date_range, two_dates.
  destruct (split "-" s) as [|a [|b [|c parts]]]; simpl; try reflexivity.
  destruct (to_datetime_mdY (strip a)) as [[|d1]|e1] eqn:E1; simpl.
  - reflexivity.
  - rewrite (to_datetime_mdY_range _ E1). simpl.
    destruct (to_datetime_mdY (strip b)) as [[|d2]|e2] eqn:E2; simpl; try reflexivity.
    + rewrite (to_datetime_mdY_range _ E2). reflexivity.
    + rewrite (to_datetime_mdY_raises_value_error _ E2). reflexivity.
  - rewrite (to_datetime_mdY_raises_value_error _ E1). simpl.
    destruct (to_datetime_mdY (strip b)) as [[|d2]|e2]; reflexivity.
Qed.

(** C5. [parse_date_range] is all or nothing and never raises: for every
    string, when the split at the dash gives exactly two parts that both
    read as dates, both ends are returned as formatted dates; in every
    other case both ends are absent.  So
    [parse_date_range("01/02/2024 - 03/04/2024")] is
    [("2024-01-02", "2024-03-04")] and [parse_date_range("garbage")] is
    [(None, None)]. *)
Theorem parse_date_range_all_or_nothing :
  (forall s : string,
     parse_date_range s =
     Return match two_dates s with
            | Some (d1, d2) => (Some (format_ymd d1), Some (format_ymd d2))
            | None => (None, None)
            end) /\
  (forall s : string,
     exists ends, parse_date_range s = Return ends /\
       match ends with
       | (Some _, Some _) | (None, None) => True
       | (Some _, None) | (None, Some _) => False
       end) /\
  parse_date_range "01/02/2024 - 03/04/2024" = Return (Some "2024-01-02", Some "2024-03-04") /\
  parse_date_range "garbage" = Return (None, None).
Proof.
  pose proof parse_date_range_value as main_eq.
  split; [exact main_eq|]. split; [|split; reflexivity].
  intros s. rewrite main_eq. destruct (two_dates s) as [[d1 d2]|]; eexists; split;
    try reflexivity; exact I.
Qed.

(* --------------------------------------------------------------------- *)
(** ** Aggregation: [drop_duplicates] *)
(* --------------------------------------------------------------------- *)

Section DropDuplicates.

Context {A : Type} `{Keyed A}.

Lemma seen_spec (k : string) (seen : list string) :
  existsb (String.eqb k) seen = true <-> In k seen.
Proof.
  rewrite existsb_exists. split.
  - intros [x [Hin Heq]]. apply String.eqb_eq in Heq. subst. exact Hin.
  - intros Hin. exists k. split; [exact Hin | apply String.eqb_refl].
Qed.

Lemma drop_duplicates_from_in (seen : list string) (rows : list A) (r : A) :
  In r (drop_duplicates_from seen rows) <->
  ~ In (disclosure_id r) seen /\ first_with_key (disclosure_id r) rows = Some r.
Proof.
  revert seen. induction rows as [|r0 rows IH]; intros seen; simpl.
  - split; [intros [] | intros [_ Hf]; discriminate].
  - destruct (existsb (String.eqb (disclosure_id r0)) seen) eqn:Hseen.
    + apply seen_spec in Hseen. rewrite IH.
      destruct (String.eqb (disclosure_id r0) (disclosure_id r)) eqn:Hk.
      * apply String.eqb_eq in Hk. rewrite <- Hk. split; intros [Hn _]; contradiction.
      * reflexivity.
    + assert (Hnot : ~ In (disclosure_id r0) seen).
      { intros Hin. apply seen_spec in Hin. congruence. }
      simpl. rewrite IH. simpl.
      destruct (String.eqb (disclosure_id r0) (disclosure_id r)) eqn:Hk.
      * apply String.eqb_eq in Hk. split.
        -- intros [Heq | [Hn _]].
           ++ subst r0. split; [exact Hnot | reflexivity].
           ++ exfalso. apply Hn. left. exact Hk.
        -- intros [_ Hf]. left. congruence.
      * apply String.eqb_neq in Hk. split.
        -- intros [Heq | [Hn Hf]].
           ++ subst r0. contradiction Hk. reflexivity.
           ++ split; [intros Hin; apply Hn; right; exact Hin | exact Hf].
        -- intros [Hn Hf]. right. split; [|exact Hf].
           intros [Heq | Hin]; [contradiction | contradiction].
Qed.

Lemma drop_duplicates_from_NoDup (seen : list string) (rows : list A) :
  NoDup (map disclosure_id (drop_duplicates_from seen rows)).
Proof.
  revert seen. induction rows as [|r0 rows IH]; intros seen; simpl.
  - constructor.
  - destruct (existsb (String.eqb (disclosure_id r0)) seen); [apply IH|].
    simpl. constructor; [|apply IH].
    intros Hin. apply in_map_iff in Hin. destruct Hin as [r [Hk Hr]].
    apply drop_duplicates_from_in in Hr. destruct Hr as [Hn _].
    apply Hn. left. symmetry. exact Hk.
Qed.

Lemma first_with_key_of_member (rows : list A) (r : A) :
  In r rows ->
  exists r', first_with_key (disclosure_id r) rows = Some r' /\
             disclosure_id r' = disclosure_id r.
Proof.
  induction rows as [|r0 rows IH]; simpl; [intros []|].
  intros Hin. destruct (String.eqb (disclosure_id r0) (disclosure_id r)) eqn:Hk.
  - exists r0. split; [reflexivity | apply String.eqb_eq; exact Hk].
  - destruct Hin as [Heq | Hin].
    + subst r0. rewrite String.eqb_refl in Hk. discriminate.
    + apply IH. exact Hin.
Qed.

Lemma drop_duplicates_in (rows : list A) (r : A) :
  In r (drop_duplicates rows) <-> first_with_key (disclosure_id r) rows = Some r.
Proof.
  unfold drop_duplicates. rewrite drop_duplicates_from_in. simpl. tauto.
Qed.

Lemma drop_duplicates_keeps_every_key (rows : list A) (r : A) :
  In r rows -> In (disclosure_id r) (map disclosure_id (drop_duplicates rows)).
Proof.
  intros Hin. destruct (first_with_key_of_member rows r Hin) as [r' [Hf Hk]].
  rewrite <- Hk. apply in_map. apply drop_duplicates_in. rewrite Hk. exact Hf.
Qed.

End DropDuplicates.

(** C9. In the aggregated output the lobbyist table and the client table
    hold at most one record for every [disclosure_id]: a record is in the
    table exactly when it is the first record with its identifier in the
    list collected in processing order, and no identifier of that list is
    lost.  Two filings with the same derived identifier leave one lobbyist
    record, the first one. *)
Theorem primary_records_deduplicated :
  (forall (to_datetime_coerce : string -> datetime) (listing : list (string * node)),
     let out := main to_datetime_coerce listing in
     NoDup (map disclosure_id (df_lobbyists out)) /\
     NoDup (map disclosure_id (df_clients out)) /\
     (forall r, In r (df_lobbyists out) <->
                first_with_key (disclosure_id r) (lobbyists_list (summary out)) = Some r) /\
     (forall r, In r (df_clients out) <->
                first_with_key (disclosure_id r) (clients_list (summary out)) = Some r) /\
     (forall r, In r (lobbyists_list (summary out)) ->
                In (disclosure_id r) (map disclosure_id (df_lobbyists out))) /\
     (forall r, In r (clients_list (summary out)) ->
                In (disclosure_id r) (map disclosure_id (df_clients out)))) /\
  (let out := main no_dates [("a_sysvalue=L7.html", individual_document);
                             ("b_sysvalue=L7.html", labelled_document)] in
   map lob_employer_name (lobbyists_list (summary out)) = ["Acme Corp"; "Firm LLP"] /\
   map lob_disclosure_id (lobbyists_list (summary out)) = ["L7"; "L7"] /\
   df_lobbyists out = [Lobbyist "L7" "Jane" "Doe" "Acme Corp" false]).
Proof.
  split.
  - intros to_datetime_coerce listing out. unfold out, main; simpl.
    repeat split.
    + apply drop_duplicates_from_NoDup.
    + apply drop_duplicates_from_NoDup.
    + apply drop_duplicates_in.
    + apply drop_duplicates_in.
    + apply drop_duplicates_in.
    + apply drop_duplicates_in.
    + apply drop_duplicates_keeps_every_key.
    + apply drop_duplicates_keeps_every_key.
  - vm_compute. repeat split.
Qed.

(** The theorem at two filings with one identifier. *)
Lemma primary_records_deduplicated_witness :
  let out := main no_dates [("a_sysvalue=L7.html", individual_document);
                            ("b_sysvalue=L7.html", labelled_document)] in
  In (Lobbyist "L7" "Jane" "Doe" "Firm LLP" false) (lobbyists_list (summary out)) /\
  In "L7" (map disclosure_id (df_lobbyists out)) /\
  ~ In (Lobbyist "L7" "Jane" "Doe" "Firm LLP" false) (df_lobbyists out).
Proof.
  cbv zeta.
  assert (Hin : In (Lobbyist "L7" "Jane" "Doe" "Firm LLP" false)
                  (lobbyists_list
                     (summary (main no_dates [("a_sysvalue=L7.html", individual_document);
                                              ("b_sysvalue=L7.html", labelled_document)]))))
    by (vm_compute; right; left; reflexivity).
  destruct (proj1 primary_records_deduplicated no_dates
              [("a_sysvalue=L7.html", individual_document);
               ("b_sysvalue=L7.html", labelled_document)])
    as [_ [_ [Hfirst [_ [Hkeys _]]]]].
  split; [exact Hin|]. split; [exact (Hkeys _ Hin)|].
  intros Hkept. apply Hfirst in Hkept. vm_compute in Hkept. discriminate Hkept.
Defined.


(* --------------------------------------------------------------------- *)
(** ** The markup tree *)
(* --------------------------------------------------------------------- *)

Lemma node_induction (P : node -> Prop) :
  (forall k s, P (NavigableString k s)) ->
  (forall nm i cs, Forall P cs -> P (Tag nm i cs)) ->
  forall n, P n.
Proof.
  intros Hs Ht. fix IH 1. intros [k s | nm i cs].
  - apply Hs.
  - apply Ht. induction cs as [|c cs IHcs]; constructor; [apply IH | exact IHcs].
Qed.

(** The reading order lists a node and then its descendants. *)
Lemma elements_of_nodes (n : node) :
  forall sibs, map fst (elements_of n sibs) = n :: descendants n.
Proof.
  induction n as [k s | nm i cs IH] using node_induction; intros sibs; [reflexivity|].
  cbn [elements_of map fst descendants]. f_equal.
  induction IH as [|c cs Hc _ IHcs]; [reflexivity|].
  cbn [flat_map]. rewrite map_app, Hc, IHcs. reflexivity.
Qed.

Lemma number_from_nodes (i : nat) (l : list (node * list node)) :
  map el_node (number_from i l) = map fst l.
Proof.
  revert i. induction l as [|[n sibs] l IH]; intros i; simpl; [reflexivity|].
  rewrite IH. reflexivity.
Qed.

Lemma number_from_nth (i j : nat) (l : list (node * list node)) (e : element) :
  nth_error (number_from i l) j = Some e -> el_pos e = (i + j)%nat.
Proof.
  revert i j. induction l as [|[n sibs] l IH]; intros i j; simpl.
  - destruct j; discriminate.
  - destruct j as [|j]; simpl.
    + intros He. inversion He. simpl. lia.
    + intros He. rewrite (IH _ _ He). lia.
Qed.

(** The place of an element is its index in the reading order. *)
Lemma document_order_place (soup : node) (e : element) :
  In e (document_order soup) -> nth_error (document_order soup) (el_pos e) = Some e.
Proof.
  intros Hin. apply In_nth_error in Hin. destruct Hin as [j Hj].
  pose proof (number_from_nth _ _ _ Hj) as Hpos. simpl in Hpos.
  rewrite Hpos. exact Hj.
Qed.

(** The nodes below the document in reading order are its descendants. *)
Lemma document_order_descendants (soup : node) :
  map el_node (tl (document_order soup)) = descendants soup.
Proof.
  unfold document_order.
  pose proof (number_from_nodes 0 (elements_of soup [])) as Hn.
  rewrite elements_of_nodes in Hn.
  destruct (number_from 0 (elements_of soup [])) as [|e es]; [discriminate|].
  simpl in *. inversion Hn. reflexivity.
Qed.

Lemma filter_map_commute {X Y : Type} (f : X -> Y) (keep : Y -> bool) (xs : list X) :
  map f (filter (fun x => keep (f x)) xs) = filter keep (map f xs).
Proof.
  induction xs as [|x xs IH]; simpl; [reflexivity|].
  destruct (keep (f x)); simpl; rewrite IH; reflexivity.
Qed.

(** Both searches of a document find the same tags in the same order. *)
Lemma soup_find_all_nodes (soup : node) (nm : string) (id_ok : option (string -> bool)) :
  map el_node (soup_find_all soup nm id_ok) = find_all soup nm id_ok.
Proof.
  unfold soup_find_all, find_all.
  rewrite (filter_map_commute el_node (tag_matches nm id_ok)).
  rewrite document_order_descendants. reflexivity.
Qed.

(* --------------------------------------------------------------------- *)
(** ** Loops and rows *)
(* --------------------------------------------------------------------- *)

Lemma for_extend_app {X B : Type} (body : X -> result (list B)) (xs : list X)
    (rows : list B) (y : B) :
  for_extend body xs = Return rows ->
  In y rows -> exists x ys, In x xs /\ body x = Return ys /\ In y ys.
Proof.
  revert rows. induction xs as [|x xs IH]; simpl; intros rows.
  - intros Hr Hin. inversion Hr; subst. destruct Hin.
  - destruct (body x) as [ys|e] eqn:Hb; simpl; [|discriminate].
    destruct (for_extend body xs) as [zs|e] eqn:Hf; simpl; [|discriminate].
    intros Hr Hin. inversion Hr; subst. apply in_app_or in Hin.
    destruct Hin as [Hin | Hin].
    + exists x, ys. auto.
    + destruct (IH zs eq_refl Hin) as [x' [ys' [Hx [Hb' Hy]]]].
      exists x', ys'. auto.
Qed.

Lemma for_extend_Forall {X B : Type} (P : B -> Prop) (body : X -> result (list B))
    (xs : list X) (rows : list B) :
  (forall x ys, In x xs -> body x = Return ys -> Forall P ys) ->
  for_extend body xs = Return rows -> Forall P rows.
Proof.
  intros Hbody Hr. apply Forall_forall. intros y Hin.
  destruct (@for_extend_app _ _ body xs rows y Hr Hin) as [x [ys [Hx [Hb Hy]]]].
  pose proof (Hbody x ys Hx Hb) as HF. rewrite Forall_forall in HF. auto.
Qed.

Lemma col_text_lt (cols : list node) (i : nat) :
  (i < length cols)%nat ->
  col_text cols i = Return (get_text_strip (nth i cols no_node)).
Proof.
  intros Hlt. unfold col_text, getitem.
  rewrite (nth_error_nth' cols no_node Hlt). reflexivity.
Qed.

Lemma clean_currency_amount (t : string) :
  clean_currency (Some t) = Return (amount_of t).
Proof.
  unfold amount_of. destruct (clean_currency_returns (Some t)) as [f Hf].
  rewrite Hf. reflexivity.
Qed.

(** Rewrites the cell reads of a row whose length guard has passed. *)
Ltac read_cells :=
  repeat match goal with
         | |- context [col_text ?cols ?i] =>
             rewrite (@col_text_lt cols i) by (simpl; lia)
         | |- context [clean_currency (Some ?t)] => rewrite (clean_currency_amount t)
         | |- context [bind (Return ?a) ?k] =>
             change (bind (Return a) k) with (k a); cbv beta
         end.

Section Rows.

Variable to_datetime_coerce : string -> datetime.
Variable document_id : string.

Ltac skip_row := eexists; split; [reflexivity | constructor].

(** A row function: the total-row guard, the length guard, the cells. *)
Ltac solve_row :=
  unfold row_ok, keyed_by;
  match goal with
  | |- context [contains ?m (get_text ?row)] =>
      destruct (contains m (get_text row)); cbn [orb]; [skip_row|]
  end;
  match goal with
  | |- context [(length ?cols <? ?n)%nat] =>
      let Hlen := fresh "Hlen" in
      destruct (length cols <? n)%nat eqn:Hlen; [skip_row|];
      apply Nat.ltb_ge in Hlen
  end;
  repeat match goal with
         | |- context [(length ?cols =? ?n)%nat] =>
             let H6 := fresh "H6" in
             destruct (length cols =? n)%nat eqn:H6;
             [apply Nat.eqb_eq in H6|]
         end;
  read_cells; eexists; (split; [reflexivity | repeat constructor]).

Lemma compensation_row_ok (row : node) :
  row_ok document_id (compensation_row document_id row).
Proof. unfold compensation_row. solve_row. Qed.

Lemma activity_row_ok (lobbyist_name client_name : string) (row : node) :
  row_ok document_id (activity_row document_id lobbyist_name client_name row).
Proof. unfold activity_row. solve_row. Qed.

Lemma format_date_raise (date_string : option string) (e : exc) :
  format_date to_datetime_coerce date_string = Raise e -> e = strftime_error.
Proof.
  unfold format_date. destruct date_string as [s|]; [|discriminate].
  destruct (negb _); [discriminate|].
  destruct (to_datetime_coerce s) as [|d]; [discriminate|].
  cbn [strftime_ymd]. destruct (in_datetime_range d); cbn [bind]; [discriminate|].
  intros He. inversion He. reflexivity.
Qed.

Lemma row_fine_nil {B : Type} `{Keyed B} : row_fine document_id (Return (@nil B)).
Proof. constructor. Qed.

Lemma for_extend_fine {X B : Type} `{Keyed B} (body : X -> result (list B))
    (xs : list X) :
  (forall x, In x xs -> row_fine document_id (body x)) ->
  row_fine document_id (for_extend body xs).
Proof.
  induction xs as [|x xs IH]; intros Hall; [constructor|].
  cbn [for_extend]. pose proof (Hall x (or_introl eq_refl)) as Hx.
  assert (Hxs : row_fine document_id (for_extend body xs))
    by (apply IH; intros x' Hin; apply Hall; right; exact Hin).
  destruct (body x) as [ys|e]; cbn [bind]; [|exact Hx].
  destruct (for_extend body xs) as [zs|e]; cbn [bind]; [|exact Hxs].
  apply Forall_app. split; assumption.
Qed.

(** A row function that reads a date: the guards, the cells, and the one
    call that may raise. *)
Ltac solve_dated_row :=
  match goal with
  | |- context [contains ?m (get_text ?row)] =>
      destruct (contains m (get_text row)); cbn [orb]; [apply row_fine_nil|]
  end;
  match goal with
  | |- context [(length ?cols <? ?n)%nat] =>
      let Hlen := fresh "Hlen" in
      destruct (length cols <? n)%nat eqn:Hlen; [apply row_fine_nil|];
      apply Nat.ltb_ge in Hlen
  end;
  repeat match goal with
         | |- context [(length ?cols =? ?n)%nat] =>
             let H6 := fresh "H6" in
             destruct (length cols =? n)%nat eqn:H6;
             [apply Nat.eqb_eq in H6|]
         end;
  read_cells;
  match goal with
  | |- context [format_date ?c ?x] =>
      let Hd := fresh "Hd" in
      destruct (format_date c x) as [dt|e] eqn:Hd; cbn [bind];
      [read_cells; unfold row_fine, keyed_by; repeat constructor
      | exact (format_date_raise _ Hd)]
  end.

Lemma met_row_fine (name : option string) (row : node) :
  row_fine document_id (met_row to_datetime_coerce document_id name row).
Proof. unfold met_row. solve_dated_row. Qed.

Lemma operating_row_fine (row : node) :
  row_fine document_id (operating_row to_datetime_coerce document_id row).
Proof. unfold operating_row. solve_dated_row. Qed.

Lemma additional_row_fine (row : node) :
  row_fine document_id (additional_row to_datetime_coerce document_id row).
Proof. unfold additional_row. solve_dated_row. Qed.

Lemma contribution_row_fine (row : node) :
  row_fine document_id (contribution_row to_datetime_coerce document_id row).
Proof. unfold contribution_row. solve_dated_row. Qed.

Lemma parse_met_expenses_fine (table : option node) (name : option string) :
  row_fine document_id (parse_met_expenses to_datetime_coerce table document_id name).
Proof.
  unfold parse_met_expenses. destruct table as [t|]; [|apply row_fine_nil].
  destruct (negb _); [|apply row_fine_nil].
  destruct (1 <? _)%nat; [|apply row_fine_nil].
  apply for_extend_fine. intros row _. apply met_row_fine.
Qed.

Lemma operating_table_fine (table : option node) :
  row_fine document_id (operating_table to_datetime_coerce document_id table).
Proof.
  unfold operating_table. destruct table as [t|]; [|apply row_fine_nil].
  destruct (negb _); [|apply row_fine_nil].
  apply for_extend_fine. intros row _. apply operating_row_fine.
Qed.

Lemma additional_table_fine (table : node) :
  row_fine document_id (additional_table to_datetime_coerce document_id table).
Proof.
  unfold additional_table. destruct (contains _ _); [apply row_fine_nil|].
  apply for_extend_fine. intros row _. apply additional_row_fine.
Qed.

Lemma parse_additional_expenses_fine (soup : node) :
  row_fine document_id (parse_additional_expenses to_datetime_coerce soup document_id).
Proof. apply for_extend_fine. intros t _. apply additional_table_fine. Qed.

Lemma contributions_table_fine (table : option node) :
  row_fine document_id (contributions_table to_datetime_coerce document_id table).
Proof.
  unfold contributions_table. destruct table as [t|]; [|apply row_fine_nil].
  destruct (negb _); [|apply row_fine_nil].
  destruct (1 <? _)%nat; [|apply row_fine_nil].
  apply for_extend_fine. intros row _. apply contribution_row_fine.
Qed.

End Rows.

(* --------------------------------------------------------------------- *)
(** ** Loops that extend a list *)
(* --------------------------------------------------------------------- *)

Lemma for_extend_member {X B : Type} (body : X -> result (list B)) (xs : list X)
    (rows : list B) (x : X) :
  for_extend body xs = Return rows -> In x xs ->
  exists ys, body x = Return ys /\ incl ys rows.
Proof.
  revert rows. induction xs as [|x0 xs IH]; intros rows; cbn [for_extend];
    [intros _ []|].
  destruct (body x0) as [ys|e] eqn:Hb; cbn [bind]; [|discriminate].
  destruct (for_extend body xs) as [zs|e] eqn:Hf; cbn [bind]; [|discriminate].
  intros Hr Hin. inversion Hr; subst rows. destruct Hin as [Heq | Hin].
  - subst x0. exists ys. split; [exact Hb | apply incl_appl, incl_refl].
  - destruct (IH zs eq_refl Hin) as [ys' [Hb' Hincl]].
    exists ys'. split; [exact Hb' | apply incl_appr, Hincl].
Qed.

Lemma for_extend_filter {X B : Type} (body inner : X -> result (list B))
    (keep : X -> bool) (xs : list X) :
  (forall x, body x = if keep x then inner x else Return []) ->
  for_extend body xs = for_extend inner (filter keep xs).
Proof.
  intros Hbody. induction xs as [|x xs IH]; [reflexivity|].
  cbn [for_extend filter]. rewrite Hbody, IH.
  destruct (keep x); [reflexivity|]. cbn [bind].
  destruct (for_extend inner (filter keep xs)); reflexivity.
Qed.

Lemma for_extend_rows {X B : Type} (body : X -> result (list B)) (keep : X -> bool)
    (mk : X -> B) (xs : list X) :
  (forall x, body x = if keep x then Return [mk x] else Return []) ->
  for_extend body xs = Return (map mk (filter keep xs)).
Proof.
  intros Hbody. induction xs as [|x xs IH]; [reflexivity|].
  cbn [for_extend filter]. rewrite Hbody, IH.
  destruct (keep x); reflexivity.
Qed.

Lemma for_extend_rows_when {X B : Type} (body : X -> result (list B))
    (keep : X -> bool) (mk : X -> B) (xs : list X) (rows : list B) :
  (forall x ys, body x = Return ys -> ys = if keep x then [mk x] else []) ->
  for_extend body xs = Return rows -> rows = map mk (filter keep xs).
Proof.
  intros Hbody. revert rows. induction xs as [|x xs IH]; intros rows; cbn [for_extend].
  - intros Hr. inversion Hr. reflexivity.
  - destruct (body x) as [ys|e] eqn:Hb; cbn [bind]; [|discriminate].
    destruct (for_extend body xs) as [zs|e]; cbn [bind]; [|discriminate].
    intros Hr. inversion Hr; subst rows. rewrite (Hbody x ys Hb), (IH zs eq_refl).
    cbn [filter]. destruct (keep x); reflexivity.
Qed.

Lemma tail_of_short_list {X : Type} (xs : list X) :
  (1 <? length xs)%nat = false -> tl xs = [].
Proof.
  intros Hlen. apply Nat.ltb_ge in Hlen.
  destruct xs as [|x [|y xs]]; simpl in *; [reflexivity | reflexivity | lia].
Qed.

(** The two guards of a row function, written as [data_row]. *)
Ltac row_guards :=
  unfold data_row, cell, cells;
  match goal with
  | |- context [contains ?m (get_text ?row)] =>
      destruct (contains m (get_text row)); cbn [orb negb andb];
      [try reflexivity; try (intros Hr; inversion Hr; reflexivity)|]
  end;
  rewrite Nat.ltb_antisym;
  match goal with
  | |- context [(?n <=? length ?cols)%nat] =>
      let Hlen := fresh "Hlen" in
      destruct (n <=? length cols)%nat eqn:Hlen; cbn [negb];
      [|try reflexivity; try (intros Hr; inversion Hr; reflexivity)];
      apply Nat.leb_le in Hlen
  end;
  read_cells.

(** A row function without a date cell. *)
Ltac row_value := row_guards; reflexivity.

(** A row function with a date cell, when it returns. *)
Ltac dated_row_value :=
  row_guards; unfold date_of;
  match goal with
  | |- context [format_date ?c ?x] =>
      destruct (format_date c x) as [dt|e]; cbn [bind]; [|discriminate]
  end;
  read_cells; intros Hr; inversion Hr; subst; reflexivity.

Lemma compensation_row_value (k : string) (row : node) :
  compensation_row k row =
  if data_row "Total" 2 row then Return [compensation_record k row] else Return [].
Proof. unfold compensation_row, compensation_record. row_value. Qed.

Lemma activity_row_value (k current_lobbyist current_client : string) (row : node) :
  activity_row k current_lobbyist current_client row =
  if data_row "Total amount" 6 row
  then Return [activity_record k current_lobbyist current_client row] else Return [].
Proof. unfold activity_row, activity_record. row_value. Qed.

Lemma operating_row_value (to_datetime_coerce : string -> datetime) (k : string)
    (row : node) (ys : list operating_expense) :
  operating_row to_datetime_coerce k row = Return ys ->
  ys = if data_row "Total operating expenses" 4 row
       then [operating_record to_datetime_coerce k row] else [].
Proof. unfold operating_row, operating_record. dated_row_value. Qed.

Lemma additional_row_value (to_datetime_coerce : string -> datetime) (k : string)
    (row : node) (ys : list additional_expense) :
  additional_row to_datetime_coerce k row = Return ys ->
  ys = if data_row "Total additional expenses" 6 row
       then [additional_record to_datetime_coerce k row] else [].
Proof. unfold additional_row, additional_record. dated_row_value. Qed.

Lemma contribution_row_value (to_datetime_coerce : string -> datetime) (k : string)
    (row : node) (ys : list contribution) :
  contribution_row to_datetime_coerce k row = Return ys ->
  ys = if data_row "Total contributions" 4 row
       then [contribution_record to_datetime_coerce k row] else [].
Proof. unfold contribution_row, contribution_record. dated_row_value. Qed.

(* --------------------------------------------------------------------- *)
(** ** MET expense rows *)
(* --------------------------------------------------------------------- *)

Lemma met_row_six (to_datetime_coerce : string -> datetime) (disclosure_id : string)
    (lobbyist_name : option string) (row c0 c1 c2 c3 c4 c5 : node) :
  contains "Total amount" (get_text row) = false ->
  find_all row "td" None = [c0; c1; c2; c3; c4; c5] ->
  met_row to_datetime_coerce disclosure_id lobbyist_name row =
  (dt <- format_date to_datetime_coerce (Some (get_text_strip c0)) ;;
   Return [MetExpense disclosure_id (get_text_strip c1) dt
             (get_text_strip c2) (get_text_strip c3) (get_text_strip c4)
             (amount_of (get_text_strip c5))]).
Proof.
  intros Htotal Hcols. unfold met_row. rewrite Htotal, Hcols.
  cbn [orb length Nat.ltb Nat.leb Nat.eqb]. read_cells. cbn [nth].
  destruct (format_date _ _); cbn [bind]; [read_cells|]; reflexivity.
Qed.

Lemma met_row_five (to_datetime_coerce : string -> datetime) (disclosure_id : string)
    (lobbyist_name : option string) (row c0 c1 c2 c3 c4 : node) :
  contains "Total amount" (get_text row) = false ->
  find_all row "td" None = [c0; c1; c2; c3; c4] ->
  met_row to_datetime_coerce disclosure_id lobbyist_name row =
  (dt <- format_date to_datetime_coerce (Some (get_text_strip c0)) ;;
   Return [MetExpense disclosure_id (name_or_na lobbyist_name) dt
             (get_text_strip c1) (get_text_strip c2) (get_text_strip c3)
             (amount_of (get_text_strip c4))]).
Proof.
  intros Htotal Hcols. unfold met_row. rewrite Htotal, Hcols.
  cbn [orb length Nat.ltb Nat.leb Nat.eqb]. read_cells. cbn [nth].
  destruct (format_date _ _); cbn [bind]; [read_cells|]; reflexivity.
Qed.





Lemma met_row_name (to_datetime_coerce : string -> datetime) (disclosure_id : string)
    (lobbyist_name : option string) (row : node) (ys : list met_expense) (m : met_expense) :
  met_row to_datetime_coerce disclosure_id lobbyist_name row = Return ys ->
  In m ys ->
  let cols := find_all row "td" None in
  (length cols = 6%nat /\
   exists c1, nth_error cols 1 = Some c1 /\ met_lobbyist_name m = get_text_strip c1) \/
  (length cols <> 6%nat /\ met_lobbyist_name m = name_or_na lobbyist_name).
Proof.
  unfold met_row.
  destruct (contains "Total amount" (get_text row)); cbn [orb];
    [intros Hr Hin; inversion Hr; subst; destruct Hin|].
  destruct (length (find_all row "td" None) <? 5)%nat eqn:Hlen;
    [intros Hr Hin; inversion Hr; subst; destruct Hin|].
  apply Nat.ltb_ge in Hlen.
  destruct (length (find_all row "td" None) =? 6)%nat eqn:H6.
  - apply Nat.eqb_eq in H6. read_cells.
    destruct (format_date _ _) as [dt|e]; cbn [bind]; [|discriminate]. read_cells.
    intros Hr Hin. inversion Hr; subst.
    destruct Hin as [Hm | []]. subst m. left. split; [exact H6|].
    exists (nth 1 (find_all row "td" None) no_node). split; [|reflexivity].
    apply nth_error_nth'. lia.
  - apply Nat.eqb_neq in H6. read_cells.
    destruct (format_date _ _) as [dt|e]; cbn [bind]; [|discriminate]. read_cells.
    intros Hr Hin. inversion Hr; subst.
    destruct Hin as [Hm | []]. subst m. right. split; [exact H6 | reflexivity].
Qed.

Lemma parse_met_expenses_names (to_datetime_coerce : string -> datetime)
    (table : option node) (disclosure_id : string) (lobbyist_name : option string)
    (rows : list met_expense) :
  parse_met_expenses to_datetime_coerce table disclosure_id lobbyist_name = Return rows ->
  Forall (fun m =>
            exists t row,
              table = Some t /\ In row (tl (find_all t "tr" None)) /\
              let cols := find_all row "td" None in
              (length cols = 6%nat /\
               exists c1, nth_error cols 1 = Some c1 /\
                          met_lobbyist_name m = get_text_strip c1) \/
              (length cols <> 6%nat /\ met_lobbyist_name m = name_or_na lobbyist_name))
         rows.
Proof.
  unfold parse_met_expenses. destruct table as [t|];
    [|intros Hr; inversion Hr; constructor].
  destruct (negb _); [|intros Hr; inversion Hr; constructor].
  destruct (1 <? _)%nat; [|intros Hr; inversion Hr; constructor].
  intros Hr. apply Forall_forall. intros m Hin.
  destruct (@for_extend_app _ _ _ _ _ _ Hr Hin) as [row [ys [Hrow [Hys Hm]]]].
  exists t, row. split; [reflexivity|]. split; [exact Hrow|].
  eapply met_row_name; eassumption.
Qed.

Lemma compensations_value (soup : node) (k : string) :
  match find soup "table"
          (Some (String.eqb "ContentPlaceHolder1_DisclosureReviewDetail1_grdvSalaryPaid")) with
  | Some comp_table =>
      for_extend (compensation_row k) (tl (find_all comp_table "tr" None))
  | None => Return []
  end =
  Return match find soup "table"
                 (Some (String.eqb
                          "ContentPlaceHolder1_DisclosureReviewDetail1_grdvSalaryPaid")) with
         | None => []
         | Some t => map (compensation_record k) (filter (data_row "Total" 2) (body_rows t))
         end.
Proof.
  destruct (find soup "table" _) as [t|]; [|reflexivity].
  apply for_extend_rows. intros row. apply compensation_row_value.
Qed.

Lemma parse_client_report_parts (to_datetime_coerce : string -> datetime)
    (soup : node) (disclosure_id : string) (client_info : client)
    (compensations : list compensation) (met_expenses : list met_expense)
    (operating_expenses : list operating_expense)
    (additional_expenses : list additional_expense) :
  parse_client_report to_datetime_coerce soup disclosure_id =
    Return (client_info, compensations, met_expenses, operating_expenses,
            additional_expenses) ->
  client_info =
    Client disclosure_id
      (safe_get_text soup "span"
         "ContentPlaceHolder1_CRegistrationInfoReview1_lblClientCompany")
      (strip (safe_get_text soup "span"
                "ContentPlaceHolder1_CRegistrationInfoReview1_lblClientAuthorizingOfficerFirstName"
              ++ " " ++
              safe_get_text soup "span"
                "ContentPlaceHolder1_CRegistrationInfoReview1_lblClientAuthorizingOfficerLastName"))
      (safe_get_text soup "span"
         "ContentPlaceHolder1_CRegistrationInfoReview1_lblBusinessInterest") /\
  compensations =
    match find soup "table"
            (Some (String.eqb
                     "ContentPlaceHolder1_DisclosureReviewDetail1_grdvSalaryPaid")) with
    | None => []
    | Some t => map (compensation_record disclosure_id)
                  (filter (data_row "Total" 2) (body_rows t))
    end /\
  parse_met_expenses to_datetime_coerce
    (find soup "table" (Some (contains "grdvMETExpenses"))) disclosure_id None
    = Return met_expenses /\
  parse_operating_expenses to_datetime_coerce soup disclosure_id
    = Return operating_expenses /\
  parse_additional_expenses to_datetime_coerce soup disclosure_id
    = Return additional_expenses.
Proof.
  unfold parse_client_report. rewrite compensations_value. cbn [bind].
  destruct (parse_met_expenses _ _ _ _) as [m|e]; cbn [bind]; [|discriminate].
  destruct (parse_operating_expenses _ _ _) as [o|e]; cbn [bind]; [|discriminate].
  destruct (parse_additional_expenses _ _ _) as [a|e]; cbn [bind]; [|discriminate].
  intros Hret. inversion Hret. repeat split; reflexivity.
Qed.

Lemma parse_client_report_raise (to_datetime_coerce : string -> datetime)
    (soup : node) (disclosure_id : string) (e : exc) :
  parse_client_report to_datetime_coerce soup disclosure_id = Raise e ->
  e = strftime_error.
Proof.
  unfold parse_client_report. rewrite compensations_value. cbn [bind].
  pose proof (parse_met_expenses_fine to_datetime_coerce disclosure_id
                (find soup "table" (Some (contains "grdvMETExpenses"))) None) as Hm.
  destruct (parse_met_expenses _ _ _ _) as [m|x]; cbn [bind];
    [|intros Hr; inversion Hr; subst x; exact Hm].
  pose proof (operating_table_fine to_datetime_coerce disclosure_id
                (find soup "table" (Some (contains "grdvOperatingExpenses")))) as Ho.
  unfold parse_operating_expenses.
  destruct (operating_table _ _ _) as [o|x]; cbn [bind];
    [|intros Hr; inversion Hr; subst x; exact Ho].
  pose proof (parse_additional_expenses_fine to_datetime_coerce disclosure_id soup) as Ha.
  destruct (parse_additional_expenses _ _ _) as [a|x]; cbn [bind];
    [discriminate | intros Hr; inversion Hr; subst x; exact Ha].
Qed.

Lemma keyed_by_map {X B : Type} `{Keyed B} (k : string) (mk : X -> B) (xs : list X) :
  (forall x, disclosure_id (mk x) = k) -> keyed_by k (map mk xs).
Proof.
  intros Hk. unfold keyed_by. apply Forall_forall. intros r Hr.
  apply in_map_iff in Hr. destruct Hr as [x [Hx _]]. subst r. apply Hk.
Qed.

Lemma parse_client_report_keyed (to_datetime_coerce : string -> datetime)
    (soup : node) (k : string) (client_info : client)
    (compensations : list compensation) (met_expenses : list met_expense)
    (operating_expenses : list operating_expense)
    (additional_expenses : list additional_expense) :
  parse_client_report to_datetime_coerce soup k =
    Return (client_info, compensations, met_expenses, operating_expenses,
            additional_expenses) ->
  cli_disclosure_id client_info = k /\
  keyed_by k compensations /\ keyed_by k met_expenses /\
  keyed_by k operating_expenses /\ keyed_by k additional_expenses.
Proof.
  intros Hret. destruct (parse_client_report_parts _ _ _ Hret)
    as [Hci [Hcomps [Hmets [Hops Hadds]]]].
  split; [rewrite Hci; reflexivity|]. split; [|split; [|split]].
  - rewrite Hcomps. destruct (find soup "table" _); [|constructor].
    apply keyed_by_map. reflexivity.
  - pose proof (parse_met_expenses_fine to_datetime_coerce k
                  (find soup "table" (Some (contains "grdvMETExpenses"))) None) as Hfine.
    rewrite Hmets in Hfine. exact Hfine.
  - pose proof (operating_table_fine to_datetime_coerce k
                  (find soup "table" (Some (contains "grdvOperatingExpenses")))) as Hfine.
    unfold parse_operating_expenses in Hops. rewrite Hops in Hfine. exact Hfine.
  - pose proof (parse_additional_expenses_fine to_datetime_coerce k soup) as Hfine.
    rewrite Hadds in Hfine. exact Hfine.
Qed.

(** C10, counterexample.  [two_met_tables_client] is a client filing with
    two MET tables.  The five-cell row of the second table is a data row
    (no total row, no placeholder in its table), and the parser returns
    no record for it: the MET records of the filing are the one record of
    the first table. *)
Lemma client_second_met_table_is_not_read :
  find_all two_met_tables_client "table" (Some (contains "grdvMETExpenses"))
    = [first_met_table; second_met_table] /\
  contains "No meals, travel, or entertainment expenses" (get_text second_met_table)
    = false /\
  In met_row5 (tl (find_all second_met_table "tr" None)) /\
  contains "Total amount" (get_text met_row5) = false /\
  length (find_all met_row5 "td" None) = 5%nat /\
  exists client_info,
    parse_client_report no_dates two_met_tables_client "cl" =
      Return (client_info, [],
              [MetExpense "cl" "John Roe" None "Lunch" "Cafe" "Sen. Jones" (FFinite 40)],
              [], []).
Proof.
  split; [vm_compute; reflexivity|]. split; [vm_compute; reflexivity|].
  split; [left; reflexivity|]. split; [vm_compute; reflexivity|].
  split; [vm_compute; reflexivity|].
  eexists. vm_compute. reflexivity.
Qed.

(** C10, as amended.  [parse_client_report] calls [parse_met_expenses] on
    the first MET table of the filing only, with no lobbyist name.  So
    when it returns, every MET record comes from a data row of that
    table and has the text of column 1 as [lobbyist_name] when the row has
    six cells and the literal ["N/A"] when it has not; and every data row
    of that table with five cells (a row after the first, without [Total
    amount], in a table without the placeholder) has its record, with
    [lobbyist_name] ["N/A"], which is neither empty nor absent, among
    them. *)
Theorem client_met_rows_default_to_na (to_datetime_coerce : string -> datetime)
    (soup : node) (disclosure_id : string) (client_info : client)
    (compensations : list compensation) (met_expenses : list met_expense)
    (operating_expenses : list operating_expense)
    (additional_expenses : list additional_expense) :
  parse_client_report to_datetime_coerce soup disclosure_id =
    Return (client_info, compensations, met_expenses, operating_expenses,
            additional_expenses) ->
  parse_met_expenses to_datetime_coerce
    (find soup "table" (Some (contains "grdvMETExpenses"))) disclosure_id None
    = Return met_expenses /\
  Forall (fun m =>
            exists t row,
              find soup "table" (Some (contains "grdvMETExpenses")) = Some t /\
              In row (tl (find_all t "tr" None)) /\
              let cols := find_all row "td" None in
              (length cols = 6%nat /\
               exists c1, nth_error cols 1 = Some c1 /\
                          met_lobbyist_name m = get_text_strip c1) \/
              (length cols <> 6%nat /\ met_lobbyist_name m = "N/A"))
         met_expenses /\
  (forall t row c0 c1 c2 c3 c4,
     find soup "table" (Some (contains "grdvMETExpenses")) = Some t ->
     contains "No meals, travel, or entertainment expenses" (get_text t) = false ->
     In row (tl (find_all t "tr" None)) ->
     contains "Total amount" (get_text row) = false ->
     find_all row "td" None = [c0; c1; c2; c3; c4] ->
     exists dt,
       format_date to_datetime_coerce (Some (get_text_strip c0)) = Return dt /\
       In (MetExpense disclosure_id "N/A" dt
             (get_text_strip c1) (get_text_strip c2) (get_text_strip c3)
             (amount_of (get_text_strip c4)))
          met_expenses) /\
  (forall t row c0 c1 c2 c3 c4 c5,
     find soup "table" (Some (contains "grdvMETExpenses")) = Some t ->
     contains "No meals, travel, or entertainment expenses" (get_text t) = false ->
     In row (tl (find_all t "tr" None)) ->
     contains "Total amount" (get_text row) = false ->
     find_all row "td" None = [c0; c1; c2; c3; c4; c5] ->
     exists dt,
       format_date to_datetime_coerce (Some (get_text_strip c0)) = Return dt /\
       In (MetExpense disclosure_id (get_text_strip c1) dt
             (get_text_strip c2) (get_text_strip c3) (get_text_strip c4)
             (amount_of (get_text_strip c5)))
          met_expenses) /\
  "N/A" <> EmptyString.
Proof.
  intros Hret.
  destruct (parse_client_report_parts _ _ _ Hret) as [_ [_ [Hmets _]]].
  split; [exact Hmets|]. split; [|split; [|split]].
  - eapply Forall_impl; [|eapply parse_met_expenses_names; exact Hmets].
    cbv beta. intros m [t [row [Ht [Hrow Hname]]]]. exists t, row. auto.
  - intros t row c0 c1 c2 c3 c4 Ht Hno Hrow Htotal Hcols.
    rewrite Ht in Hmets. pose proof Hmets as Hparse.
    unfold parse_met_expenses in Hparse. rewrite Hno in Hparse. cbn [negb] in Hparse.
    destruct (1 <? length (find_all t "tr" None))%nat eqn:Hrows;
      [|rewrite (tail_of_short_list _ Hrows) in Hrow; destruct Hrow].
    destruct (for_extend_member _ _ row Hparse Hrow) as [ys [Hys Hincl]].
    rewrite (met_row_five _ _ _ _ Htotal Hcols) in Hys.
    destruct (format_date to_datetime_coerce (Some (get_text_strip c0))) as [dt|e];
      cbn [bind] in Hys; [|discriminate].
    exists dt. split; [reflexivity|]. inversion Hys; subst ys.
    apply Hincl. left. reflexivity.
  - intros t row c0 c1 c2 c3 c4 c5 Ht Hno Hrow Htotal Hcols.
    rewrite Ht in Hmets. pose proof Hmets as Hparse.
    unfold parse_met_expenses in Hparse. rewrite Hno in Hparse. cbn [negb] in Hparse.
    destruct (1 <? length (find_all t "tr" None))%nat eqn:Hrows;
      [|rewrite (tail_of_short_list _ Hrows) in Hrow; destruct Hrow].
    destruct (for_extend_member _ _ row Hparse Hrow) as [ys [Hys Hincl]].
    rewrite (met_row_six _ _ _ _ Htotal Hcols) in Hys.
    destruct (format_date to_datetime_coerce (Some (get_text_strip c0))) as [dt|e];
      cbn [bind] in Hys; [|discriminate].
    exists dt. split; [reflexivity|]. inversion Hys; subst ys.
    apply Hincl. left. reflexivity.
  - discriminate.
Qed.

(** The theorem at [client_document]. *)
Lemma client_met_rows_default_to_na_witness :
  find client_document "table" (Some (contains "grdvMETExpenses")) = Some client_met_table /\
  contains "No meals, travel, or entertainment expenses" (get_text client_met_table) = false /\
  In met_row5 (tl (find_all client_met_table "tr" None)) /\
  contains "Total amount" (get_text met_row5) = false /\
  find_all met_row5 "td" None
    = [td EmptyString; td "Dinner"; td "Grill 23"; td "Rep. Smith"; td "$85.00"] /\
  exists client_info met_expenses,
    parse_client_report no_dates client_document "cl"
      = Return (client_info, [], met_expenses, [], []) /\
    In (MetExpense "cl" "N/A" None "Dinner" "Grill 23" "Rep. Smith" (FFinite 85)) met_expenses.
Proof.
  assert (Hrow : In met_row5 (tl (find_all client_met_table "tr" None)))
    by (left; reflexivity).
  split; [reflexivity|]. split; [reflexivity|]. split; [exact Hrow|].
  split; [reflexivity|]. split; [reflexivity|].
  assert (Hrun : { ci : client & { mets : list met_expense |
                   parse_client_report no_dates client_document "cl"
                     = Return (ci, [], mets, [], []) } }).
  { eexists. eexists. vm_compute. reflexivity. }
  destruct Hrun as [ci [mets Hrun]]. exists ci, mets. split; [exact Hrun|].
  destruct (proj1 (proj2 (proj2 (client_met_rows_default_to_na _ _ _ Hrun)))
              client_met_table met_row5 _ _ _ _ _ eq_refl eq_refl Hrow eq_refl eq_refl)
    as [dt [Hdt Hin]].
  change (Return (@None string) = Return dt) in Hdt. inversion Hdt; subst dt. exact Hin.
Defined.


(* --------------------------------------------------------------------- *)
(** ** Placeholders and several tables of one kind *)
(* --------------------------------------------------------------------- *)

Lemma find_is_first_of_find_all (n : node) (nm : string) (id_ok : option (string -> bool)) :
  find n nm id_ok = hd_error (find_all n nm id_ok).
Proof.
  unfold find, find_all. induction (descendants n) as [|d ds IH]; simpl; [reflexivity|].
  destruct (tag_matches nm id_ok d); [reflexivity | exact IH].
Qed.

Lemma parse_lobbyist_report_parts (to_datetime_coerce : string -> datetime) (soup : node)
    (disclosure_id : string) (bundle : lobbyist_bundle) :
  parse_lobbyist_report to_datetime_coerce soup disclosure_id = Return bundle ->
  let employer_name := safe_get_text soup "span"
        "ContentPlaceHolder1_LRegistrationInfoReview1_lblLobbyistCompany" in
  let first_name := safe_get_text soup "span"
        "ContentPlaceHolder1_LRegistrationInfoReview1_lblLobbyistFirstName" in
  let last_name := safe_get_text soup "span"
        "ContentPlaceHolder1_LRegistrationInfoReview1_lblLobbyistLastName" in
  let '(lobbyist_info, activities, met_expenses, operating_expenses,
        additional_expenses, contributions) := bundle in
  lob_disclosure_id lobbyist_info = disclosure_id /\
  for_extend (activity_table soup disclosure_id first_name last_name employer_name)
    (soup_find_all soup "table"
       (Some (fun x => truthy x && contains "grdvActivitiesNew" x))) = Return activities /\
  for_extend
    (fun table =>
       parse_met_expenses to_datetime_coerce (Some (el_node table)) disclosure_id
         (Some (met_table_lobbyist soup first_name last_name table)))
    (soup_find_all soup "table" (Some (contains "grdvMETExpenses"))) = Return met_expenses /\
  parse_operating_expenses to_datetime_coerce soup disclosure_id = Return operating_expenses /\
  parse_additional_expenses to_datetime_coerce soup disclosure_id = Return additional_expenses /\
  contributions_table to_datetime_coerce disclosure_id
    (find soup "table" (Some (contains "grdvCampaignContribution"))) = Return contributions.
Proof.
  unfold parse_lobbyist_report.
  destruct (for_extend (activity_table soup disclosure_id _ _ _) _) as [acts|e];
    cbn [bind]; [|discriminate].
  destruct (for_extend _ (soup_find_all soup "table" (Some (contains "grdvMETExpenses"))))
    as [mets|e]; cbn [bind]; [|discriminate].
  destruct (parse_operating_expenses to_datetime_coerce soup disclosure_id) as [ops|e];
    cbn [bind]; [|discriminate].
  destruct (parse_additional_expenses to_datetime_coerce soup disclosure_id) as [adds|e];
    cbn [bind]; [|discriminate].
  destruct (contributions_table to_datetime_coerce disclosure_id _) as [cons|e];
    cbn [bind]; [|discriminate].
  intros Hb. inversion Hb; subst. cbv zeta. repeat split; reflexivity.
Qed.

(** C7, counterexample.  [two_operating_tables] has two operating-expense
    tables; the first holds the placeholder, the second a data row.  The
    records of the tables without placeholder are one record, and
    [parse_operating_expenses] returns none. *)
Lemma second_operating_table_is_not_read :
  let tables := find_all two_operating_tables "table"
                  (Some (contains "grdvOperatingExpenses")) in
  map (fun t => contains "No operating expenses were filed" (get_text t)) tables
    = [true; false] /\
  flat_map (fun t => records_of (operating_table no_dates "two" (Some t))) tables
    = [OperatingExpense "two" None "Office Depot" "Supplies" (FFinite (25 # 2))] /\
  parse_operating_expenses no_dates two_operating_tables "two" = Return [] /\
  records_of (parse_operating_expenses no_dates two_operating_tables "two")
    <> flat_map (fun t => records_of (operating_table no_dates "two" (Some t))) tables.
Proof.
  cbv zeta. split; [vm_compute; reflexivity|]. split; [vm_compute; reflexivity|].
  split; [vm_compute; reflexivity|]. vm_compute. discriminate.
Qed.

(** C7, as amended.  For each kind of table that has a placeholder (MET,
    operating, additional, contributions) an absent table and a table
    whose text holds the placeholder give no records, whatever rows the
    table has.  All additional-expense tables of a document, and all MET
    tables of a lobbyist filing, are read, each checked for its own
    placeholder, and the rows of the tables without placeholder are read
    table after table; of the operating-expense tables, of the
    contribution tables and of the MET tables of a client filing only the
    first in reading order is read. *)
Theorem placeholder_tables_give_no_records (to_datetime_coerce : string -> datetime)
    (soup : node) (disclosure_id : string) :
  (* absent, or with the placeholder *)
  ((forall name, parse_met_expenses to_datetime_coerce None disclosure_id name = Return []) /\
   (forall t name,
      contains "No meals, travel, or entertainment expenses" (get_text t) = true ->
      parse_met_expenses to_datetime_coerce (Some t) disclosure_id name = Return []) /\
   operating_table to_datetime_coerce disclosure_id None = Return [] /\
   (forall t,
      contains "No operating expenses were filed" (get_text t) = true ->
      operating_table to_datetime_coerce disclosure_id (Some t) = Return []) /\
   (forall t,
      contains "No additional expenses were filed" (get_text t) = true ->
      additional_table to_datetime_coerce disclosure_id t = Return []) /\
   contributions_table to_datetime_coerce disclosure_id None = Return [] /\
   (forall t,
      contains "No campaign contributions were filed" (get_text t) = true ->
      contributions_table to_datetime_coerce disclosure_id (Some t) = Return [])) /\
  (* every table of the kind *)
  (parse_additional_expenses to_datetime_coerce soup disclosure_id =
   for_extend
     (fun t => for_extend (additional_row to_datetime_coerce disclosure_id)
                 (tl (find_all t "tr" None)))
     (filter (fun t => negb (contains "No additional expenses were filed" (get_text t)))
        (find_all soup "table" (Some (contains "grdvAdditionalExpenses"))))) /\
  (forall lobbyist_info activities met_expenses operating_expenses additional_expenses
          contributions,
     parse_lobbyist_report to_datetime_coerce soup disclosure_id =
       Return (lobbyist_info, activities, met_expenses, operating_expenses,
               additional_expenses, contributions) ->
     for_extend
       (fun table =>
          for_extend
            (met_row to_datetime_coerce disclosure_id
               (Some (met_table_lobbyist soup
                  (safe_get_text soup "span"
                     "ContentPlaceHolder1_LRegistrationInfoReview1_lblLobbyistFirstName")
                  (safe_get_text soup "span"
                     "ContentPlaceHolder1_LRegistrationInfoReview1_lblLobbyistLastName")
                  table)))
            (tl (find_all (el_node table) "tr" None)))
       (filter (fun table =>
                  negb (contains "No meals, travel, or entertainment expenses"
                          (get_text (el_node table))))
          (soup_find_all soup "table" (Some (contains "grdvMETExpenses"))))
       = Return met_expenses /\
     (* only the first table of the kind *)
     contributions_table to_datetime_coerce disclosure_id
       (hd_error (find_all soup "table" (Some (contains "grdvCampaignContribution"))))
       = Return contributions) /\
  parse_operating_expenses to_datetime_coerce soup disclosure_id =
    operating_table to_datetime_coerce disclosure_id
      (hd_error (find_all soup "table" (Some (contains "grdvOperatingExpenses")))) /\
  (forall client_info compensations met_expenses operating_expenses additional_expenses,
     parse_client_report to_datetime_coerce soup disclosure_id =
       Return (client_info, compensations, met_expenses, operating_expenses,
               additional_expenses) ->
     parse_met_expenses to_datetime_coerce
       (hd_error (find_all soup "table" (Some (contains "grdvMETExpenses"))))
       disclosure_id None = Return met_expenses).
Proof.
  split; [|split; [|split; [|split]]].
  - repeat split.
    + intros t name Hp. unfold parse_met_expenses. rewrite Hp. reflexivity.
    + intros t Hp. unfold operating_table. rewrite Hp. reflexivity.
    + intros t Hp. unfold additional_table. rewrite Hp. reflexivity.
    + intros t Hp. unfold contributions_table. rewrite Hp. reflexivity.
  - unfold parse_additional_expenses. apply for_extend_filter.
    intros t. unfold additional_table.
    destruct (contains _ (get_text t)); reflexivity.
  - intros li acts mets ops adds gifts Hret.
    pose proof (parse_lobbyist_report_parts _ _ _ Hret) as Hparts.
    cbv zeta in Hparts. destruct Hparts as [_ [_ [Hmets [_ [_ Hcons]]]]].
    split.
    + rewrite <- Hmets. symmetry. apply for_extend_filter.
      intros table. unfold parse_met_expenses.
      destruct (contains _ (get_text (el_node table))); cbn [negb]; [reflexivity|].
      destruct (1 <? length (find_all (el_node table) "tr" None))%nat eqn:Hrows;
        [reflexivity|].
      rewrite (tail_of_short_list _ Hrows). reflexivity.
    + rewrite <- find_is_first_of_find_all. exact Hcons.
  - unfold parse_operating_expenses. rewrite find_is_first_of_find_all. reflexivity.
  - intros ci comps mets ops adds Hret.
    destruct (parse_client_report_parts _ _ _ Hret) as [_ [_ [Hmets _]]].
    rewrite <- find_is_first_of_find_all. exact Hmets.
Qed.

(** The theorem at [stray_rows_table]: its text holds the placeholder,
    and the two rows after its first row are data rows, which give two
    records when they are read. *)
Lemma placeholder_tables_give_no_records_witness :
  contains "No operating expenses were filed" (get_text stray_rows_table) = true /\
  filter (data_row "Total operating expenses" 4) (body_rows stray_rows_table)
    = [operating_data_row; operating_data_row] /\
  for_extend (operating_row no_dates "two") (body_rows stray_rows_table)
    = Return [OperatingExpense "two" None "Office Depot" "Supplies" (FFinite (25 # 2));
              OperatingExpense "two" None "Office Depot" "Supplies" (FFinite (25 # 2))] /\
  operating_table no_dates "two" (Some stray_rows_table) = Return [].
Proof.
  split; [reflexivity|]. split; [reflexivity|]. split; [reflexivity|].
  apply (proj1 (placeholder_tables_give_no_records no_dates two_operating_tables "two")).
  reflexivity.
Defined.


(* --------------------------------------------------------------------- *)
(** ** Stripped text *)
(* --------------------------------------------------------------------- *)

Lemma append_empty_r (s : string) : (s ++ EmptyString)%string = s.
Proof. induction s as [|c s IH]; simpl; [reflexivity | rewrite IH; reflexivity]. Qed.

Lemma append_assoc (a b c : string) : ((a ++ b) ++ c = a ++ (b ++ c))%string.
Proof. induction a as [|x a IH]; simpl; [reflexivity | rewrite IH; reflexivity]. Qed.

Lemma lstrip_no_lead (s : string) : no_lead (lstrip s).
Proof.
  unfold lstrip. induction s as [|c s IH]; simpl; [exact I|].
  destruct (isspace c) eqn:Hc; [exact IH | exact Hc].
Qed.

Lemma lstrip_fixed (s : string) : no_lead s -> lstrip s = s.
Proof.
  unfold lstrip. destruct s as [|c s]; simpl; [reflexivity|].
  intros Hc. rewrite Hc. reflexivity.
Qed.

Lemma rstrip_head (c : ascii) (s : string) :
  rstrip (String c s) = EmptyString \/ exists r, rstrip (String c s) = String c r.
Proof.
  unfold rstrip. simpl. destruct (rstrip_by isspace s) as [|d r].
  - destruct (isspace c); [left; reflexivity | right; eexists; reflexivity].
  - right; eexists; reflexivity.
Qed.

Lemma rstrip_no_lead (s : string) : no_lead s -> no_lead (rstrip s).
Proof.
  destruct s as [|c s]; [intros _; exact I|].
  intros Hc. destruct (rstrip_head c s) as [He | [r Hr]].
  - rewrite He. exact I.
  - rewrite Hr. exact Hc.
Qed.

Lemma rstrip_idempotent (s : string) : rstrip (rstrip s) = rstrip s.
Proof.
  unfold rstrip. induction s as [|c s IH]; simpl; [reflexivity|].
  destruct (rstrip_by isspace s) as [|d r] eqn:Hr.
  - destruct (isspace c) eqn:Hc; simpl; [reflexivity|]. rewrite Hc. reflexivity.
  - simpl. simpl in IH. rewrite IH. reflexivity.
Qed.

Lemma strip_trimmed (s : string) : trimmed (strip s).
Proof.
  unfold trimmed, strip. split.
  - apply rstrip_no_lead. apply lstrip_no_lead.
  - apply rstrip_idempotent.
Qed.

Lemma trimmed_strip (s : string) : trimmed s -> strip s = s.
Proof.
  intros [Hl Hr]. unfold strip. rewrite (lstrip_fixed _ Hl). exact Hr.
Qed.

Lemma rstrip_append (a b : string) :
  b <> EmptyString -> rstrip b = b -> rstrip (a ++ b) = (a ++ b)%string.
Proof.
  intros Hne Hb. unfold rstrip in *. induction a as [|c a IH]; simpl; [exact Hb|].
  rewrite IH. destruct (a ++ b)%string eqn:Hab; [|reflexivity].
  destruct a; simpl in Hab; [contradiction | discriminate].
Qed.

Lemma trimmed_append (a b : string) :
  a <> EmptyString -> b <> EmptyString -> trimmed a -> trimmed b ->
  trimmed (a ++ b).
Proof.
  intros Ha Hb [Hla Hra] [Hlb Hrb]. split.
  - destruct a as [|c a]; [contradiction | exact Hla].
  - apply rstrip_append; assumption.
Qed.

Lemma join_trimmed (parts : list string) :
  Forall (fun p => p <> EmptyString /\ trimmed p) parts -> trimmed (join parts).
Proof.
  induction 1 as [|p parts [Hne Hp] _ IH]; simpl.
  - split; [exact I | reflexivity].
  - destruct (join parts) eqn:Hj.
    + rewrite append_empty_r. exact Hp.
    + apply trimmed_append; [exact Hne | discriminate | exact Hp | exact IH].
Qed.

Lemma truthy_nonempty (s : string) : truthy s = true <-> s <> EmptyString.
Proof.
  destruct s; simpl; split; intros H; try discriminate; try reflexivity.
  contradiction H; reflexivity.
Qed.

Lemma get_text_strip_trimmed (n : node) : trimmed (get_text_strip n).
Proof.
  unfold get_text_strip, all_strings. apply join_trimmed.
  apply Forall_forall. intros p Hp. apply in_flat_map in Hp.
  destruct Hp as [d [_ Hp]].
  destruct d as [[|] t | nm i cs]; try destruct Hp.
  destruct (truthy (strip t)) eqn:Ht; [|destruct Hp].
  destruct Hp as [Hp | []]. subst p. split.
  - apply truthy_nonempty. exact Ht.
  - apply strip_trimmed.
Qed.

Lemma safe_get_text_trimmed (soup : node) (tag element_id : string) :
  trimmed (safe_get_text soup tag element_id).
Proof.
  unfold safe_get_text. destruct (find soup tag _).
  - apply get_text_strip_trimmed.
  - split; [exact I | reflexivity].
Qed.

Lemma full_name_stripped (first_name last_name : string) :
  trimmed first_name -> trimmed last_name ->
  first_name <> EmptyString -> last_name <> EmptyString ->
  strip (first_name ++ " " ++ last_name) = (first_name ++ " " ++ last_name)%string.
Proof.
  intros Hf Hl Hfn Hln. apply trimmed_strip. split.
  - destruct first_name as [|c f]; [contradiction | exact (proj1 Hf)].
  - apply rstrip_append; [discriminate|].
    apply (rstrip_append " "); [exact Hln | exact (proj2 Hl)].
Qed.

Lemma rstrip_append_space (a : string) : rstrip (a ++ " ") = rstrip a.
Proof.
  unfold rstrip. induction a as [|c a IH]; [reflexivity|].
  cbn [append rstrip_by]. rewrite IH. reflexivity.
Qed.

Lemma strip_full_name (first_name last_name : string) :
  trimmed first_name -> trimmed last_name ->
  strip (first_name ++ " " ++ last_name) = full_name first_name last_name.
Proof.
  intros Hf Hl. destruct first_name as [|c f].
  - change (strip (EmptyString ++ " " ++ last_name)) with (strip last_name).
    rewrite (trimmed_strip Hl). destruct last_name; reflexivity.
  - destruct last_name as [|d l].
    + cbn [full_name]. change (" " ++ EmptyString)%string with " ".
      unfold strip. rewrite lstrip_fixed by exact (proj1 Hf).
      rewrite rstrip_append_space. exact (proj2 Hf).
    + apply full_name_stripped; try assumption; discriminate.
Qed.

(* --------------------------------------------------------------------- *)
(** ** The context resolver *)
(* --------------------------------------------------------------------- *)

Lemma first_with_text_some (nm : string) (pattern : string -> bool)
    (cands : list element) (e : element) :
  first_with_text nm pattern cands = Return (Some e) ->
  exists nearer farther,
    cands = nearer ++ e :: farther /\
    is_label nm pattern e /\
    Forall (passed_over nm pattern) nearer.
Proof.
  induction cands as [|c cands IH]; cbn [first_with_text]; [discriminate|].
  destruct (tag_matches nm None (el_node c)) eqn:Hm.
  - destruct (tag_string recursion_limit (el_node c)) as [[t|]|x] eqn:Hs; cbn [bind];
      [|intros Hf|discriminate].
    + destruct (pattern t) eqn:Hp.
      * intros Hf. inversion Hf; subst c. exists [], cands.
        split; [reflexivity|]. split; [|constructor].
        split; [exact Hm|]. exists t. auto.
      * intros Hf. destruct (IH Hf) as [nearer [farther [Hc [Hl Hn]]]].
        exists (c :: nearer), farther. split; [rewrite Hc; reflexivity|].
        split; [exact Hl|]. constructor; [|exact Hn].
        right. right. exists t. auto.
    + destruct (IH Hf) as [nearer [farther [Hc [Hl Hn]]]].
      exists (c :: nearer), farther. split; [rewrite Hc; reflexivity|].
      split; [exact Hl|]. constructor; [|exact Hn]. right. left. exact Hs.
  - intros Hf. destruct (IH Hf) as [nearer [farther [Hc [Hl Hn]]]].
    exists (c :: nearer), farther. split; [rewrite Hc; reflexivity|].
    split; [exact Hl|]. constructor; [|exact Hn]. left. exact Hm.
Qed.

Lemma first_with_text_none (nm : string) (pattern : string -> bool)
    (cands : list element) :
  first_with_text nm pattern cands = Return None ->
  Forall (passed_over nm pattern) cands.
Proof.
  induction cands as [|c cands IH]; cbn [first_with_text]; [constructor|].
  destruct (tag_matches nm None (el_node c)) eqn:Hm.
  - destruct (tag_string recursion_limit (el_node c)) as [[t|]|x] eqn:Hs; cbn [bind];
      [|intros Hf|discriminate].
    + destruct (pattern t) eqn:Hp; [discriminate|].
      intros Hf. constructor; [|exact (IH Hf)]. right. right. exists t. auto.
    + constructor; [|exact (IH Hf)]. right. left. exact Hs.
  - intros Hf. constructor; [|exact (IH Hf)]. left. exact Hm.
Qed.

Lemma activity_row_names (disclosure_id current_lobbyist current_client : string)
    (row : node) (ys : list activity) :
  activity_row disclosure_id current_lobbyist current_client row = Return ys ->
  Forall (fun a => act_individual_lobbyist_name a = current_lobbyist /\
                   act_client_name a = current_client) ys.
Proof.
  unfold activity_row.
  destruct (contains "Total amount" (get_text row)); cbn [orb];
    [intros Hr; inversion Hr; constructor|].
  destruct (length (find_all row "td" None) <? 6)%nat eqn:Hlen;
    [intros Hr; inversion Hr; constructor|].
  apply Nat.ltb_ge in Hlen. read_cells. intros Hr. inversion Hr.
  repeat constructor.
Qed.

Lemma activity_table_names (soup : node) (disclosure_id first_name last_name
    employer_name : string) (table : element) (acts : list activity) :
  activity_table soup disclosure_id first_name last_name employer_name table = Return acts ->
  exists current_lobbyist current_client,
    resolve_lobbyist soup table (default_lobbyist first_name last_name employer_name)
      = Return current_lobbyist /\
    resolve_client soup table employer_name = Return current_client /\
    Forall (fun a => disclosure_id = act_disclosure_id a /\
                     act_individual_lobbyist_name a = current_lobbyist /\
                     act_client_name a = current_client) acts.
Proof.
  unfold activity_table.
  destruct (resolve_lobbyist soup table _) as [lob|x]; cbn [bind]; [|discriminate].
  destruct (resolve_client soup table employer_name) as [cli|x]; cbn [bind]; [|discriminate].
  intros Hr. exists lob, cli. split; [reflexivity|]. split; [reflexivity|].
  destruct (1 <? _)%nat; [|inversion Hr; constructor].
  eapply for_extend_Forall; [|exact Hr].
  intros row ys _ Hys. cbv beta.
  destruct (activity_row_ok disclosure_id lob cli row) as [ys' [Hys' Hk]].
  rewrite Hys in Hys'. inversion Hys'; subst ys'.
  pose proof (activity_row_names _ _ _ _ Hys) as Hn.
  unfold keyed_by in Hk. rewrite Forall_forall in *. intros a Ha. split; [symmetry; exact (Hk a Ha) | exact (Hn a Ha)].
Qed.

(** C6, counterexample.  [organization_document] is the filing of an
    organization, Acme Corp: the two name fields are empty, so the filer
    is no individual and the default name for its activity tables is the
    employer name.  For its MET table, which no lobbyist label precedes,
    the default name is not the employer name but the empty text, and the
    record of the table carries ["N/A"]. *)
Lemma met_default_is_not_the_employer :
  let first_name := safe_get_text organization_document "span"
        "ContentPlaceHolder1_LRegistrationInfoReview1_lblLobbyistFirstName" in
  let last_name := safe_get_text organization_document "span"
        "ContentPlaceHolder1_LRegistrationInfoReview1_lblLobbyistLastName" in
  let employer_name := safe_get_text organization_document "span"
        "ContentPlaceHolder1_LRegistrationInfoReview1_lblLobbyistCompany" in
  filer_is_individual first_name last_name = false /\
  employer_name = "Acme Corp" /\
  default_lobbyist first_name last_name employer_name = "Acme Corp" /\
  exists table lobbyist_info,
    soup_find_all organization_document "table" (Some (contains "grdvMETExpenses"))
      = [table] /\
    find_previous organization_document table "span" (Some (contains "lblLobbyistName"))
      = None /\
    met_table_lobbyist organization_document first_name last_name table = EmptyString /\
    parse_lobbyist_report no_dates organization_document "org" =
      Return (lobbyist_info, [],
              [MetExpense "org" "N/A" None "Dinner" "Grill 23" "Rep. Smith" (FFinite 85)],
              [], [], []).
Proof.
  cbv zeta. split; [vm_compute; reflexivity|]. split; [vm_compute; reflexivity|].
  split; [vm_compute; reflexivity|].
  eexists. eexists. split; [vm_compute; reflexivity|].
  split; [vm_compute; reflexivity|]. split; vm_compute; reflexivity.
Qed.

(** C6, as amended.  The filer of a lobbyist filing counts as an
    individual exactly when the first-name field and the last-name field
    are both non-empty.  The lobbyist name that an activity table starts
    from is ["first last"] for an individual and the employer name
    otherwise: when [parse_lobbyist_report] returns, every data row of an
    activity table with no [Lobbyist:] cell before it has its record,
    under that name, among the activities returned.  For a MET table with
    no lobbyist label before it the name does not depend on this
    classification: it is the full name made of the two fields, which is
    empty for an organization, and the records of the table are among the
    MET records returned. *)
Theorem individual_filer_rule (to_datetime_coerce : string -> datetime) (soup : node)
    (k : string) (lobbyist_info : lobbyist) (activities : list activity)
    (met_expenses : list met_expense) (operating_expenses : list operating_expense)
    (additional_expenses : list additional_expense) (contributions : list contribution) :
  parse_lobbyist_report to_datetime_coerce soup k =
    Return (lobbyist_info, activities, met_expenses, operating_expenses,
            additional_expenses, contributions) ->
  let first_name := safe_get_text soup "span"
        "ContentPlaceHolder1_LRegistrationInfoReview1_lblLobbyistFirstName" in
  let last_name := safe_get_text soup "span"
        "ContentPlaceHolder1_LRegistrationInfoReview1_lblLobbyistLastName" in
  let employer_name := safe_get_text soup "span"
        "ContentPlaceHolder1_LRegistrationInfoReview1_lblLobbyistCompany" in
  (filer_is_individual first_name last_name = true <->
   first_name <> EmptyString /\ last_name <> EmptyString) /\
  (filer_is_individual first_name last_name = true ->
   default_lobbyist first_name last_name employer_name
     = (first_name ++ " " ++ last_name)%string) /\
  (filer_is_individual first_name last_name = false ->
   default_lobbyist first_name last_name employer_name = employer_name) /\
  (forall table : element,
     In table (soup_find_all soup "table"
                 (Some (fun x => truthy x && contains "grdvActivitiesNew" x))) ->
     find_previous_text soup table "td" (re_label "Lobbyist:") = Return None ->
     exists current_client,
       resolve_client soup table employer_name = Return current_client /\
       forall row,
         In row (body_rows (el_node table)) ->
         data_row "Total amount" 6 row = true ->
         In (activity_record k (default_lobbyist first_name last_name employer_name)
               current_client row)
            activities) /\
  (forall table : element,
     In table (soup_find_all soup "table" (Some (contains "grdvMETExpenses"))) ->
     find_previous soup table "span" (Some (contains "lblLobbyistName")) = None ->
     met_table_lobbyist soup first_name last_name table = full_name first_name last_name /\
     exists rows,
       parse_met_expenses to_datetime_coerce (Some (el_node table)) k
         (Some (full_name first_name last_name)) = Return rows /\
       incl rows met_expenses).
Proof.
  intros Hret first_name last_name employer_name.
  pose proof (parse_lobbyist_report_parts _ _ _ Hret) as Hparts.
  cbv zeta in Hparts. destruct Hparts as [_ [Hacts [Hmets _]]].
  fold first_name last_name employer_name in Hacts, Hmets.
  assert (Hiff : filer_is_individual first_name last_name = true <->
                 first_name <> EmptyString /\ last_name <> EmptyString).
  { unfold filer_is_individual. rewrite andb_true_iff, !truthy_nonempty. reflexivity. }
  split; [exact Hiff|]. split; [|split; [|split]].
  - intros Hind. unfold default_lobbyist. rewrite Hind.
    apply Hiff in Hind. destruct Hind as [Hf Hl].
    apply full_name_stripped; try assumption; apply safe_get_text_trimmed.
  - intros Hind. unfold default_lobbyist. rewrite Hind. reflexivity.
  - intros table Hin Hnone.
    destruct (for_extend_member _ _ table Hacts Hin) as [ys [Htable Hincl]].
    unfold activity_table, resolve_lobbyist in Htable. rewrite Hnone in Htable.
    cbn [bind] in Htable.
    destruct (resolve_client soup table employer_name) as [cli|x]; cbn [bind] in Htable;
      [|discriminate].
    exists cli. split; [reflexivity|]. intros row Hrow Hdata. apply Hincl.
    unfold body_rows in Hrow.
    destruct (1 <? length (find_all (el_node table) "tr" None))%nat eqn:Hrows;
      [|rewrite (tail_of_short_list _ Hrows) in Hrow; destruct Hrow].
    rewrite (for_extend_rows _ (data_row "Total amount" 6)
               (activity_record k (default_lobbyist first_name last_name employer_name) cli))
      in Htable by (intros r; apply activity_row_value).
    inversion Htable. apply in_map. apply filter_In. split; assumption.
  - intros table Hin Hnone.
    assert (Hname : met_table_lobbyist soup first_name last_name table
                    = full_name first_name last_name).
    { unfold met_table_lobbyist. rewrite Hnone.
      apply strip_full_name; apply safe_get_text_trimmed. }
    split; [exact Hname|].
    destruct (for_extend_member _ _ table Hmets Hin) as [rows [Htable Hincl]].
    cbv beta in Htable. rewrite Hname in Htable. exists rows. split; assumption.
Qed.

(** The theorem at the activity table of [individual_document]. *)
Lemma individual_filer_rule_witness :
  exists table lobbyist_info activities,
    soup_find_all individual_document "table"
      (Some (fun x => truthy x && contains "grdvActivitiesNew" x)) = [table] /\
    find_previous_text individual_document table "td" (re_label "Lobbyist:") = Return None /\
    In activity_data_row (body_rows (el_node table)) /\
    parse_lobbyist_report no_dates individual_document "L1" =
      Return (lobbyist_info, activities, [], [], [], []) /\
    In (Activity "L1" "Jane Doe" "Acme Corp" "House" "H.100" "An Act" "Support"
          (FFinite 1000) "None") activities.
Proof.
  assert (Hrun : { table : element & { li : lobbyist & { acts : list activity |
            soup_find_all individual_document "table"
              (Some (fun x => truthy x && contains "grdvActivitiesNew" x)) = [table] /\
            find_previous_text individual_document table "td" (re_label "Lobbyist:")
              = Return None /\
            In activity_data_row (body_rows (el_node table)) /\
            resolve_client individual_document table
              (safe_get_text individual_document "span"
                 "ContentPlaceHolder1_LRegistrationInfoReview1_lblLobbyistCompany")
              = Return "Acme Corp" /\
            parse_lobbyist_report no_dates individual_document "L1" =
              Return (li, acts, [], [], [], []) } } }).
  { eexists. eexists. eexists.
    split; [vm_compute; reflexivity|]. split; [vm_compute; reflexivity|].
    split; [left; vm_compute; reflexivity|]. split; vm_compute; reflexivity. }
  destruct Hrun as [table [li [acts [Htables [Hnone [Hrow [Hcli Hrun]]]]]]].
  exists table, li, acts.
  split; [exact Htables|]. split; [exact Hnone|]. split; [exact Hrow|].
  split; [exact Hrun|].
  destruct (proj1 (proj2 (proj2 (proj2 (individual_filer_rule _ _ _ Hrun)))) table)
    as [cli [Hcli' Hall]].
  - rewrite Htables. left. reflexivity.
  - exact Hnone.
  - rewrite Hcli in Hcli'. inversion Hcli'; subst cli.
    exact (Hall activity_data_row Hrow eq_refl).
Defined.


(** C2, counterexample.  [individual_document] is the filing of an
    individual, Jane Doe, employed by Acme Corp; no label comes before its
    activity table.  The primary filer name is ["Jane Doe"], and the client
    name of the activity record is not that name but the employer name. *)
Lemma client_fallback_is_not_primary_filer :
  exists table lobbyist_info activities met_expenses operating_expenses
         additional_expenses contributions,
    soup_find_all individual_document "table"
      (Some (fun x => truthy x && contains "grdvActivitiesNew" x)) = [table] /\
    find_previous_text individual_document table "td" (re_label "Client:") = Return None /\
    find_previous_text individual_document table "strong" (re_label "Client:")
      = Return None /\
    parse_lobbyist_report no_dates individual_document "L1" =
      Return (lobbyist_info, activities, met_expenses, operating_expenses,
              additional_expenses, contributions) /\
    default_lobbyist
      (safe_get_text individual_document "span"
         "ContentPlaceHolder1_LRegistrationInfoReview1_lblLobbyistFirstName")
      (safe_get_text individual_document "span"
         "ContentPlaceHolder1_LRegistrationInfoReview1_lblLobbyistLastName")
      (safe_get_text individual_document "span"
         "ContentPlaceHolder1_LRegistrationInfoReview1_lblLobbyistCompany") = "Jane Doe" /\
    map act_client_name activities = ["Acme Corp"] /\
    Forall (fun a => act_client_name a <> "Jane Doe") activities.
Proof.
  do 7 eexists.
  split; [vm_compute; reflexivity|].
  split; [vm_compute; reflexivity|].
  split; [vm_compute; reflexivity|].
  split; [vm_compute; reflexivity|].
  split; [vm_compute; reflexivity|].
  split; [vm_compute; reflexivity|].
  constructor; [vm_compute; discriminate | constructor].
Qed.

Lemma resolve_client_cases (soup : node) (table : element) (employer_name : string)
    (by_cell by_strong : option element) :
  find_previous_text soup table "td" (re_label "Client:") = Return by_cell ->
  find_previous_text soup table "strong" (re_label "Client:") = Return by_strong ->
  resolve_client soup table employer_name =
  Return match by_cell with
         | Some header =>
             match find_next_sibling header "td" with
             | Some cell => get_text_strip cell
             | None => employer_name
             end
         | None =>
             match by_strong with
             | Some header =>
                 match find_next_sibling header "span" with
                 | Some sp => get_text_strip sp
                 | None => employer_name
                 end
             | None => employer_name
             end
         end.
Proof.
  intros Hcell Hstrong. unfold resolve_client. rewrite Hcell, Hstrong. reflexivity.
Qed.

(** C2, as amended.  For an activity table the search for a label walks
    back from the table through what was read before it and stops at the
    first element it accepts, so the label it finds is the nearest one.
    The client name is the text of the first [td] sibling after the
    nearest [Client:] cell; only when no such cell comes before the table
    the nearest [<strong>Client:] label is used, with the first [span]
    sibling after it; when no label comes before the table, or the label
    has no such sibling, the client name is the employer name of the
    filing.  Every record of the table carries the name so found.  In
    [labelled_document] two label rows come before the table and the name
    after the nearer one is taken. *)
Theorem client_name_resolution :
  (forall (soup : node) (table : element) (employer_name : string),
     (forall nm pattern e,
        find_previous_text soup table nm pattern = Return (Some e) ->
        exists nearer farther,
          previous_elements soup table = nearer ++ e :: farther /\
          is_label nm pattern e /\
          Forall (passed_over nm pattern) nearer) /\
     (forall nm pattern,
        find_previous_text soup table nm pattern = Return None ->
        Forall (passed_over nm pattern) (previous_elements soup table)) /\
     (forall header by_strong,
        find_previous_text soup table "td" (re_label "Client:") = Return (Some header) ->
        find_previous_text soup table "strong" (re_label "Client:") = Return by_strong ->
        resolve_client soup table employer_name =
        Return match find_next_sibling header "td" with
               | Some cell => get_text_strip cell
               | None => employer_name
               end) /\
     (forall header,
        find_previous_text soup table "td" (re_label "Client:") = Return None ->
        find_previous_text soup table "strong" (re_label "Client:") = Return (Some header) ->
        resolve_client soup table employer_name =
        Return match find_next_sibling header "span" with
               | Some sp => get_text_strip sp
               | None => employer_name
               end) /\
     (find_previous_text soup table "td" (re_label "Client:") = Return None ->
      find_previous_text soup table "strong" (re_label "Client:") = Return None ->
      resolve_client soup table employer_name = Return employer_name) /\
     (forall disclosure_id first_name last_name acts,
        activity_table soup disclosure_id first_name last_name employer_name table
          = Return acts ->
        exists current_client,
          resolve_client soup table employer_name = Return current_client /\
          Forall (fun a => act_client_name a = current_client) acts)) /\
  (exists table,
     soup_find_all labelled_document "table"
       (Some (fun x => truthy x && contains "grdvActivitiesNew" x)) = [table] /\
     map (fun e => get_text_strip (el_node e))
       (filter (fun e => tag_matches "td" None (el_node e))
          (previous_elements labelled_document table))
       = ["Acme Corp"; "Client:"; "Other Inc"; "Client:"] /\
     resolve_client labelled_document table "Firm LLP" = Return "Acme Corp").
Proof.
  split.
  - intros soup table employer_name. split; [|split; [|split; [|split; [|split]]]].
    + intros nm pattern e. apply first_with_text_some.
    + intros nm pattern. apply first_with_text_none.
    + intros header by_strong Hcell Hstrong.
      rewrite (resolve_client_cases _ _ employer_name Hcell Hstrong). reflexivity.
    + intros header Hcell Hstrong.
      rewrite (resolve_client_cases _ _ employer_name Hcell Hstrong). reflexivity.
    + intros Hcell Hstrong.
      rewrite (resolve_client_cases _ _ employer_name Hcell Hstrong). reflexivity.
    + intros disclosure_id first_name last_name acts Hacts.
      destruct (activity_table_names _ _ _ _ _ _ Hacts) as [lob [cli [_ [Hcli Hall]]]].
      exists cli. split; [exact Hcli|]. eapply Forall_impl; [|exact Hall].
      cbv beta. intros a [_ [_ Ha]]. exact Ha.
  - eexists. split; [vm_compute; reflexivity|]. split; vm_compute; reflexivity.
Qed.

(** The theorem at the activity table of [labelled_document]. *)
Lemma client_name_resolution_witness :
  exists table header,
    find_previous_text labelled_document table "td" (re_label "Client:")
      = Return (Some header) /\
    find_previous_text labelled_document table "strong" (re_label "Client:")
      = Return None /\
    find_next_sibling header "td" = Some (td "Acme Corp") /\
    resolve_client labelled_document table "Firm LLP" = Return "Acme Corp".
Proof.
  exists (hd (Element 0 no_node [])
            (soup_find_all labelled_document "table"
               (Some (fun x => truthy x && contains "grdvActivitiesNew" x)))).
  eexists.
  split; [vm_compute; reflexivity|].
  split; [vm_compute; reflexivity|].
  split; [vm_compute; reflexivity|].
  refine (eq_trans
            (proj1 (proj2 (proj2 (proj1 client_name_resolution labelled_document _ "Firm LLP")))
               _ None _ _) _);
    vm_compute; reflexivity.
Defined.


(* --------------------------------------------------------------------- *)
(** ** The identifier of a document *)
(* --------------------------------------------------------------------- *)

Lemma length_append (a b : string) :
  String.length (a ++ b) = (String.length a + String.length b)%nat.
Proof. induction a as [|x a IH]; simpl; [reflexivity | rewrite IH; reflexivity]. Qed.

Lemma startswith_app_long (p a z : string) :
  (String.length p <= String.length a)%nat ->
  startswith p (a ++ z) = startswith p a.
Proof.
  revert a. induction p as [|x p IH]; intros a Hlen; [reflexivity|].
  destruct a as [|y a]; simpl in *; [lia|].
  rewrite IH by lia. reflexivity.
Qed.

Lemma after_prefix_none (p s : string) :
  startswith p s = false -> after_prefix p s = None.
Proof.
  revert s. induction p as [|x p IH]; intros s; simpl; [discriminate|].
  destruct s as [|y s]; [reflexivity|].
  destruct (Ascii.eqb x y); simpl; [apply IH | reflexivity].
Qed.

Lemma after_prefix_app (p r : string) : after_prefix p (p ++ r) = Some r.
Proof.
  induction p as [|x p IH]; simpl; [destruct r; reflexivity|].
  rewrite Ascii.eqb_refl. exact IH.
Qed.

Lemma contains_cons_false (sub : string) (c : ascii) (s : string) :
  contains sub (String c s) = false ->
  startswith sub (String c s) = false /\ contains sub s = false.
Proof.
  change (contains sub (String c s))
    with (startswith sub (String c s) || contains sub s).
  apply orb_false_iff.
Qed.

Lemma group_before_html_value (v : string) :
  v <> EmptyString -> contains (String "010" EmptyString) v = false ->
  group_before_html (v ++ ".html") = Some v.
Proof.
  induction v as [|c v IH]; [intros H; contradiction H; reflexivity|].
  intros _ Hnl. apply contains_cons_false in Hnl. destruct Hnl as [Hc Hnl].
  cbn [append group_before_html]. simpl in Hc.
  destruct (Ascii.eqb c "010") eqn:Hcn.
  - apply Ascii.eqb_eq in Hcn. subst c. discriminate Hc.
  - destruct v as [|d v].
    + reflexivity.
    + rewrite IH by (try discriminate; exact Hnl). reflexivity.
Qed.

Lemma search_sysvalue_at_first (pre rest g : string) :
  contains "sysvalue=" (pre ++ "sysvalue") = false ->
  group_before_html rest = Some g ->
  search_sysvalue (pre ++ "sysvalue=" ++ rest) = Some g.
Proof.
  intros Hpre Hg. induction pre as [|c pre IH].
  - change (EmptyString ++ "sysvalue=" ++ rest)%string with ("sysvalue=" ++ rest)%string.
    assert (Hs : exists c s, ("sysvalue=" ++ rest)%string = String c s)
      by (eexists; eexists; reflexivity).
    destruct Hs as [c [s Hs]].
    pose proof (after_prefix_app "sysvalue=" rest) as Hp.
    rewrite Hs in *. cbn [search_sysvalue]. rewrite Hp, Hg. reflexivity.
  - apply contains_cons_false in Hpre. destruct Hpre as [Hhere Hpre].
    specialize (IH Hpre).
    change ((String c pre ++ "sysvalue=" ++ rest)%string)
      with (String c (pre ++ "sysvalue=" ++ rest)%string).
    cbn [search_sysvalue]. rewrite IH.
    assert (Hno : startswith "sysvalue=" (String c (pre ++ "sysvalue=" ++ rest)) = false).
    { change (String c (pre ++ "sysvalue=" ++ rest))
        with (String c pre ++ ("sysvalue" ++ ("=" ++ rest)))%string.
      rewrite <- append_assoc. rewrite startswith_app_long; [exact Hhere|].
      change (String c pre ++ "sysvalue")%string with (String c (pre ++ "sysvalue")).
      cbn [String.length]. rewrite length_append. simpl. lia. }
    rewrite (@after_prefix_none _ _ Hno). reflexivity.
Qed.

Lemma search_sysvalue_absent (s : string) :
  contains "sysvalue=" s = false -> search_sysvalue s = None.
Proof.
  induction s as [|c s IH]; [reflexivity|].
  intros Hc. apply contains_cons_false in Hc. destruct Hc as [Hhere Hrest].
  cbn [search_sysvalue]. rewrite (@after_prefix_none _ _ Hhere). apply IH. exact Hrest.
Qed.

Lemma rfind_from_app (c : ascii) (i last : Z) (a b : string) :
  rfind_from c i last (a ++ b) =
  rfind_from c (i + Z.of_nat (String.length a)) (rfind_from c i last a) b.
Proof.
  revert i last. induction a as [|x a IH]; intros i last; simpl String.length.
  - cbn [append rfind_from]. f_equal. lia.
  - cbn [append rfind_from]. rewrite IH. f_equal. lia.
Qed.

Lemma rfind_from_absent (c : ascii) (i last : Z) (s : string) :
  contains (String c EmptyString) s = false -> rfind_from c i last s = last.
Proof.
  revert i last. induction s as [|x s IH]; intros i last Hc; [reflexivity|].
  apply contains_cons_false in Hc. destruct Hc as [Hx Hs].
  cbn [rfind_from]. simpl in Hx. rewrite andb_true_r in Hx.
  rewrite Ascii.eqb_sym, Hx. apply IH. exact Hs.
Qed.

Lemma substring_prefix (a b : string) :
  substring 0 (String.length a) (a ++ b) = a.
Proof.
  induction a as [|x a IH]; simpl; [destruct b; reflexivity|].
  rewrite IH. reflexivity.
Qed.

Lemma splitext_root_html (base : string) :
  contains "/" base = false ->
  splitext_root (base ++ ".html") = if all_dots base then (base ++ ".html")%string else base.
Proof.
  intros Hsep. unfold splitext_root, rfind.
  rewrite !rfind_from_app. rewrite (@rfind_from_absent "/"%char 0 (-1) base Hsep).
  cbn [rfind_from Ascii.eqb Bool.eqb andb]. 
  assert (Hlt : (-1 <? 0 + Z.of_nat (String.length base))%Z = true)
    by (apply Z.ltb_lt; lia).
  rewrite Hlt. unfold slice.
  replace (Z.to_nat (-1 + 1)) with 0%nat by reflexivity.
  replace (Z.to_nat (0 + Z.of_nat (String.length base) - (-1 + 1)))
    with (String.length base) by lia.
  replace (Z.to_nat 0) with 0%nat by reflexivity.
  replace (Z.to_nat (0 + Z.of_nat (String.length base) - 0))
    with (String.length base) by lia.
  rewrite substring_prefix. reflexivity.
Qed.

(* --------------------------------------------------------------------- *)
(** ** One turn of the loop only adds to the batch *)
(* --------------------------------------------------------------------- *)

Lemma merge_empty (st : batch) : merge st empty_batch = st.
Proof.
  destruct st. unfold merge, empty_batch. simpl.
  rewrite !app_nil_r, !Nat.add_0_r. reflexivity.
Qed.

(** Updates of a merged batch are updates of its second part. *)
Ltac push_update :=
  intros; match goal with
          | st : batch, d : batch |- _ => destruct st, d
          end;
  unfold merge; simpl; rewrite ?app_assoc, ?Nat.add_succ_r; reflexivity.

Lemma extend_skipped_files_log_merge xs (st d : batch) :
  extend_skipped_files_log xs (merge st d) = merge st (extend_skipped_files_log xs d).
Proof. push_update. Qed.

Lemma extend_disclosure_reports_list_merge xs (st d : batch) :
  extend_disclosure_reports_list xs (merge st d) = merge st (extend_disclosure_reports_list xs d).
Proof. push_update. Qed.

Lemma extend_lobbyists_list_merge xs (st d : batch) :
  extend_lobbyists_list xs (merge st d) = merge st (extend_lobbyists_list xs d).
Proof. push_update. Qed.

Lemma extend_clients_list_merge xs (st d : batch) :
  extend_clients_list xs (merge st d) = merge st (extend_clients_list xs d).
Proof. push_update. Qed.

Lemma extend_compensations_list_merge xs (st d : batch) :
  extend_compensations_list xs (merge st d) = merge st (extend_compensations_list xs d).
Proof. push_update. Qed.

Lemma extend_lobbying_activities_list_merge xs (st d : batch) :
  extend_lobbying_activities_list xs (merge st d) = merge st (extend_lobbying_activities_list xs d).
Proof. push_update. Qed.

Lemma extend_met_expenses_list_merge xs (st d : batch) :
  extend_met_expenses_list xs (merge st d) = merge st (extend_met_expenses_list xs d).
Proof. push_update. Qed.

Lemma extend_operating_expenses_list_merge xs (st d : batch) :
  extend_operating_expenses_list xs (merge st d) = merge st (extend_operating_expenses_list xs d).
Proof. push_update. Qed.

Lemma extend_additional_expenses_list_merge xs (st d : batch) :
  extend_additional_expenses_list xs (merge st d) = merge st (extend_additional_expenses_list xs d).
Proof. push_update. Qed.

Lemma extend_contributions_list_merge xs (st d : batch) :
  extend_contributions_list xs (merge st d) = merge st (extend_contributions_list xs d).
Proof. push_update. Qed.

Lemma incr_processed_count_merge (st d : batch) :
  incr_processed_count (merge st d) = merge st (incr_processed_count d).
Proof. push_update. Qed.

Lemma incr_skipped_no_header_merge (st d : batch) :
  incr_skipped_no_header (merge st d) = merge st (incr_skipped_no_header d).
Proof. push_update. Qed.

Lemma incr_skipped_other_error_merge (st d : batch) :
  incr_skipped_other_error (merge st d) = merge st (incr_skipped_other_error d).
Proof. push_update. Qed.

Lemma extend_disclosure_reports_list_start xs (st : batch) :
  extend_disclosure_reports_list xs st =
  merge st (extend_disclosure_reports_list xs empty_batch).
Proof.
  rewrite <- extend_disclosure_reports_list_merge, merge_empty. reflexivity.
Qed.

Lemma incr_skipped_no_header_start (st : batch) :
  incr_skipped_no_header st = merge st (incr_skipped_no_header empty_batch).
Proof. rewrite <- incr_skipped_no_header_merge, merge_empty. reflexivity. Qed.

(** Writes the batch reached from [st] as [st] merged with what was added. *)
Ltac as_merge st :=
  try rewrite (extend_disclosure_reports_list_start _ st);
  try rewrite (incr_skipped_no_header_start st);
  repeat progress rewrite ?extend_skipped_files_log_merge, ?extend_disclosure_reports_list_merge,
    ?extend_lobbyists_list_merge, ?extend_clients_list_merge,
    ?extend_compensations_list_merge, ?extend_lobbying_activities_list_merge,
    ?extend_met_expenses_list_merge, ?extend_operating_expenses_list_merge,
    ?extend_additional_expenses_list_merge, ?extend_contributions_list_merge,
    ?incr_processed_count_merge, ?incr_skipped_no_header_merge,
    ?incr_skipped_other_error_merge.

Lemma lobbyist_bundle_keyed (to_datetime_coerce : string -> datetime) (soup : node)
    (k : string) lobbyist_info activities met_expenses operating_expenses
    additional_expenses contributions :
  parse_lobbyist_report to_datetime_coerce soup k =
    Return (lobbyist_info, activities, met_expenses, operating_expenses,
            additional_expenses, contributions) ->
  lob_disclosure_id lobbyist_info = k /\
  keyed_by k activities /\ keyed_by k met_expenses /\ keyed_by k operating_expenses /\
  keyed_by k additional_expenses /\ keyed_by k contributions.
Proof.
  intros Hret. pose proof (parse_lobbyist_report_parts _ _ _ Hret) as Hparts.
  cbv zeta in Hparts. destruct Hparts as [Hli [Hacts [Hmets [Hops [Hadds Hcons]]]]].
  split; [exact Hli|]. split; [|split; [|split; [|split]]].
  - eapply for_extend_Forall; [|exact Hacts]. intros table ys _ Hys.
    destruct (activity_table_names _ _ _ _ _ _ Hys) as [lob [cli [_ [_ Hall]]]].
    eapply Forall_impl; [|exact Hall]. cbv beta. intros a [Ha _]. symmetry. exact Ha.
  - eapply for_extend_Forall; [|exact Hmets]. intros table ys _ Hys. cbv beta in Hys.
    match type of Hys with
    | parse_met_expenses ?c ?t ?i ?n = _ =>
        pose proof (parse_met_expenses_fine c i t n) as Hfine
    end.
    rewrite Hys in Hfine. exact Hfine.
  - pose proof (operating_table_fine to_datetime_coerce k
                  (find soup "table" (Some (contains "grdvOperatingExpenses")))) as Hfine.
    unfold parse_operating_expenses in Hops. rewrite Hops in Hfine. exact Hfine.
  - pose proof (parse_additional_expenses_fine to_datetime_coerce k soup) as Hfine.
    rewrite Hadds in Hfine. exact Hfine.
  - pose proof (contributions_table_fine to_datetime_coerce k
                  (find soup "table" (Some (contains "grdvCampaignContribution")))) as Hfine.
    rewrite Hcons in Hfine. exact Hfine.
Qed.

Lemma process_file_adds (to_datetime_coerce : string -> datetime) (st : batch)
    (filename : string) (soup : node) :
  exists added : batch,
    process_file to_datetime_coerce st (filename, soup) = merge st added /\
    all_keyed (derive_disclosure_id filename) added.
Proof.
  unfold process_file.
  destruct (find soup "span" (Some (String.eqb header_id))) as [header_element|].
  2:{ as_merge st. eexists. split; [reflexivity|].
      unfold all_keyed, keyed_by. simpl. repeat split; constructor. }
  unfold try_except_exception, try_block, sbind, call, update.
  rewrite parse_date_range_value.
  set (period := match two_dates _ with Some (d1, d2) => _ | None => _ end).
  destruct period as [start_date end_date].
  destruct (contains "Lobbyist" (get_text_strip header_element)).
  - change (contains "Lobbyist" "Lobbyist") with true. cbv iota.
    destruct (parse_lobbyist_report to_datetime_coerce soup (derive_disclosure_id filename))
      as [[[[[[li acts] mets] ops] adds] cons]|e] eqn:Hparse.
    + destruct (lobbyist_bundle_keyed _ _ _ Hparse) as [Kli [Ka [Km [Ko [Kad Kc]]]]].
      as_merge st. eexists. split; [reflexivity|].
      unfold all_keyed, keyed_by. simpl.
      repeat split; try assumption; repeat constructor. exact Kli.
    + unfold except_block. as_merge st. eexists. split; [reflexivity|].
      unfold all_keyed, keyed_by. simpl. repeat split; repeat constructor.
  - change (contains "Lobbyist" "Client") with false. cbv iota.
    destruct (parse_client_report to_datetime_coerce soup (derive_disclosure_id filename))
      as [[[[[ci comps] mets] ops] adds]|e] eqn:Hparse.
    + destruct (parse_client_report_keyed _ _ _ Hparse) as [Kci [Kcomp [Km [Ko Kad]]]].
      as_merge st. eexists. split; [reflexivity|].
      unfold all_keyed, keyed_by. simpl.
      repeat split; try assumption; repeat constructor. exact Kci.
    + unfold except_block. as_merge st. eexists. split; [reflexivity|].
      unfold all_keyed, keyed_by. simpl. repeat split; repeat constructor.
Qed.

(** C4.  The identifier of a document is the text between the first
    [sysvalue=] of its file name and the final [.html], with every [%2f]
    replaced by [/] (the text is not empty and holds no line feed); when the
    file name holds no [sysvalue=] it is the file name without its
    extension.  Every record that a turn of the loop adds to the batch, in
    any of the nine lists, has this identifier as its [disclosure_id]. *)
Theorem disclosure_id_derivation :
  (forall pre v : string,
     contains "sysvalue=" (pre ++ "sysvalue") = false ->
     v <> EmptyString ->
     contains (String "010" EmptyString) v = false ->
     derive_disclosure_id (pre ++ "sysvalue=" ++ v ++ ".html") = replace "%2f" "/" v) /\
  (forall filename : string,
     contains "sysvalue=" filename = false ->
     derive_disclosure_id filename = splitext_root filename) /\
  (forall base : string,
     contains "sysvalue=" (base ++ ".html") = false ->
     contains "/" base = false ->
     all_dots base = false ->
     derive_disclosure_id (base ++ ".html") = base) /\
  (forall (to_datetime_coerce : string -> datetime) (st : batch) (filename : string)
          (soup : node),
     exists added : batch,
       process_file to_datetime_coerce st (filename, soup) = merge st added /\
       all_keyed (derive_disclosure_id filename) added) /\
  derive_disclosure_id "page_sysvalue=L1%2f2024.html" = "L1/2024" /\
  derive_disclosure_id "report.html" = "report".
Proof.
  split; [|split; [|split; [|split; [|split; reflexivity]]]].
  - intros pre v Hpre Hv Hnl. unfold derive_disclosure_id.
    rewrite (@search_sysvalue_at_first pre (v ++ ".html") v Hpre
               (group_before_html_value Hv Hnl)).
    reflexivity.
  - intros filename Habsent. unfold derive_disclosure_id.
    rewrite (search_sysvalue_absent _ Habsent). reflexivity.
  - intros base Habsent Hsep Hdots. unfold derive_disclosure_id.
    rewrite (search_sysvalue_absent _ Habsent).
    rewrite (splitext_root_html _ Hsep), Hdots. reflexivity.
  - intros. apply process_file_adds.
Qed.

(** The theorem at the file names of the sample runs. *)
Lemma disclosure_id_derivation_witness :
  derive_disclosure_id ("page_" ++ "sysvalue=" ++ "L1%2f2024" ++ ".html") = "L1/2024" /\
  derive_disclosure_id ("report" ++ ".html") = "report".
Proof.
  split.
  - apply (proj1 disclosure_id_derivation "page_" "L1%2f2024");
      [reflexivity | discriminate | reflexivity].
  - apply (proj1 (proj2 (proj2 disclosure_id_derivation)) "report"); reflexivity.
Defined.

Lemma raise_in_lobbyist_report (to_datetime_coerce : string -> datetime) (st : batch)
    (filename : string) (soup header : node) (e : exc)
    (start_date end_date : option string) :
  find soup "span" (Some (String.eqb header_id)) = Some header ->
  contains "Lobbyist" (get_text_strip header) = true ->
  parse_date_range (safe_get_text soup "span" "ContentPlaceHolder1_lblYear")
    = Return (start_date, end_date) ->
  parse_lobbyist_report to_datetime_coerce soup (derive_disclosure_id filename) = Raise e ->
  process_file to_datetime_coerce st (filename, soup) =
  extend_skipped_files_log
    [(filename ++ " (Reason: Parsing Error - " ++ exc_msg e ++ ")")%string]
    (incr_skipped_other_error
       (extend_disclosure_reports_list
          [Report (derive_disclosure_id filename) "Lobbyist" start_date end_date] st)).
Proof.
  intros Hheader Hlob Hperiod Hraise. unfold process_file. rewrite Hheader.
  unfold try_except_exception, try_block, sbind, call, update.
  rewrite Hperiod, Hlob. change (contains "Lobbyist" "Lobbyist") with true. cbv iota.
  rewrite Hraise. reflexivity.
Qed.

(** C1, the run that breaks it.  When [parse_lobbyist_report] raises
    after the header was found, the turn of the loop ends in the [except]
    block: the file is counted as skipped and one line with its name and
    the text of the error is logged, and no lobbyist, activity or expense
    record of the file is added; but the report row that was appended
    before the call stays in the batch.  [deep_document] is such a
    filing: reading the [string] of a cell before its activity table
    exceeds the bound on nested calls, and [main] writes its report row
    although it lists the file as skipped. *)
Theorem failed_document_keeps_report_row :
  (forall (to_datetime_coerce : string -> datetime) (st : batch) (filename : string)
          (soup header : node) (e : exc) (start_date end_date : option string),
     find soup "span" (Some (String.eqb header_id)) = Some header ->
     contains "Lobbyist" (get_text_strip header) = true ->
     parse_date_range (safe_get_text soup "span" "ContentPlaceHolder1_lblYear")
       = Return (start_date, end_date) ->
     parse_lobbyist_report to_datetime_coerce soup (derive_disclosure_id filename)
       = Raise e ->
     let st' := process_file to_datetime_coerce st (filename, soup) in
     disclosure_reports_list st' =
       disclosure_reports_list st ++
       [Report (derive_disclosure_id filename) "Lobbyist" start_date end_date] /\
     lobbyists_list st' = lobbyists_list st /\
     lobbying_activities_list st' = lobbying_activities_list st /\
     met_expenses_list st' = met_expenses_list st /\
     operating_expenses_list st' = operating_expenses_list st /\
     additional_expenses_list st' = additional_expenses_list st /\
     contributions_list st' = contributions_list st /\
     skipped_other_error st' = S (skipped_other_error st) /\
     processed_count st' = processed_count st /\
     skipped_files_log st' =
       skipped_files_log st ++
       [(filename ++ " (Reason: Parsing Error - " ++ exc_msg e ++ ")")%string]) /\
  (let out := main no_dates [("deep.html", deep_document)] in
   find deep_document "span" (Some (String.eqb header_id))
     = Some (span header_id "Lobbyist Disclosure Report") /\
   parse_lobbyist_report no_dates deep_document "deep"
     = Raise (Exc RecursionError "maximum recursion depth exceeded") /\
   df_reports out = [Report "deep" "Lobbyist" (Some "2024-01-01") (Some "2024-06-30")] /\
   df_lobbyists out = [] /\
   df_activities out = [] /\
   df_met_expenses out = [] /\
   df_operating_expenses out = [] /\
   df_additional_expenses out = [] /\
   df_contributions out = [] /\
   skipped_files_txt out =
     ["deep.html (Reason: Parsing Error - maximum recursion depth exceeded)"] /\
   skipped_other_error (summary out) = 1%nat /\
   processed_count (summary out) = 0%nat).
Proof.
  split.
  - intros to_datetime_coerce st filename soup header e start_date end_date
      Hheader Hlob Hperiod Hraise st'.
    unfold st'. rewrite (raise_in_lobbyist_report _ st _ _ Hheader Hlob Hperiod Hraise).
    destruct st. simpl. repeat split; reflexivity.
  - vm_compute. repeat split; reflexivity.
Qed.

(** The theorem at [deep_document]. *)
Lemma failed_document_keeps_report_row_witness :
  find deep_document "span" (Some (String.eqb header_id))
    = Some (span header_id "Lobbyist Disclosure Report") /\
  contains "Lobbyist" (get_text_strip (span header_id "Lobbyist Disclosure Report")) = true /\
  parse_date_range (safe_get_text deep_document "span" "ContentPlaceHolder1_lblYear")
    = Return (Some "2024-01-01", Some "2024-06-30") /\
  parse_lobbyist_report no_dates deep_document (derive_disclosure_id "deep.html")
    = Raise (Exc RecursionError "maximum recursion depth exceeded") /\
  disclosure_reports_list (process_file no_dates empty_batch ("deep.html", deep_document))
    = [Report "deep" "Lobbyist" (Some "2024-01-01") (Some "2024-06-30")] /\
  skipped_other_error (process_file no_dates empty_batch ("deep.html", deep_document)) = 1%nat.
Proof.
  assert (H1 : find deep_document "span" (Some (String.eqb header_id))
               = Some (span header_id "Lobbyist Disclosure Report"))
    by (vm_compute; reflexivity).
  assert (H2 : contains "Lobbyist"
                 (get_text_strip (span header_id "Lobbyist Disclosure Report")) = true)
    by reflexivity.
  assert (H3 : parse_date_range
                 (safe_get_text deep_document "span" "ContentPlaceHolder1_lblYear")
               = Return (Some "2024-01-01", Some "2024-06-30"))
    by (vm_compute; reflexivity).
  assert (H4 : parse_lobbyist_report no_dates deep_document (derive_disclosure_id "deep.html")
               = Raise (Exc RecursionError "maximum recursion depth exceeded"))
    by (vm_compute; reflexivity).
  pose proof (proj1 failed_document_keeps_report_row no_dates empty_batch "deep.html"
                deep_document _ _ _ _ H1 H2 H3 H4) as Hrun.
  cbv zeta in Hrun. destruct Hrun as [Hreports [_ [_ [_ [_ [_ [_ [Hskipped _]]]]]]]].
  repeat split; try assumption.
Defined.


(* ===================================================================== *)
(** * Part III: further properties of the code *)
(* ===================================================================== *)

(* --------------------------------------------------------------------- *)
(** ** More on the normalizers *)
(* --------------------------------------------------------------------- *)

Lemma split_length (c : ascii) (s : string) :
  length (split c s) = S (count_char c s).
Proof.
  induction s as [|a s IH]; [reflexivity|].
  cbn [split count_char]. destruct (Ascii.eqb a c).
  - cbn [length]. rewrite IH. reflexivity.
  - destruct (split c s) as [|p ps]; [discriminate IH|]. exact IH.
Qed.

Lemma split_without_separator (c : ascii) (s : string) :
  count_char c s = 0%nat -> split c s = [s].
Proof.
  induction s as [|a s IH]; [reflexivity|].
  cbn [split count_char]. destruct (Ascii.eqb a c); [discriminate|].
  intros Hc. rewrite (IH Hc). reflexivity.
Qed.

Lemma split_at_separator (c : ascii) (a b : string) :
  count_char c a = 0%nat ->
  split c (a ++ String c b) = a :: split c b.
Proof.
  induction a as [|x a IH]; intros Hc.
  - cbn [append split]. rewrite Ascii.eqb_refl. reflexivity.
  - cbn [count_char] in Hc. cbn [append split].
    destruct (Ascii.eqb x c); [discriminate|].
    rewrite (IH Hc). reflexivity.
Qed.

(** X1.  [parse_date_range] needs exactly one dash in its text: a text
    with no dash or with more than one gives [(None, None)], whatever
    stands around the dashes.  A range of ISO dates is such a text. *)
Theorem date_range_needs_one_dash (s : string) :
  count_char "-" s <> 1%nat ->
  parse_date_range s = Return (None, None).
Proof.
  intros Hcount. rewrite parse_date_range_value. unfold two_dates.
  pose proof (split_length "-" s) as Hlen.
  destruct (split "-" s) as [|a [|b [|c parts]]]; try reflexivity.
  simpl in Hlen. exfalso. apply Hcount. lia.
Qed.

(** The theorem at a range of ISO dates. *)
Lemma date_range_needs_one_dash_witness :
  count_char "-" "2024-01-01 - 2024-06-30" <> 1%nat /\
  parse_date_range "2024-01-01 - 2024-06-30" = Return (None, None).
Proof.
  assert (H : count_char "-" "2024-01-01 - 2024-06-30" <> 1%nat) by (simpl; lia).
  split; [exact H | exact (@date_range_needs_one_dash _ H)].
Defined.

(** X2.  [parse_date_range] does not compare its two ends: for two parts
    without a dash, the text with the parts exchanged gives the two
    results exchanged, so a period that ends before it starts is returned
    as it is written. *)
Theorem date_range_ends_are_not_ordered (a b : string) :
  count_char "-" a = 0%nat ->
  count_char "-" b = 0%nat ->
  exists x y,
    parse_date_range (a ++ "-" ++ b) = Return (x, y) /\
    parse_date_range (b ++ "-" ++ a) = Return (y, x).
Proof.
  intros Ha Hb. rewrite !parse_date_range_value. unfold two_dates.
  change (a ++ "-" ++ b)%string with (a ++ String "-" b)%string.
  change (b ++ "-" ++ a)%string with (b ++ String "-" a)%string.
  rewrite (@split_at_separator "-" a b Ha), (@split_at_separator "-" b a Hb).
  rewrite (@split_without_separator "-" a Ha), (@split_without_separator "-" b Hb).
  destruct (to_datetime_mdY (strip a)) as [[|d1]|e1];
    destruct (to_datetime_mdY (strip b)) as [[|d2]|e2];
    eexists; eexists; split; reflexivity.
Qed.

(** The theorem at a period written backwards. *)
Lemma date_range_ends_are_not_ordered_witness :
  count_char "-" "12/31/2024 " = 0%nat /\
  count_char "-" " 01/01/2024" = 0%nat /\
  parse_date_range "12/31/2024 - 01/01/2024"
    = Return (Some "2024-12-31", Some "2024-01-01") /\
  parse_date_range " 01/01/2024-12/31/2024 "
    = Return (Some "2024-01-01", Some "2024-12-31").
Proof.
  destruct (@date_range_ends_are_not_ordered "12/31/2024 " " 01/01/2024" eq_refl eq_refl)
    as [x [y [Hxy Hyx]]].
  assert (Hrun : parse_date_range "12/31/2024 - 01/01/2024"
                 = Return (Some "2024-12-31", Some "2024-01-01")) by reflexivity.
  change ("12/31/2024 " ++ "-" ++ " 01/01/2024")%string
    with "12/31/2024 - 01/01/2024" in Hxy.
  rewrite Hrun in Hxy. inversion Hxy; subst x y.
  split; [reflexivity|]. split; [reflexivity|]. split; [exact Hrun | exact Hyx].
Defined.

Lemma without_idempotent (c : ascii) (s : string) :
  without c (without c s) = without c s.
Proof.
  induction s as [|a s IH]; [reflexivity|].
  cbn [without]. destruct (Ascii.eqb c a) eqn:Hc; [exact IH|].
  cbn [without]. rewrite Hc, IH. reflexivity.
Qed.

Lemma without_commute (c d : ascii) (s : string) :
  without c (without d s) = without d (without c s).
Proof.
  induction s as [|a s IH]; [reflexivity|].
  cbn [without]. destruct (Ascii.eqb d a) eqn:Hd; destruct (Ascii.eqb c a) eqn:Hc;
    cbn [without]; rewrite ?Hd, ?Hc, IH; reflexivity.
Qed.

Lemma strip_empty_blank (s : string) : strip s = EmptyString <-> blank s.
Proof.
  unfold blank, strip. split.
  - intros Hs. pose proof (lstrip_no_lead s) as Hl.
    destruct (lstrip s) as [|c r]; [reflexivity|].
    destruct (rstrip_head c r) as [He | [r' Hr]].
    + unfold rstrip in He. cbn [rstrip_by] in He. simpl in Hl.
      destruct (rstrip_by isspace r); [rewrite Hl in He|]; discriminate He.
    + rewrite Hr in Hs. discriminate Hs.
  - intros Hs. rewrite Hs. reflexivity.
Qed.

Lemma without_blank (c : ascii) (s : string) : blank s -> blank (without c s).
Proof.
  unfold blank, lstrip. induction s as [|a s IH]; [intros _; reflexivity|].
  cbn [lstrip_by without]. destruct (isspace a) eqn:Ha; [|discriminate].
  intros Hs. destruct (Ascii.eqb c a); [exact (IH Hs)|].
  cbn [lstrip_by]. rewrite Ha. exact (IH Hs).
Qed.

(** X3.  [clean_currency] does not look at where the currency signs and
    the commas stand: it gives the same amount for a text and for the text
    with every [$] and every comma taken out, so a text such as [1,2$3]
    reads as 123. *)
Theorem clean_currency_ignores_signs_and_commas :
  (forall t : string,
     clean_currency (Some t) = clean_currency (Some (without "," (without "$" t)))) /\
  clean_currency (Some "1,2$3") = Return (FFinite 123).
Proof.
  split; [|reflexivity].
  intros t. rewrite !clean_currency_value.
  rewrite (without_commute "$" ","), without_idempotent.
  rewrite (without_commute "," "$"), without_idempotent.
  rewrite (without_commute "$" ",").
  set (u := without "," (without "$" t)).
  destruct (String.eqb (strip t) EmptyString) eqn:Ht;
    destruct (String.eqb (strip u) EmptyString) eqn:Hu; try reflexivity.
  - apply String.eqb_eq in Ht. apply String.eqb_neq in Hu. exfalso. apply Hu.
    apply strip_empty_blank. unfold u. apply without_blank, without_blank.
    apply strip_empty_blank. exact Ht.
  - apply String.eqb_eq in Hu. rewrite Hu. reflexivity.
Qed.

(* --------------------------------------------------------------------- *)
(** ** The table loops as maps over the data rows *)
(* --------------------------------------------------------------------- *)

(** X4.  [parse_operating_expenses] reads the first operating-expense
    table only.  When it returns, it returns no record if there is no
    such table or if the text of the table holds the placeholder, and
    otherwise, in the order of the rows, one record for every row after
    the first that has at least four cells and whose text does not hold
    [Total operating expenses], wherever that row stands. *)
Theorem operating_expenses_are_the_data_rows (to_datetime_coerce : string -> datetime)
    (soup : node) (disclosure_id : string) (operating_expenses : list operating_expense) :
  parse_operating_expenses to_datetime_coerce soup disclosure_id
    = Return operating_expenses ->
  operating_expenses =
  match find soup "table" (Some (contains "grdvOperatingExpenses")) with
  | None => []
  | Some t =>
      if contains "No operating expenses were filed" (get_text t) then []
      else map (operating_record to_datetime_coerce disclosure_id)
             (filter (data_row "Total operating expenses" 4) (body_rows t))
  end.
Proof.
  unfold parse_operating_expenses, operating_table, body_rows.
  destruct (find soup "table" _) as [t|]; [|intros Hr; inversion Hr; reflexivity].
  destruct (contains _ (get_text t)); cbn [negb]; [intros Hr; inversion Hr; reflexivity|].
  apply for_extend_rows_when. intros row ys. apply operating_row_value.
Qed.

(** The theorem at [two_operating_tables] without its first table. *)
Lemma operating_expenses_are_the_data_rows_witness :
  parse_operating_expenses no_dates
    (document [table "ContentPlaceHolder2_grdvOperatingExpenses"
                 [tr [th "Date"; th "Recipient"; th "Type"; th "Amount"];
                  operating_data_row]]) "op"
    = Return [OperatingExpense "op" None "Office Depot" "Supplies" (FFinite (25 # 2))] /\
  [OperatingExpense "op" None "Office Depot" "Supplies" (FFinite (25 # 2))]
    = map (operating_record no_dates "op") [operating_data_row].
Proof.
  assert (Hrun : parse_operating_expenses no_dates
                   (document [table "ContentPlaceHolder2_grdvOperatingExpenses"
                                [tr [th "Date"; th "Recipient"; th "Type"; th "Amount"];
                                 operating_data_row]]) "op"
                 = Return [OperatingExpense "op" None "Office Depot" "Supplies"
                             (FFinite (25 # 2))])
    by (vm_compute; reflexivity).
  split; [exact Hrun|].
  exact (operating_expenses_are_the_data_rows _ _ _ Hrun).
Defined.

(** X5.  [parse_additional_expenses] reads every additional-expense
    table.  When it returns, its records are, for the tables without the
    placeholder in the order of the document, one record in the order of
    the rows for every row after the first that has at least six cells
    and whose text does not hold [Total additional expenses]. *)
Theorem additional_expenses_are_the_data_rows (to_datetime_coerce : string -> datetime)
    (soup : node) (disclosure_id : string) (additional_expenses : list additional_expense) :
  parse_additional_expenses to_datetime_coerce soup disclosure_id
    = Return additional_expenses ->
  additional_expenses =
  flat_map
    (fun t => map (additional_record to_datetime_coerce disclosure_id)
                (filter (data_row "Total additional expenses" 6) (body_rows t)))
    (filter (fun t => negb (contains "No additional expenses were filed" (get_text t)))
       (find_all soup "table" (Some (contains "grdvAdditionalExpenses")))).
Proof.
  unfold parse_additional_expenses.
  generalize (find_all soup "table" (Some (contains "grdvAdditionalExpenses"))).
  intros tables. revert additional_expenses.
  induction tables as [|t tables IH]; intros rows; cbn [for_extend].
  - intros Hr. inversion Hr. reflexivity.
  - destruct (additional_table to_datetime_coerce disclosure_id t) as [ys|e] eqn:Ht;
      cbn [bind]; [|discriminate].
    destruct (for_extend _ tables) as [zs|e]; cbn [bind]; [|discriminate].
    intros Hr. inversion Hr; subst rows. rewrite (IH zs eq_refl).
    cbn [filter]. unfold additional_table in Ht.
    destruct (contains _ (get_text t)); cbn [negb].
    + inversion Ht. reflexivity.
    + cbn [flat_map]. f_equal.
      apply (for_extend_rows_when _ _ _ _ (additional_row_value to_datetime_coerce
                                              disclosure_id) Ht).
Qed.

(** The theorem at a page with one additional-expense table. *)
Lemma additional_expenses_are_the_data_rows_witness :
  parse_additional_expenses no_dates
    (document [table "ContentPlaceHolder1_grdvAdditionalExpenses"
                 [tr [th "Date"];
                  tr [td EmptyString; td "Ann Poe"; td "Cafe"; td "Meal"; td "Lunch";
                      td "$30.00"];
                  tr [td "Total additional expenses"; td EmptyString; td EmptyString;
                      td EmptyString; td EmptyString; td "$30.00"]]]) "ad"
    = Return [AdditionalExpense "ad" None "Ann Poe" "Cafe" "Meal" "Lunch" (FFinite 30)] /\
  [AdditionalExpense "ad" None "Ann Poe" "Cafe" "Meal" "Lunch" (FFinite 30)]
    = map (additional_record no_dates "ad")
        [tr [td EmptyString; td "Ann Poe"; td "Cafe"; td "Meal"; td "Lunch"; td "$30.00"]].
Proof.
  assert (Hrun : parse_additional_expenses no_dates
                   (document [table "ContentPlaceHolder1_grdvAdditionalExpenses"
                                [tr [th "Date"];
                                 tr [td EmptyString; td "Ann Poe"; td "Cafe"; td "Meal";
                                     td "Lunch"; td "$30.00"];
                                 tr [td "Total additional expenses"; td EmptyString;
                                     td EmptyString; td EmptyString; td EmptyString;
                                     td "$30.00"]]]) "ad"
                 = Return [AdditionalExpense "ad" None "Ann Poe" "Cafe" "Meal" "Lunch"
                             (FFinite 30)])
    by (vm_compute; reflexivity).
  split; [exact Hrun|].
  exact (additional_expenses_are_the_data_rows _ _ _ Hrun).
Defined.

Lemma contributions_table_value (to_datetime_coerce : string -> datetime) (k : string)
    (table : option node) (contributions : list contribution) :
  contributions_table to_datetime_coerce k table = Return contributions ->
  contributions =
  match table with
  | None => []
  | Some t =>
      if contains "No campaign contributions were filed" (get_text t) then []
      else map (contribution_record to_datetime_coerce k)
             (filter (data_row "Total contributions" 4) (body_rows t))
  end.
Proof.
  unfold contributions_table, body_rows.
  destruct table as [t|]; [|intros Hr; inversion Hr; reflexivity].
  destruct (contains _ (get_text t)); cbn [negb]; [intros Hr; inversion Hr; reflexivity|].
  destruct (1 <? length (find_all t "tr" None))%nat eqn:Hrows.
  - apply for_extend_rows_when. intros row ys. apply contribution_row_value.
  - rewrite (tail_of_short_list _ Hrows). intros Hr. inversion Hr. reflexivity.
Qed.

(** X6.  The contributions of a lobbyist filing come from the first
    contributions table only: none when there is no such table or its text
    holds the placeholder, otherwise one record, in order, for every row
    after the first that has at least four cells and whose text does not
    hold [Total contributions].  A total row in the middle of the table and
    a row that is too short are left out without an error. *)
Theorem contributions_are_the_data_rows (to_datetime_coerce : string -> datetime)
    (soup : node) (disclosure_id : string) (lobbyist_info : lobbyist)
    (activities : list activity) (met_expenses : list met_expense)
    (operating_expenses : list operating_expense)
    (additional_expenses : list additional_expense) (contributions : list contribution) :
  parse_lobbyist_report to_datetime_coerce soup disclosure_id =
    Return (lobbyist_info, activities, met_expenses, operating_expenses,
            additional_expenses, contributions) ->
  contributions =
  match find soup "table" (Some (contains "grdvCampaignContribution")) with
  | None => []
  | Some t =>
      if contains "No campaign contributions were filed" (get_text t) then []
      else map (contribution_record to_datetime_coerce disclosure_id)
             (filter (data_row "Total contributions" 4) (body_rows t))
  end.
Proof.
  intros Hret. pose proof (parse_lobbyist_report_parts _ _ _ Hret) as Hparts.
  cbv zeta in Hparts. destruct Hparts as [_ [_ [_ [_ [_ Hcons]]]]].
  exact (contributions_table_value _ _ _ Hcons).
Qed.

(** The theorem at [contributions_document]. *)
Lemma contributions_are_the_data_rows_witness :
  exists lobbyist_info,
    parse_lobbyist_report no_dates contributions_document "c1" =
      Return (lobbyist_info, [], [], [], [],
              [Contribution "c1" None "Ann Poe" "State Senate" (FFinite 200);
               Contribution "c1" None "Cy Doe" "Governor" (FFinite 250)]) /\
    map (data_row "Total contributions" 4) (body_rows contributions_sample_table)
      = [true; false; false; true].
Proof.
  eexists.
  assert (Hrun : parse_lobbyist_report no_dates contributions_document "c1" =
                 Return (Lobbyist "c1" "Acme Corp" EmptyString "Acme Corp" false,
                         [], [], [], [],
                         [Contribution "c1" None "Ann Poe" "State Senate" (FFinite 200);
                          Contribution "c1" None "Cy Doe" "Governor" (FFinite 250)]))
    by (vm_compute; reflexivity).
  pose proof (@contributions_are_the_data_rows no_dates contributions_document "c1"
                _ _ _ _ _ _ Hrun) as Hrows.
  split; [exact Hrun | reflexivity].
Defined.

(** X7.  When [parse_client_report] returns, its compensations come
    from the table whose [id] is exactly
    [ContentPlaceHolder1_DisclosureReviewDetail1_grdvSalaryPaid]: one
    record, in order, for every row after the first that has at least two
    cells and whose text does not hold the word [Total] anywhere, so a
    payee whose name includes that word is left out too. *)
Theorem compensations_are_the_data_rows (to_datetime_coerce : string -> datetime)
    (soup : node) (disclosure_id : string) (client_info : client)
    (compensations : list compensation) (met_expenses : list met_expense)
    (operating_expenses : list operating_expense)
    (additional_expenses : list additional_expense) :
  parse_client_report to_datetime_coerce soup disclosure_id =
    Return (client_info, compensations, met_expenses, operating_expenses,
            additional_expenses) ->
  compensations =
  match find soup "table"
          (Some (String.eqb
                   "ContentPlaceHolder1_DisclosureReviewDetail1_grdvSalaryPaid")) with
  | None => []
  | Some t => map (compensation_record disclosure_id)
                (filter (data_row "Total" 2) (body_rows t))
  end.
Proof.
  intros Hret. exact (proj1 (proj2 (parse_client_report_parts _ _ _ Hret))).
Qed.

(** The theorem at [salary_document]. *)
Lemma compensations_are_the_data_rows_witness :
  exists client_info,
    parse_client_report no_dates salary_document "sal" =
      Return (client_info, [Compensation "sal" "Ann Poe" (FFinite 1000)], [], [], []) /\
    map (data_row "Total" 2)
      (body_rows (table "ContentPlaceHolder1_DisclosureReviewDetail1_grdvSalaryPaid"
                    salary_rows))
      = [true; false; false].
Proof.
  assert (Hrun : { ci : client |
                   parse_client_report no_dates salary_document "sal" =
                   Return (ci, [Compensation "sal" "Ann Poe" (FFinite 1000)], [], [], []) }).
  { eexists. vm_compute. reflexivity. }
  destruct Hrun as [ci Hrun]. exists ci.
  pose proof (compensations_are_the_data_rows _ _ _ Hrun) as Hrows.
  split; [exact Hrun | reflexivity].
Defined.

(** X8.  The records of an activity table are, in order, one record for
    every row after the first that has at least six cells and whose text
    does not hold [Total amount]; all of them carry the lobbyist name and
    the client name that were resolved for the table, and the columns 0 to
    5 of the row as chamber, bill, title, position, amount and business
    association. *)
Theorem activities_are_the_data_rows (soup : node) (disclosure_id first_name last_name
    employer_name : string) (table : element) (current_lobbyist current_client : string) :
  resolve_lobbyist soup table (default_lobbyist first_name last_name employer_name)
    = Return current_lobbyist ->
  resolve_client soup table employer_name = Return current_client ->
  activity_table soup disclosure_id first_name last_name employer_name table =
  Return (map (activity_record disclosure_id current_lobbyist current_client)
            (filter (data_row "Total amount" 6) (body_rows (el_node table)))).
Proof.
  intros Hlob Hcli. unfold activity_table, body_rows. rewrite Hlob, Hcli. cbn [bind].
  destruct (1 <? length (find_all (el_node table) "tr" None))%nat eqn:Hrows.
  - apply for_extend_rows. intros row. apply activity_row_value.
  - rewrite (tail_of_short_list _ Hrows). reflexivity.
Qed.

(** The theorem at the activity table of [labelled_document]. *)
Lemma activities_are_the_data_rows_witness :
  exists table,
    resolve_lobbyist labelled_document table (default_lobbyist "Jane" "Doe" "Firm LLP")
      = Return "Jane Doe" /\
    resolve_client labelled_document table "Firm LLP" = Return "Acme Corp" /\
    activity_table labelled_document "lab" "Jane" "Doe" "Firm LLP" table =
      Return [Activity "lab" "Jane Doe" "Acme Corp" "House" "H.100" "An Act" "Support"
                (FFinite 1000) "None"].
Proof.
  exists (hd (Element 0 no_node [])
            (soup_find_all labelled_document "table"
               (Some (fun x => truthy x && contains "grdvActivitiesNew" x)))).
  assert (Hlob : resolve_lobbyist labelled_document
                   (hd (Element 0 no_node [])
                      (soup_find_all labelled_document "table"
                         (Some (fun x => truthy x && contains "grdvActivitiesNew" x))))
                   (default_lobbyist "Jane" "Doe" "Firm LLP") = Return "Jane Doe")
    by (vm_compute; reflexivity).
  assert (Hcli : resolve_client labelled_document
                   (hd (Element 0 no_node [])
                      (soup_find_all labelled_document "table"
                         (Some (fun x => truthy x && contains "grdvActivitiesNew" x))))
                   "Firm LLP" = Return "Acme Corp")
    by (vm_compute; reflexivity).
  split; [exact Hlob|]. split; [exact Hcli|].
  rewrite (@activities_are_the_data_rows labelled_document "lab" "Jane" "Doe" "Firm LLP"
             _ _ _ Hlob Hcli).
  vm_compute. reflexivity.
Defined.

(* --------------------------------------------------------------------- *)
(** ** What a lobbyist filing can raise *)
(* --------------------------------------------------------------------- *)

Lemma for_extend_raise {X B : Type} (body : X -> result (list B)) (xs : list X)
    (e : exc) :
  for_extend body xs = Raise e -> exists x, In x xs /\ body x = Raise e.
Proof.
  induction xs as [|x xs IH]; simpl; [discriminate|].
  destruct (body x) as [ys|e'] eqn:Hb; simpl.
  - destruct (for_extend body xs) as [zs|e'']; simpl; [discriminate|].
    intros Hr. inversion Hr; subst. destruct (IH eq_refl) as [x' [Hin Hx']].
    exists x'. auto.
  - intros Hr. inversion Hr; subst. exists x. auto.
Qed.

Lemma tag_string_raise (depth : nat) (n : node) (e : exc) :
  tag_string depth n = Raise e ->
  e = Exc RecursionError "maximum recursion depth exceeded".
Proof.
  revert n. induction depth as [|depth IH]; intros n; cbn [tag_string].
  - intros Hr. inversion Hr. reflexivity.
  - destruct n as [k s | nm i [|c [|c' cs]]]; try discriminate.
    + destruct c as [k s | nm' i' cs']; [discriminate|]. apply IH.
    + destruct c; discriminate.
Qed.

Lemma first_with_text_raise (nm : string) (pattern : string -> bool)
    (cands : list element) (e : exc) :
  first_with_text nm pattern cands = Raise e ->
  e = Exc RecursionError "maximum recursion depth exceeded".
Proof.
  induction cands as [|c cands IH]; cbn [first_with_text]; [discriminate|].
  destruct (tag_matches nm None (el_node c)); [|exact IH].
  destruct (tag_string recursion_limit (el_node c)) as [[t|]|x] eqn:Hs; cbn [bind].
  - destruct (pattern t); [discriminate | exact IH].
  - exact IH.
  - intros Hr. inversion Hr; subst x. exact (tag_string_raise _ _ Hs).
Qed.

Lemma activity_table_raise (soup : node) (k first_name last_name employer_name : string)
    (table : element) (e : exc) :
  activity_table soup k first_name last_name employer_name table = Raise e ->
  exists nm label, find_previous_text soup table nm (re_label label) = Raise e.
Proof.
  unfold activity_table, resolve_lobbyist, resolve_client.
  destruct (find_previous_text soup table "td" (re_label "Lobbyist:")) as [h|x] eqn:Hl;
    cbn [bind].
  2:{ intros Hr. inversion Hr; subst x. exists "td", "Lobbyist:". exact Hl. }
  destruct (find_previous_text soup table "td" (re_label "Client:")) as [h1|x] eqn:Hc;
    cbn [bind].
  2:{ intros Hr. inversion Hr; subst x. exists "td", "Client:". exact Hc. }
  destruct (find_previous_text soup table "strong" (re_label "Client:")) as [h2|x] eqn:Hs;
    cbn [bind].
  2:{ intros Hr. inversion Hr; subst x. exists "strong", "Client:". exact Hs. }
  destruct (1 <? _)%nat; [|discriminate].
  intros Hr. apply for_extend_raise in Hr. destruct Hr as [row [_ Hrow]].
  revert Hrow.
  match goal with
  | |- activity_row ?i ?l ?c ?r = _ -> _ =>
      destruct (activity_row_ok i l c r) as [ys [Hys _]]; rewrite Hys; discriminate
  end.
Qed.

(** X9.  Two exceptions can leave [parse_lobbyist_report], and no
    other: the [RecursionError] of a label search before an activity
    table, and the [NotImplementedError] that [strftime] raises in
    [format_date] for a date cell whose timestamp [datetime.datetime]
    cannot hold.  No number of cells, no amount and no row raises an
    [IndexError] or a [ValueError]. *)
Theorem lobbyist_report_exceptions
    (to_datetime_coerce : string -> datetime) (soup : node) (k : string) (e : exc) :
  parse_lobbyist_report to_datetime_coerce soup k = Raise e ->
  (e = Exc RecursionError "maximum recursion depth exceeded" /\
   exists table nm label,
     In table (soup_find_all soup "table"
                 (Some (fun x => truthy x && contains "grdvActivitiesNew" x))) /\
     find_previous_text soup table nm (re_label label) = Raise e) \/
  e = strftime_error.
Proof.
  unfold parse_lobbyist_report. cbv zeta.
  destruct (for_extend (activity_table soup k _ _ _) _) as [acts|x] eqn:Hacts; cbn [bind].
  - destruct (for_extend _ (soup_find_all soup "table" (Some (contains "grdvMETExpenses"))))
      as [mets|x] eqn:Hmets; cbn [bind].
    + pose proof (operating_table_fine to_datetime_coerce k
                    (find soup "table" (Some (contains "grdvOperatingExpenses")))) as Ho.
      unfold parse_operating_expenses.
      destruct (operating_table _ _ _) as [ops|x]; cbn [bind];
        [|intros Hr; inversion Hr; subst x; right; exact Ho].
      pose proof (parse_additional_expenses_fine to_datetime_coerce k soup) as Ha.
      destruct (parse_additional_expenses _ _ _) as [adds|x]; cbn [bind];
        [|intros Hr; inversion Hr; subst x; right; exact Ha].
      pose proof (contributions_table_fine to_datetime_coerce k
                    (find soup "table" (Some (contains "grdvCampaignContribution")))) as Hc.
      destruct (contributions_table _ _ _) as [gifts|x]; cbn [bind];
        [discriminate | intros Hr; inversion Hr; subst x; right; exact Hc].
    + intros Hr. inversion Hr; subst x.
      apply for_extend_raise in Hmets. destruct Hmets as [table [_ Htable]].
      cbv beta in Htable.
      match type of Htable with
      | parse_met_expenses ?c ?t ?i ?n = _ =>
          pose proof (parse_met_expenses_fine c i t n) as Hfine
      end.
      rewrite Htable in Hfine. right. exact Hfine.
  - intros Hr. inversion Hr; subst x. left.
    apply for_extend_raise in Hacts. destruct Hacts as [table [Hin Htable]].
    destruct (activity_table_raise _ _ _ _ _ _ Htable) as [nm [label Hfind]].
    split.
    + exact (first_with_text_raise _ _ _ Hfind).
    + exists table, nm, label. split; assumption.
Qed.

(** The theorem at [deep_document]. *)
Lemma lobbyist_report_exceptions_witness :
  parse_lobbyist_report no_dates deep_document "deep"
    = Raise (Exc RecursionError "maximum recursion depth exceeded") /\
  ((Exc RecursionError "maximum recursion depth exceeded"
    = Exc RecursionError "maximum recursion depth exceeded" /\
    exists table nm label,
      In table (soup_find_all deep_document "table"
                  (Some (fun x => truthy x && contains "grdvActivitiesNew" x))) /\
      find_previous_text deep_document table nm (re_label label)
        = Raise (Exc RecursionError "maximum recursion depth exceeded")) \/
   Exc RecursionError "maximum recursion depth exceeded" = strftime_error).
Proof.
  assert (Hrun : parse_lobbyist_report no_dates deep_document "deep"
                 = Raise (Exc RecursionError "maximum recursion depth exceeded"))
    by (vm_compute; reflexivity).
  split; [exact Hrun|].
  exact (@lobbyist_report_exceptions no_dates deep_document "deep" _ Hrun).
Defined.

(* --------------------------------------------------------------------- *)
(** ** The outcomes of one file *)
(* --------------------------------------------------------------------- *)

Lemma merge_empty_l (b : batch) : merge empty_batch b = b.
Proof. destruct b. reflexivity. Qed.

Lemma merge_assoc (a b c : batch) : merge (merge a b) c = merge a (merge b c).
Proof.
  destruct a, b, c. unfold merge. simpl.
  rewrite <- !app_assoc, <- !Nat.add_assoc. reflexivity.
Qed.

(** Reads a batch merged with a chain of updates as the chain on the
    batch. *)
Ltac from_merge :=
  repeat progress rewrite <- ?extend_skipped_files_log_merge,
    <- ?extend_disclosure_reports_list_merge,
    <- ?extend_lobbyists_list_merge, <- ?extend_clients_list_merge,
    <- ?extend_compensations_list_merge, <- ?extend_lobbying_activities_list_merge,
    <- ?extend_met_expenses_list_merge, <- ?extend_operating_expenses_list_merge,
    <- ?extend_additional_expenses_list_merge, <- ?extend_contributions_list_merge,
    <- ?incr_processed_count_merge, <- ?incr_skipped_no_header_merge,
    <- ?incr_skipped_other_error_merge;
  rewrite merge_empty; reflexivity.

Lemma process_file_delta (to_datetime_coerce : string -> datetime) (st : batch)
    (file : string * node) :
  process_file to_datetime_coerce st file = merge st (file_delta to_datetime_coerce file).
Proof.
  destruct file as [filename soup]. unfold file_delta, process_file.
  destruct (find soup "span" (Some (String.eqb header_id))) as [header_element|];
    [|from_merge].
  unfold try_except_exception, try_block, sbind, call, update.
  rewrite parse_date_range_value.
  set (period := match two_dates _ with Some (d1, d2) => _ | None => _ end).
  destruct period as [start_date end_date].
  destruct (contains "Lobbyist" (get_text_strip header_element)).
  - change (contains "Lobbyist" "Lobbyist") with true. cbv iota.
    destruct (parse_lobbyist_report to_datetime_coerce soup (derive_disclosure_id filename))
      as [[[[[[li acts] mets] ops] adds] cons]|e]; [|unfold except_block]; from_merge.
  - change (contains "Lobbyist" "Client") with false. cbv iota.
    destruct (parse_client_report to_datetime_coerce soup (derive_disclosure_id filename))
      as [[[[[ci comps] mets] ops] adds]|e]; [|unfold except_block]; from_merge.
Qed.

Lemma file_delta_cases (to_datetime_coerce : string -> datetime) (filename : string)
    (soup : node) :
  match find soup "span" (Some (String.eqb header_id)) with
  | None =>
      file_delta to_datetime_coerce (filename, soup) =
      Batch [(filename ++ " (Reason: Invalid Content / No Header)")%string]
        [] [] [] [] [] [] [] [] [] 0 0 1 0
  | Some header =>
      exists start_date end_date,
        parse_date_range (safe_get_text soup "span" "ContentPlaceHolder1_lblYear")
          = Return (start_date, end_date) /\
        if contains "Lobbyist" (get_text_strip header) then
          match parse_lobbyist_report to_datetime_coerce soup
                  (derive_disclosure_id filename) with
          | Return (li, acts, mets, ops, adds, gifts) =>
              file_delta to_datetime_coerce (filename, soup) =
              Batch []
                [Report (derive_disclosure_id filename) "Lobbyist" start_date end_date]
                [li] [] [] acts mets ops adds gifts 1 0 0 0
          | Raise e =>
              file_delta to_datetime_coerce (filename, soup) =
              Batch [(filename ++ " (Reason: Parsing Error - " ++ exc_msg e ++ ")")%string]
                [Report (derive_disclosure_id filename) "Lobbyist" start_date end_date]
                [] [] [] [] [] [] [] [] 0 0 0 1
          end
        else
          match parse_client_report to_datetime_coerce soup
                  (derive_disclosure_id filename) with
          | Return (ci, comps, mets, ops, adds) =>
              file_delta to_datetime_coerce (filename, soup) =
              Batch []
                [Report (derive_disclosure_id filename) "Client" start_date end_date]
                [] [ci] comps [] mets ops adds [] 1 0 0 0
          | Raise e =>
              file_delta to_datetime_coerce (filename, soup) =
              Batch [(filename ++ " (Reason: Parsing Error - " ++ exc_msg e ++ ")")%string]
                [Report (derive_disclosure_id filename) "Client" start_date end_date]
                [] [] [] [] [] [] [] [] 0 0 0 1
          end
  end.
Proof.
  unfold file_delta, process_file.
  destruct (find soup "span" (Some (String.eqb header_id))) as [header_element|];
    [|reflexivity].
  unfold try_except_exception, try_block, sbind, call, update.
  rewrite parse_date_range_value.
  set (period := match two_dates _ with Some (d1, d2) => _ | None => _ end).
  destruct period as [start_date end_date].
  exists start_date, end_date. split; [reflexivity|].
  destruct (contains "Lobbyist" (get_text_strip header_element)).
  - change (contains "Lobbyist" "Lobbyist") with true. cbv iota.
    destruct (parse_lobbyist_report to_datetime_coerce soup (derive_disclosure_id filename))
      as [[[[[[li acts] mets] ops] adds] cons]|e]; reflexivity.
  - change (contains "Lobbyist" "Client") with false. cbv iota.
    destruct (parse_client_report to_datetime_coerce soup (derive_disclosure_id filename))
      as [[[[[ci comps] mets] ops] adds]|e]; reflexivity.
Qed.

(** X11.  A filing that has the header element but not the word
    [Lobbyist] in it is read as a client filing, whatever its period text
    holds.  When [parse_client_report] returns, the turn of the loop adds
    one report row of type [Client], one client record and the records
    returned, counts the file as processed and logs nothing.  The parser
    raises only what [strftime] raises for a date cell whose timestamp
    [datetime.datetime] cannot hold; then the file is counted as skipped
    and logged, no client record is added, and the report row stays.  In
    neither case a lobbyist, activity or contribution record is added. *)
Theorem client_filing_outcomes (to_datetime_coerce : string -> datetime)
    (st : batch) (filename : string) (soup header : node) :
  find soup "span" (Some (String.eqb header_id)) = Some header ->
  contains "Lobbyist" (get_text_strip header) = false ->
  exists start_date end_date,
    parse_date_range (safe_get_text soup "span" "ContentPlaceHolder1_lblYear")
      = Return (start_date, end_date) /\
    match parse_client_report to_datetime_coerce soup (derive_disclosure_id filename) with
    | Return (ci, comps, mets, ops, adds) =>
        process_file to_datetime_coerce st (filename, soup) =
        merge st
          (Batch [] [Report (derive_disclosure_id filename) "Client" start_date end_date]
             [] [ci] comps [] mets ops adds [] 1 0 0 0)
    | Raise e =>
        e = strftime_error /\
        process_file to_datetime_coerce st (filename, soup) =
        merge st
          (Batch [(filename ++ " (Reason: Parsing Error - " ++ exc_msg e ++ ")")%string]
             [Report (derive_disclosure_id filename) "Client" start_date end_date]
             [] [] [] [] [] [] [] [] 0 0 0 1)
    end.
Proof.
  intros Hheader Hclient. rewrite process_file_delta.
  pose proof (file_delta_cases to_datetime_coerce filename soup) as Hcases.
  rewrite Hheader, Hclient in Hcases.
  destruct Hcases as [start_date [end_date [Hperiod Hdelta]]].
  exists start_date, end_date. split; [exact Hperiod|].
  destruct (parse_client_report to_datetime_coerce soup (derive_disclosure_id filename))
    as [[[[[ci comps] mets] ops] adds]|e] eqn:Hparse.
  - rewrite Hdelta. reflexivity.
  - split; [exact (parse_client_report_raise _ _ _ Hparse)|].
    rewrite Hdelta. reflexivity.
Qed.

(** The theorem at [year_zero_document], read with a date reader that
    takes [0000-01-01] for the first day of the year 0. *)
Lemma client_filing_outcomes_witness :
  find year_zero_document "span" (Some (String.eqb header_id))
    = Some (span header_id "Client Disclosure Report") /\
  contains "Lobbyist" (get_text_strip (span header_id "Client Disclosure Report")) = false /\
  parse_client_report (reads_only "0000-01-01" (Date 0 1 1)) year_zero_document "Z"
    = Raise strftime_error /\
  exists start_date end_date,
    process_file (reads_only "0000-01-01" (Date 0 1 1)) empty_batch
      ("Z.html", year_zero_document) =
    merge empty_batch
      (Batch [("Z.html" ++ " (Reason: Parsing Error - " ++ exc_msg strftime_error ++ ")")%string]
         [Report "Z" "Client" start_date end_date]
         [] [] [] [] [] [] [] [] 0 0 0 1).
Proof.
  assert (Hheader : find year_zero_document "span" (Some (String.eqb header_id))
                    = Some (span header_id "Client Disclosure Report"))
    by (vm_compute; reflexivity).
  assert (Hclient : contains "Lobbyist"
                      (get_text_strip (span header_id "Client Disclosure Report")) = false)
    by (vm_compute; reflexivity).
  assert (Hraise : parse_client_report (reads_only "0000-01-01" (Date 0 1 1))
                     year_zero_document (derive_disclosure_id "Z.html")
                   = Raise strftime_error)
    by (vm_compute; reflexivity).
  split; [exact Hheader|]. split; [exact Hclient|]. split; [exact Hraise|].
  destruct (@client_filing_outcomes (reads_only "0000-01-01" (Date 0 1 1)) empty_batch
              "Z.html" year_zero_document _ Hheader Hclient)
    as [start_date [end_date [_ Hrun]]].
  rewrite Hraise in Hrun. destruct Hrun as [_ Hrun].
  exists start_date, end_date. exact Hrun.
Defined.

(* --------------------------------------------------------------------- *)
(** ** The run of [main] over a listing *)
(* --------------------------------------------------------------------- *)

Lemma fold_process_file_merge (to_datetime_coerce : string -> datetime)
    (files : list (string * node)) (st : batch) :
  fold_left (process_file to_datetime_coerce) files st =
  merge st (fold_left (process_file to_datetime_coerce) files empty_batch).
Proof.
  revert st. induction files as [|f files IH]; intros st; cbn [fold_left].
  - rewrite merge_empty. reflexivity.
  - rewrite (IH (process_file to_datetime_coerce st f)).
    rewrite (IH (process_file to_datetime_coerce empty_batch f)).
    rewrite (process_file_delta to_datetime_coerce st f).
    rewrite merge_assoc. reflexivity.
Qed.

Lemma accounts_for_merge (a b : batch) (n m : nat) :
  accounts_for a n -> accounts_for b m -> accounts_for (merge a b) (n + m).
Proof.
  unfold accounts_for. destruct a, b. unfold merge. simpl. rewrite !length_app. lia.
Qed.

Lemma file_delta_accounts (to_datetime_coerce : string -> datetime)
    (file : string * node) :
  accounts_for (file_delta to_datetime_coerce file) 1.
Proof.
  destruct file as [filename soup].
  pose proof (file_delta_cases to_datetime_coerce filename soup) as Hcases.
  destruct (find soup "span" (Some (String.eqb header_id))) as [header|].
  - destruct Hcases as [start_date [end_date [_ Hcases]]].
    destruct (contains "Lobbyist" (get_text_strip header)).
    + destruct (parse_lobbyist_report _ _ _) as [[[[[[li acts] mets] ops] adds] cons]|e];
        rewrite Hcases; unfold accounts_for; cbn; repeat split; reflexivity.
    + destruct (parse_client_report _ _ _) as [[[[[ci comps] mets] ops] adds]|e];
        rewrite Hcases; unfold accounts_for; cbn; repeat split; reflexivity.
  - rewrite Hcases. unfold accounts_for. cbn. repeat split; reflexivity.
Qed.

Lemma fold_process_file_accounts (to_datetime_coerce : string -> datetime)
    (files : list (string * node)) :
  accounts_for (fold_left (process_file to_datetime_coerce) files empty_batch)
    (length files).
Proof.
  induction files as [|f files IH]; cbn [fold_left length].
  - unfold accounts_for. cbn. repeat split; reflexivity.
  - rewrite fold_process_file_merge.
    change (S (length files)) with (1 + length files)%nat.
    apply accounts_for_merge; [apply file_delta_accounts | exact IH].
Qed.


(** X12.  The files of a listing do not influence each other.  The batch
    that [main] collects from two listings one after the other is the
    batch of the first followed by the batch of the second, the counters
    added; so every table that is written without deduplication, and the
    log of skipped files, is the table of the first listing followed by
    the table of the second. *)
Theorem main_of_listings_in_a_row (to_datetime_coerce : string -> datetime)
    (first_listing second_listing : list (string * node)) :
  let out := main to_datetime_coerce (first_listing ++ second_listing) in
  let out1 := main to_datetime_coerce first_listing in
  let out2 := main to_datetime_coerce second_listing in
  summary out = merge (summary out1) (summary out2) /\
  df_reports out = df_reports out1 ++ df_reports out2 /\
  df_compensations out = df_compensations out1 ++ df_compensations out2 /\
  df_activities out = df_activities out1 ++ df_activities out2 /\
  df_met_expenses out = df_met_expenses out1 ++ df_met_expenses out2 /\
  df_operating_expenses out = df_operating_expenses out1 ++ df_operating_expenses out2 /\
  df_additional_expenses out = df_additional_expenses out1 ++ df_additional_expenses out2 /\
  df_contributions out = df_contributions out1 ++ df_contributions out2 /\
  skipped_files_txt out = skipped_files_txt out1 ++ skipped_files_txt out2.
Proof.
  intros out out1 out2.
  assert (Hsum : summary out = merge (summary out1) (summary out2)).
  { unfold out, out1, out2, main. cbn [summary].
    rewrite filter_app, fold_left_app. apply fold_process_file_merge. }
  split; [exact Hsum|].
  unfold out, out1, out2, main in *. cbn [summary] in Hsum.
  cbn [df_reports df_compensations df_activities df_met_expenses df_operating_expenses
       df_additional_expenses df_contributions skipped_files_txt].
  rewrite Hsum. repeat split; reflexivity.
Qed.

(* --------------------------------------------------------------------- *)
(** ** Deduplication when the identifiers differ *)
(* --------------------------------------------------------------------- *)

Lemma drop_duplicates_from_fresh {A : Type} `{Keyed A} (seen : list string)
    (rows : list A) :
  NoDup (map disclosure_id rows) ->
  (forall r, In r rows -> ~ In (disclosure_id r) seen) ->
  drop_duplicates_from seen rows = rows.
Proof.
  revert seen. induction rows as [|r rows IH]; intros seen Hnd Hfresh; [reflexivity|].
  cbn [drop_duplicates_from]. cbn [map] in Hnd. inversion Hnd as [|k ks Hk Hks]; subst.
  destruct (existsb (String.eqb (disclosure_id r)) seen) eqn:Hseen.
  - apply seen_spec in Hseen. exfalso. apply (Hfresh r); [left; reflexivity | exact Hseen].
  - f_equal. apply IH; [exact Hks|].
    intros r' Hin [Heq | Hold].
    + apply Hk. rewrite Heq. apply in_map. exact Hin.
    + apply (Hfresh r'); [right; exact Hin | exact Hold].
Qed.

Lemma NoDup_keys_flat_map {A X : Type} `{Keyed A} (key : X -> string)
    (piece : X -> list A) (xs : list X) :
  (forall x, keyed_by (key x) (piece x) /\ (length (piece x) <= 1)%nat) ->
  NoDup (map key xs) ->
  NoDup (map disclosure_id (flat_map piece xs)).
Proof.
  intros Hpiece. induction xs as [|x xs IH]; cbn [map flat_map]; [constructor|].
  intros Hnd. inversion Hnd as [|k ks Hk Hks]; subst.
  destruct (Hpiece x) as [Hkeys Hlen].
  destruct (piece x) as [|a [|b rest]]; cbn [app map].
  - apply IH. exact Hks.
  - constructor; [|apply IH; exact Hks].
    inversion Hkeys as [|a' l' Ha _]; subst.
    intros Hin. apply in_map_iff in Hin. destruct Hin as [r [Hr Hin]].
    apply in_flat_map in Hin. destruct Hin as [x' [Hx' Hin]].
    destruct (Hpiece x') as [Hkeys' _]. unfold keyed_by in Hkeys'.
    rewrite Forall_forall in Hkeys'. specialize (Hkeys' r Hin).
    apply Hk. rewrite <- Ha, <- Hr, Hkeys'. apply in_map. exact Hx'.
  - simpl in Hlen. lia.
Qed.

Lemma fold_process_file_cons (to_datetime_coerce : string -> datetime)
    (f : string * node) (files : list (string * node)) :
  fold_left (process_file to_datetime_coerce) (f :: files) empty_batch =
  merge (file_delta to_datetime_coerce f)
    (fold_left (process_file to_datetime_coerce) files empty_batch).
Proof. cbn [fold_left]. rewrite fold_process_file_merge. reflexivity. Qed.

Lemma lobbyists_list_of_files (to_datetime_coerce : string -> datetime)
    (files : list (string * node)) :
  lobbyists_list (fold_left (process_file to_datetime_coerce) files empty_batch) =
  flat_map (fun f => lobbyists_list (file_delta to_datetime_coerce f)) files.
Proof.
  induction files as [|f files IH]; [reflexivity|].
  rewrite fold_process_file_cons. cbn [flat_map]. rewrite <- IH. reflexivity.
Qed.

Lemma clients_list_of_files (to_datetime_coerce : string -> datetime)
    (files : list (string * node)) :
  clients_list (fold_left (process_file to_datetime_coerce) files empty_batch) =
  flat_map (fun f => clients_list (file_delta to_datetime_coerce f)) files.
Proof.
  induction files as [|f files IH]; [reflexivity|].
  rewrite fold_process_file_cons. cbn [flat_map]. rewrite <- IH. reflexivity.
Qed.

Lemma file_delta_keyed (to_datetime_coerce : string -> datetime) (f : string * node) :
  all_keyed (derive_disclosure_id (fst f)) (file_delta to_datetime_coerce f).
Proof.
  destruct f as [filename soup].
  destruct (process_file_adds to_datetime_coerce empty_batch filename soup)
    as [added [Hadded Hkeyed]].
  unfold file_delta. rewrite Hadded, merge_empty_l. exact Hkeyed.
Qed.

(** X13.  When the [.html] files of a listing derive different
    identifiers, deduplication drops nothing: the lobbyist table and the
    client table that [main] writes are the lists it collected, in the
    order of the files. *)
Theorem distinct_identifiers_lose_no_record (to_datetime_coerce : string -> datetime)
    (listing : list (string * node)) :
  NoDup (derived_ids (html_files listing)) ->
  let out := main to_datetime_coerce listing in
  df_lobbyists out = lobbyists_list (summary out) /\
  df_clients out = clients_list (summary out).
Proof.
  intros Hids out. unfold out, main. cbn [df_lobbyists df_clients summary].
  fold (html_files listing).
  pose proof (fold_process_file_accounts to_datetime_coerce (html_files listing)) as Hacc.
  split.
  - apply drop_duplicates_from_fresh; [|intros r _ []].
    rewrite lobbyists_list_of_files.
    apply (NoDup_keys_flat_map (fun f => derive_disclosure_id (fst f))); [|exact Hids].
    intros f. split.
    + exact (proj1 (proj2 (file_delta_keyed to_datetime_coerce f))).
    + pose proof (file_delta_accounts to_datetime_coerce f) as Hf.
      unfold accounts_for in Hf. lia.
  - apply drop_duplicates_from_fresh; [|intros r _ []].
    rewrite clients_list_of_files.
    apply (NoDup_keys_flat_map (fun f => derive_disclosure_id (fst f))); [|exact Hids].
    intros f. split.
    + exact (proj1 (proj2 (proj2 (file_delta_keyed to_datetime_coerce f)))).
    + pose proof (file_delta_accounts to_datetime_coerce f) as Hf.
      unfold accounts_for in Hf. lia.
Qed.

(** The theorem at [mixed_listing]. *)
Lemma distinct_identifiers_lose_no_record_witness :
  derived_ids (html_files mixed_listing) = ["L7"; "C3"] /\
  df_lobbyists (main no_dates mixed_listing)
    = lobbyists_list (summary (main no_dates mixed_listing)) /\
  df_clients (main no_dates mixed_listing)
    = clients_list (summary (main no_dates mixed_listing)).
Proof.
  split; [reflexivity|].
  apply (@distinct_identifiers_lose_no_record no_dates mixed_listing).
  change (NoDup ["L7"; "C3"]).
  constructor; [intros [H | []]; discriminate H|].
  constructor; [intros []|]. constructor.
Defined.

(* --------------------------------------------------------------------- *)
(** ** Identifiers are never empty *)
(* --------------------------------------------------------------------- *)

Lemma group_before_html_nonempty (s g : string) :
  group_before_html s = Some g -> truthy g = true.
Proof.
  destruct s as [|c s]; cbn [group_before_html]; [discriminate|].
  destruct (Ascii.eqb c "010"); [discriminate|].
  destruct (group_before_html s); [intros Hg; inversion Hg; reflexivity|].
  destruct (startswith ".html" s); [intros Hg; inversion Hg; reflexivity | discriminate].
Qed.

Lemma search_sysvalue_nonempty (s g : string) :
  search_sysvalue s = Some g -> truthy g = true.
Proof.
  induction s as [|c s IH]; cbn [search_sysvalue].
  - cbn. discriminate.
  - destruct (after_prefix "sysvalue=" (String c s)) as [r|]; [|exact IH].
    destruct (group_before_html r) as [g'|] eqn:Hg; [|exact IH].
    intros Hs. inversion Hs; subst g'. exact (group_before_html_nonempty _ Hg).
Qed.

Lemma replace_nonempty (old new s : string) :
  truthy new = true -> truthy s = true -> truthy (replace old new s) = true.
Proof.
  destruct s as [|c s]; [discriminate|]. intros Hnew _.
  unfold replace. cbn [replace_scan].
  destruct (startswith old (String c s)); [|reflexivity].
  destruct new; [discriminate | reflexivity].
Qed.

Lemma rfind_from_lower (c : ascii) (i last : Z) (s : string) :
  (-1 <= last)%Z -> (0 <= i)%Z -> (-1 <= rfind_from c i last s)%Z.
Proof.
  revert i last. induction s as [|a s IH]; intros i last Hlast Hi; cbn [rfind_from];
    [exact Hlast|].
  apply IH; [destruct (Ascii.eqb a c); lia | lia].
Qed.

Lemma splitext_root_nonempty (p : string) :
  truthy p = true -> truthy (splitext_root p) = true.
Proof.
  intros Hp. unfold splitext_root.
  assert (Hsep : (-1 <= rfind "/" p)%Z) by (apply rfind_from_lower; lia).
  destruct (rfind "/" p <? rfind "." p)%Z eqn:Hlt; [|exact Hp].
  apply Z.ltb_lt in Hlt.
  destruct (all_dots (slice p (rfind "/" p + 1) (rfind "." p))) eqn:Hdots; [exact Hp|].
  destruct p as [|c p]; [discriminate|].
  unfold slice in *.
  destruct (Z.to_nat (rfind "." (String c p) - 0)) as [|n] eqn:Hn; [|reflexivity].
  exfalso.
  assert (Hdot : rfind "." (String c p) = 0%Z) by lia.
  assert (Hsl : rfind "/" (String c p) = (-1)%Z) by lia.
  rewrite Hdot, Hsl in Hdots. cbn in Hdots. discriminate.
Qed.

Lemma derive_disclosure_id_nonempty (filename : string) :
  truthy filename = true -> truthy (derive_disclosure_id filename) = true.
Proof.
  intros Hname. unfold derive_disclosure_id.
  destruct (search_sysvalue filename) as [g|] eqn:Hs.
  - apply replace_nonempty; [reflexivity | exact (search_sysvalue_nonempty _ Hs)].
  - apply splitext_root_nonempty. exact Hname.
Qed.

Lemma disclosure_reports_list_of_files (to_datetime_coerce : string -> datetime)
    (files : list (string * node)) :
  disclosure_reports_list (fold_left (process_file to_datetime_coerce) files empty_batch) =
  flat_map (fun f => disclosure_reports_list (file_delta to_datetime_coerce f)) files.
Proof.
  induction files as [|f files IH]; [reflexivity|].
  rewrite fold_process_file_cons. cbn [flat_map]. rewrite <- IH. reflexivity.
Qed.

Lemma file_delta_report_ids (to_datetime_coerce : string -> datetime)
    (f : string * node) :
  map rep_disclosure_id (disclosure_reports_list (file_delta to_datetime_coerce f)) =
  if has_header f then [derive_disclosure_id (fst f)] else [].
Proof.
  destruct f as [filename soup]. unfold has_header. cbn [fst snd].
  pose proof (file_delta_cases to_datetime_coerce filename soup) as Hcases.
  destruct (find soup "span" (Some (String.eqb header_id))) as [header|].
  - destruct Hcases as [start_date [end_date [_ Hcases]]].
    destruct (contains "Lobbyist" (get_text_strip header)).
    + destruct (parse_lobbyist_report _ _ _) as [[[[[[li acts] mets] ops] adds] gifts]|e];
        rewrite Hcases; reflexivity.
    + destruct (parse_client_report _ _ _) as [[[[[ci comps] mets] ops] adds]|e];
        rewrite Hcases; reflexivity.
  - rewrite Hcases. reflexivity.
Qed.

(** X14.  The report table that [main] writes has one row for every
    [.html] file of the listing whose page has the header element, in the
    order of the listing, and the row carries the identifier derived from
    the file name; rows with the same identifier all stay, since this
    table is not deduplicated.  No identifier is the empty text: from a
    name with [sysvalue=] it is the matched value, which is not empty, and
    otherwise the name without its extension, which keeps at least one
    character. *)
Theorem report_rows_follow_the_files (to_datetime_coerce : string -> datetime)
    (listing : list (string * node)) :
  map rep_disclosure_id (df_reports (main to_datetime_coerce listing)) =
    derived_ids (filter has_header (html_files listing)) /\
  Forall (fun k => truthy k = true) (derived_ids (html_files listing)).
Proof.
  split.
  - unfold main. cbn [df_reports]. fold (html_files listing).
    rewrite disclosure_reports_list_of_files.
    induction (html_files listing) as [|f files IH]; [reflexivity|].
    cbn [flat_map filter]. rewrite map_app, IH, file_delta_report_ids.
    destruct (has_header f); reflexivity.
  - unfold derived_ids. apply Forall_forall. intros k Hk.
    apply in_map_iff in Hk. destruct Hk as [f [Hk Hf]]. subst k.
    apply derive_disclosure_id_nonempty.
    unfold html_files in Hf. apply filter_In in Hf. destruct Hf as [_ Hend].
    destruct (fst f); [discriminate Hend | reflexivity].
Qed.

(* --------------------------------------------------------------------- *)
(** ** The file name of a saved page and its identifier *)
(* --------------------------------------------------------------------- *)

Lemma contains_char_cons (c a : ascii) (s : string) :
  contains (String c EmptyString) (String a s) =
  Ascii.eqb c a || contains (String c EmptyString) s.
Proof.
  change (contains (String c EmptyString) (String a s))
    with (Ascii.eqb c a && true || contains (String c EmptyString) s).
  rewrite andb_true_r. reflexivity.
Qed.

Lemma sanitize_app (a b : string) :
  sanitize (a ++ b) = (sanitize a ++ sanitize b)%string.
Proof. induction a as [|x a IH]; cbn; [reflexivity | rewrite IH; reflexivity]. Qed.

Lemma sanitize_clean (s : string) :
  string_forall (fun c => negb (forbidden c)) (sanitize s) = true.
Proof.
  induction s as [|a s IH]; [reflexivity|].
  cbn [sanitize string_forall]. rewrite IH, andb_true_r.
  destruct (forbidden a) eqn:Ha; [reflexivity | rewrite Ha; reflexivity].
Qed.

Lemma sanitize_fixed (s : string) :
  string_forall (fun c => negb (forbidden c)) s = true -> sanitize s = s.
Proof.
  induction s as [|a s IH]; [reflexivity|].
  cbn [sanitize string_forall]. intros Hok. apply andb_true_iff in Hok.
  destruct Hok as [Ha Hs]. apply negb_true_iff in Ha. rewrite Ha, (IH Hs). reflexivity.
Qed.

Lemma sanitize_length (s : string) : String.length (sanitize s) = String.length s.
Proof. induction s as [|a s IH]; cbn; [reflexivity | rewrite IH; reflexivity]. Qed.

Lemma sanitize_keeps_absent (c : ascii) (s : string) :
  Ascii.eqb c "_" = false ->
  contains (String c EmptyString) s = false ->
  contains (String c EmptyString) (sanitize s) = false.
Proof.
  intros Hc. induction s as [|a s IH]; [intros _; reflexivity|].
  cbn [sanitize]. rewrite !contains_char_cons. intros Hs.
  apply orb_false_iff in Hs. destruct Hs as [Ha Hs].
  rewrite (IH Hs), orb_false_r. destruct (forbidden a); [exact Hc | exact Ha].
Qed.

Lemma string_forall_app (ok : ascii -> bool) (a b : string) :
  string_forall ok (a ++ b) = string_forall ok a && string_forall ok b.
Proof.
  induction a as [|x a IH]; cbn; [reflexivity|]. rewrite IH, andb_assoc. reflexivity.
Qed.

Lemma string_forall_no_char (ok : ascii -> bool) (c : ascii) (s : string) :
  string_forall ok s = true -> ok c = false ->
  contains (String c EmptyString) s = false.
Proof.
  intros Hs Hc. induction s as [|a s IH]; [reflexivity|].
  cbn [string_forall] in Hs. apply andb_true_iff in Hs. destruct Hs as [Ha Hs].
  rewrite contains_char_cons, (IH Hs), orb_false_r.
  destruct (Ascii.eqb c a) eqn:Heq; [|reflexivity].
  apply Ascii.eqb_eq in Heq. subst a. congruence.
Qed.

Lemma substring_suffix (a b : string) :
  substring (String.length a) (String.length b) (a ++ b) = b.
Proof.
  induction a as [|x a IH]; cbn [String.length append substring]; [|exact IH].
  induction b as [|y b IHb]; [reflexivity|].
  cbn [String.length substring]. rewrite IHb. reflexivity.
Qed.

Lemma endswith_app (a p : string) : endswith p (a ++ p) = true.
Proof.
  unfold endswith. rewrite length_append.
  replace (String.length a + String.length p - String.length p)%nat
    with (String.length a) by lia.
  rewrite substring_suffix, String.eqb_refl, andb_true_r.
  apply Nat.leb_le. lia.
Qed.

(** X15.  The name under which [scrape_url] saves a page holds none of
    the characters of the replaced class, so it has no slash and names a
    file directly in the output directory; it is as long as the URL
    without its scheme plus the five characters of [.html], and it ends
    in [.html], so the listing filter of [main] in [extractor.py] takes
    it. *)
Theorem saved_page_has_a_plain_file_name (url : string) :
  let filename := scrape_filename url in
  string_forall (fun c => negb (forbidden c)) filename = true /\
  contains "/" filename = false /\
  endswith ".html" filename = true /\
  String.length filename = (String.length (strip_scheme url) + 5)%nat /\
  forall soup : node, html_files [(filename, soup)] = [(filename, soup)].
Proof.
  intros filename. unfold filename, scrape_filename.
  assert (Hclean : string_forall (fun c => negb (forbidden c))
                     (sanitize (strip_scheme url) ++ ".html") = true).
  { rewrite string_forall_app, sanitize_clean. reflexivity. }
  split; [exact Hclean|]. split; [|split; [|split]].
  - apply (string_forall_no_char _ "/" _ Hclean). reflexivity.
  - apply endswith_app.
  - rewrite length_append, sanitize_length. reflexivity.
  - intros soup. unfold html_files. cbn [filter fst]. rewrite endswith_app. reflexivity.
Qed.

(** X16.  From [urlsscrape.py] to [extractor.py]: the page of a URL
    [scheme://body sysvalue=v], saved by [scrape_url] and read back by
    [main], gets as identifier the value [v] with every character of the
    replaced class turned into an underscore and then every [%2f] turned
    into a slash, provided [v] is not empty and has no line feed and the
    saved name has no earlier [sysvalue=].  So a value without characters
    of the class and without [%2f] is its own identifier, while a slash
    in the value is lost. *)
Theorem saved_page_identifier (body v : string) :
  contains "sysvalue=" (sanitize body ++ "sysvalue") = false ->
  v <> EmptyString ->
  contains (String "010" EmptyString) v = false ->
  derive_disclosure_id (scrape_filename ("https://" ++ body ++ "sysvalue=" ++ v))
    = replace "%2f" "/" (sanitize v) /\
  derive_disclosure_id (scrape_filename ("http://" ++ body ++ "sysvalue=" ++ v))
    = replace "%2f" "/" (sanitize v) /\
  (string_forall (fun c => negb (forbidden c)) v = true ->
   contains "%2f" v = false ->
   derive_disclosure_id (scrape_filename ("https://" ++ body ++ "sysvalue=" ++ v)) = v).
Proof.
  intros Hpre Hv Hnl.
  assert (Hname : scrape_filename ("https://" ++ body ++ "sysvalue=" ++ v)
                  = (sanitize body ++ "sysvalue=" ++ sanitize v ++ ".html")%string).
  { unfold scrape_filename.
    change (strip_scheme ("https://" ++ body ++ "sysvalue=" ++ v))
      with (body ++ "sysvalue=" ++ v)%string.
    rewrite !sanitize_app. change (sanitize "sysvalue=") with "sysvalue=".
    rewrite !append_assoc. reflexivity. }
  assert (Hname' : scrape_filename ("http://" ++ body ++ "sysvalue=" ++ v)
                   = scrape_filename ("https://" ++ body ++ "sysvalue=" ++ v))
    by reflexivity.
  assert (Hsv : sanitize v <> EmptyString) by (destruct v; [contradiction | discriminate]).
  assert (Hsnl : contains (String "010" EmptyString) (sanitize v) = false)
    by (apply sanitize_keeps_absent; [reflexivity | exact Hnl]).
  assert (Hid : derive_disclosure_id
                  (scrape_filename ("https://" ++ body ++ "sysvalue=" ++ v))
                = replace "%2f" "/" (sanitize v)).
  { rewrite Hname. unfold derive_disclosure_id.
    rewrite (@search_sysvalue_at_first (sanitize body) (sanitize v ++ ".html") (sanitize v)
               Hpre (group_before_html_value Hsv Hsnl)).
    reflexivity. }
  split; [exact Hid|]. split; [rewrite Hname'; exact Hid|].
  intros Hclean Hcode. rewrite Hid, (sanitize_fixed _ Hclean).
  clear - Hcode. unfold replace. induction v as [|c v IH]; [reflexivity|].
  apply contains_cons_false in Hcode. destruct Hcode as [Hhere Hrest].
  cbn [replace_scan]. rewrite Hhere, (IH Hrest). reflexivity.
Qed.

(** The theorem at a filing page whose value holds a slash. *)
Lemma saved_page_identifier_witness :
  scrape_filename ("https://" ++ sample_page ++ "sysvalue=" ++ "hvS0w46o+LKs/KbOfEhQ=")
    = "www.sec.state.ma.us_lobbyistpublicsearch_CompleteDisclosure.aspx_sysvalue=hvS0w46o+LKs_KbOfEhQ=.html" /\
  derive_disclosure_id
    (scrape_filename ("https://" ++ sample_page ++ "sysvalue=" ++ "hvS0w46o+LKs/KbOfEhQ="))
    = "hvS0w46o+LKs_KbOfEhQ=".
Proof.
  split; [reflexivity|].
  apply (@saved_page_identifier sample_page "hvS0w46o+LKs/KbOfEhQ=");
    [reflexivity | discriminate | reflexivity].
Defined.

(* --------------------------------------------------------------------- *)
(** ** Names put together from two fields *)
(* --------------------------------------------------------------------- *)

(** X17.  When [parse_client_report] returns, the [auth_officer_name]
    of its client record is the officer's first name and last name with
    one space between them when both fields are filled, the one that is
    filled when the other is empty, with no space before or after it, and
    the empty text when both are empty. *)
Theorem officer_name_is_the_full_name (to_datetime_coerce : string -> datetime)
    (soup : node) (k : string) (client_info : client)
    (compensations : list compensation) (met_expenses : list met_expense)
    (operating_expenses : list operating_expense)
    (additional_expenses : list additional_expense) :
  parse_client_report to_datetime_coerce soup k =
    Return (client_info, compensations, met_expenses, operating_expenses,
            additional_expenses) ->
  let officer_first := safe_get_text soup "span"
        "ContentPlaceHolder1_CRegistrationInfoReview1_lblClientAuthorizingOfficerFirstName" in
  let officer_last := safe_get_text soup "span"
        "ContentPlaceHolder1_CRegistrationInfoReview1_lblClientAuthorizingOfficerLastName" in
  cli_auth_officer_name client_info = full_name officer_first officer_last /\
  trimmed (cli_auth_officer_name client_info).
Proof.
  intros Hret officer_first officer_last.
  destruct (parse_client_report_parts _ _ _ Hret) as [Hci _].
  rewrite Hci. cbn [cli_auth_officer_name]. split; [|apply strip_trimmed].
  apply strip_full_name; apply safe_get_text_trimmed.
Qed.

(** The theorem at [officer_document], where only the first name is
    filled. *)
Lemma officer_name_is_the_full_name_witness :
  exists client_info,
    parse_client_report no_dates officer_document "of"
      = Return (client_info, [], [], [], []) /\
    cli_auth_officer_name client_info = "Ann".
Proof.
  assert (Hrun : { ci : client |
                   parse_client_report no_dates officer_document "of"
                     = Return (ci, [], [], [], []) }).
  { eexists. vm_compute. reflexivity. }
  destruct Hrun as [ci Hrun]. exists ci. split; [exact Hrun|].
  rewrite (proj1 (officer_name_is_the_full_name _ _ _ Hrun)). reflexivity.
Defined.

(* --------------------------------------------------------------------- *)
(** ** The lobbyist of a MET table *)
(* --------------------------------------------------------------------- *)

Lemma replace_absent (old new s : string) :
  contains old s = false -> replace old new s = s.
Proof.
  unfold replace. induction s as [|c s IH]; [reflexivity|].
  intros Hc. apply contains_cons_false in Hc. destruct Hc as [Hhere Hrest].
  cbn [replace_scan]. rewrite Hhere, (IH Hrest). reflexivity.
Qed.

(** X18.  The lobbyist name handed on for a MET table of a lobbyist
    filing: with a [lblLobbyistName] element before the table whose text
    is [Lobbyist: ] followed by a name, it is that name; with such an
    element whose text does not hold [Lobbyist: ], it is the whole text;
    with no such element it is the full name of the filer, which is empty
    for an organization. *)
Theorem met_table_lobbyist_name (soup : node) (first_name last_name : string)
    (table : element) :
  (forall (label : element) (name : string),
     find_previous soup table "span" (Some (contains "lblLobbyistName")) = Some label ->
     get_text_strip (el_node label) = ("Lobbyist: " ++ name)%string ->
     contains "Lobbyist: " name = false ->
     met_table_lobbyist soup first_name last_name table = name) /\
  (forall label : element,
     find_previous soup table "span" (Some (contains "lblLobbyistName")) = Some label ->
     contains "Lobbyist: " (get_text_strip (el_node label)) = false ->
     met_table_lobbyist soup first_name last_name table = get_text_strip (el_node label)) /\
  (find_previous soup table "span" (Some (contains "lblLobbyistName")) = None ->
   trimmed first_name -> trimmed last_name ->
   met_table_lobbyist soup first_name last_name table = full_name first_name last_name).
Proof.
  unfold met_table_lobbyist. split; [|split].
  - intros label name Hlabel Htext Hname. rewrite Hlabel, Htext.
    change (replace "Lobbyist: " EmptyString ("Lobbyist: " ++ name))
      with (replace "Lobbyist: " EmptyString name).
    apply replace_absent. exact Hname.
  - intros label Hlabel Htext. rewrite Hlabel. apply replace_absent. exact Htext.
  - intros Hnone Hf Hl. rewrite Hnone. apply strip_full_name; assumption.
Qed.

(** The theorem at the MET table of [met_label_document]. *)
Lemma met_table_lobbyist_name_witness :
  exists table label,
    In table (soup_find_all met_label_document "table" (Some (contains "grdvMETExpenses"))) /\
    find_previous met_label_document table "span" (Some (contains "lblLobbyistName"))
      = Some label /\
    get_text_strip (el_node label) = "Lobbyist: John Roe" /\
    met_table_lobbyist met_label_document EmptyString EmptyString table = "John Roe".
Proof.
  assert (Hfound : { table : element & { label : element |
            soup_find_all met_label_document "table" (Some (contains "grdvMETExpenses"))
              = [table] /\
            find_previous met_label_document table "span"
              (Some (contains "lblLobbyistName")) = Some label /\
            get_text_strip (el_node label) = ("Lobbyist: " ++ "John Roe")%string } }).
  { eexists. eexists. vm_compute. repeat split. }
  destruct Hfound as [table [label [Htables [Hlabel Htext]]]].
  exists table, label.
  split; [rewrite Htables; left; reflexivity|]. split; [exact Hlabel|].
  split; [exact Htext|].
  exact (proj1 (met_table_lobbyist_name met_label_document EmptyString EmptyString table)
           label "John Roe" Hlabel Htext eq_refl).
Defined.

(* --------------------------------------------------------------------- *)
(** ** The period text of the pages *)
(* --------------------------------------------------------------------- *)

Lemma small_digit (n : N) :
  In (n mod 10)%N (map N.of_nat (seq 0 10)).
Proof.
  assert (Hlt : (n mod 10 < 10)%N) by (apply N.mod_upper_bound; discriminate).
  set (k := (n mod 10)%N) in *.
  apply in_map_iff. exists (N.to_nat k). split; [apply N2Nat.id|].
  apply in_seq. lia.
Qed.

(** Settles a fact about [digit_char n] by the ten digits. *)
Ltac by_digit n :=
  unfold digit_char;
  let H := fresh "H" in
  pose proof (small_digit n) as H; cbn in H;
  repeat (destruct H as [H | H]; [rewrite <- H; reflexivity|]);
  destruct H.

Lemma digit_value_digit_char (n : N) : digit_value (digit_char n) = Some (n mod 10)%N.
Proof. by_digit n. Qed.

Lemma is_digit_digit_char (n : N) : is_digit (digit_char n) = true.
Proof. unfold is_digit. rewrite digit_value_digit_char. reflexivity. Qed.

Lemma isspace_digit_char (n : N) : isspace (digit_char n) = false.
Proof. by_digit n. Qed.

Lemma dash_digit_char (n : N) : Ascii.eqb (digit_char n) "-" = false.
Proof. by_digit n. Qed.

Lemma year_read (y : N) (rest : string) :
  (y < 10000)%N -> year_digits (pad4 y ++ rest) = Some (y, rest).
Proof.
  intros Hy. unfold year_digits, two_digits, pad4, pad2. cbn [append].
  rewrite !digit_value_digit_char. do 2 f_equal.
  zify. Z.to_euclidean_division_equations. lia.
Qed.

Lemma in_range (n lo len : nat) (k : N) :
  (N.of_nat lo <= k)%N -> (k < N.of_nat (lo + len))%N ->
  In k (map N.of_nat (seq lo len)).
Proof.
  intros Hlo Hhi. apply in_map_iff. exists (N.to_nat k). split; [apply N2Nat.id|].
  apply in_seq. lia.
Qed.

Lemma month_first (m : N) (rest : string) :
  (1 <= m)%N -> (m <= 12)%N ->
  exists others, month_alternatives (pad2 m ++ rest) = (m, rest) :: others.
Proof.
  intros Hlo Hhi.
  assert (H : In m (map N.of_nat (seq 1 12))) by (apply (in_range 0); lia).
  cbn in H.
  repeat (destruct H as [H | H]; [rewrite <- H; eexists; reflexivity|]).
  destruct H.
Qed.

Lemma day_first (d : N) (rest : string) :
  (1 <= d)%N -> (d <= 31)%N ->
  exists others, day_alternatives (pad2 d ++ rest) = (d, rest) :: others.
Proof.
  intros Hlo Hhi.
  assert (H : In d (map N.of_nat (seq 1 31))) by (apply (in_range 0); lia).
  cbn in H.
  repeat (destruct H as [H | H]; [rewrite <- H; eexists; reflexivity|]).
  destruct H.
Qed.

Lemma match_mdY_formatted (d : date) :
  (1 <= month d)%N -> (month d <= 12)%N -> (1 <= day d)%N -> (day d <= 31)%N ->
  (year d < 10000)%N ->
  match_mdY (format_mdY d) = Some (d, EmptyString).
Proof.
  intros Hm1 Hm2 Hd1 Hd2 Hy. destruct d as [y m dd]. cbn [year month day] in *.
  unfold match_mdY, format_mdY. cbn [year month day].
  destruct (@month_first m ("/" ++ pad2 dd ++ "/" ++ pad4 y) Hm1 Hm2) as [others Hm].
  rewrite Hm. cbn [first_some after_slash append].
  destruct (@day_first dd (String "/" (pad4 y)) Hd1 Hd2) as [others' Hd].
  rewrite Hd. cbn [first_some after_slash append].
  rewrite <- (append_empty_r (pad4 y)), (@year_read y EmptyString Hy). reflexivity.
Qed.

Lemma digit_is_no_nat_string (c : ascii) (r : string) :
  is_digit c = true ->
  String.eqb (String c r) EmptyString || existsb (String.eqb (String c r)) nat_strings
  = false.
Proof.
  intros Hc.
  assert (HN : Ascii.eqb c "N" = false).
  { destruct (Ascii.eqb c "N") eqn:E; [|reflexivity].
    apply Ascii.eqb_eq in E. subst c. discriminate Hc. }
  assert (Hn : Ascii.eqb c "n" = false).
  { destruct (Ascii.eqb c "n") eqn:E; [|reflexivity].
    apply Ascii.eqb_eq in E. subst c. discriminate Hc. }
  unfold nat_strings. cbn [existsb String.eqb orb]. rewrite HN, Hn. reflexivity.
Qed.

Lemma valid_date_bounds (d : date) :
  valid_date d = true ->
  (1 <= month d)%N /\ (month d <= 12)%N /\ (1 <= day d)%N /\
  (day d <= days_in_month (year d) (month d))%N /\ in_bounds d = true /\
  (year d < 10000)%N.
Proof.
  unfold valid_date. rewrite !andb_true_iff, !N.leb_le.
  intros [[[[Hm1 Hm2] Hd1] Hd2] Hb]. repeat split; try assumption.
  unfold in_bounds in Hb. apply andb_true_iff in Hb. destruct Hb as [_ Hb].
  apply N.leb_le in Hb. lia.
Qed.

Lemma to_datetime_mdY_formatted (d : date) :
  valid_date d = true -> to_datetime_mdY (format_mdY d) = Return (Timestamp d).
Proof.
  intros Hv. destruct (@valid_date_bounds d Hv) as [Hm1 [Hm2 [Hd1 [Hd2 [Hb Hy]]]]].
  pose proof (days_in_month_upper (year d) (month d)) as Hup.
  unfold to_datetime_mdY.
  rewrite match_mdY_formatted by (try assumption; lia).
  assert (Hs : exists c r, format_mdY d = String c r /\ is_digit c = true).
  { unfold format_mdY, pad2. cbn [append]. eexists. eexists.
    split; [reflexivity | apply is_digit_digit_char]. }
  destruct Hs as [c [r [Hs Hc]]]. rewrite Hs, (@digit_is_no_nat_string c r Hc).
  apply N.leb_le in Hd1, Hd2. rewrite Hd1, Hd2, Hb. reflexivity.
Qed.

Lemma count_char_app (c : ascii) (a b : string) :
  count_char c (a ++ b) = (count_char c a + count_char c b)%nat.
Proof. induction a as [|x a IH]; cbn; [reflexivity | rewrite IH; lia]. Qed.

Lemma format_mdY_no_dash (d : date) : count_char "-" (format_mdY d) = 0%nat.
Proof.
  unfold format_mdY, pad4, pad2. cbn [append count_char].
  rewrite !dash_digit_char. reflexivity.
Qed.

Lemma format_mdY_trimmed (d : date) : trimmed (format_mdY d).
Proof.
  unfold trimmed, format_mdY, pad4, pad2, rstrip. cbn [append no_lead rstrip_by].
  rewrite !isspace_digit_char. split; reflexivity.
Qed.

Lemma strip_space_after (a : string) : trimmed a -> strip (a ++ " ") = a.
Proof.
  intros [Hl Hr]. unfold strip. destruct a as [|c a]; [reflexivity|].
  rewrite lstrip_fixed by exact Hl. rewrite rstrip_append_space. exact Hr.
Qed.

Lemma strip_space_before (a : string) : trimmed a -> strip (" " ++ a) = a.
Proof. intros Ha. change (strip (" " ++ a)%string) with (strip a). apply trimmed_strip, Ha. Qed.

(** X19.  A period text in the form of the pages, two calendar days
    written [MM/DD/YYYY] around [ - ], is read back as these two days in
    the form [YYYY-MM-DD]: month and day are not exchanged and no day
    that a timestamp can hold is refused. *)
Theorem period_text_is_read_back (d1 d2 : date) :
  valid_date d1 = true -> valid_date d2 = true ->
  parse_date_range (format_mdY d1 ++ " - " ++ format_mdY d2)%string =
  Return (Some (format_ymd d1), Some (format_ymd d2)).
Proof.
  intros H1 H2. rewrite parse_date_range_value. unfold two_dates.
  change (format_mdY d1 ++ " - " ++ format_mdY d2)%string
    with (format_mdY d1 ++ " " ++ String "-" (" " ++ format_mdY d2))%string.
  rewrite <- append_assoc.
  rewrite split_at_separator
    by (rewrite count_char_app, format_mdY_no_dash; reflexivity).
  rewrite split_without_separator
    by (change (" " ++ format_mdY d2)%string with (String " " (format_mdY d2));
        cbn [count_char]; rewrite format_mdY_no_dash; reflexivity).
  rewrite (@strip_space_after _ (format_mdY_trimmed d1)).
  rewrite (@strip_space_before _ (format_mdY_trimmed d2)).
  rewrite (@to_datetime_mdY_formatted _ H1), (@to_datetime_mdY_formatted _ H2).
  reflexivity.
Qed.

(** The theorem at the first half of 2024. *)
Lemma period_text_is_read_back_witness :
  valid_date (Date 2024 1 1) = true /\
  valid_date (Date 2024 6 30) = true /\
  parse_date_range "01/01/2024 - 06/30/2024"
    = Return (Some "2024-01-01", Some "2024-06-30").
Proof.
  split; [reflexivity|]. split; [reflexivity|].
  exact (@period_text_is_read_back (Date 2024 1 1) (Date 2024 6 30) eq_refl eq_refl).
Defined.
